(** * Projects Dashboard: the client-side data-derivation pipeline

    A shallow embedding of the filter / sort / aggregate / paginate pipeline
    of the dashboard, in its two variants:

    - [Dashboard]: the page component that reads its KPIs through
      [calculateKPIs] (api/kpis.ts) and its charts through [ChartsPanel]
      (components/ChartsPanel.tsx).  It is written defensively: every field
      read goes through a default ([??]) or a test against [null].
    - [Pages]: the component of pages/DashboardPage.tsx, which computes KPIs
      and charts inline and trusts the declared [Project] type.

    Conventions.
    - Where the code only compares, subtracts and counts, a JS number is
      modelled by an integer of [Z], and so are the amounts of the records of
      [Dashboard] and [Pages]; their totals and their burn rate are computed
      exactly there.  The arithmetic of the KPIs as the engine performs it, on
      IEEE 754 binary64 numbers, is modelled by [Number], [DashboardNum] and
      [PagesNum]; integer amounts whose absolute values sum to [2^53] at most
      have the same totals in both.
    - [null] and [undefined] are both [None]: the code only tests them with
      [== null] and [??], which do not tell them apart.
    - [Array.prototype.sort] is the stable sort of ECMAScript 2019, modelled
      by a stable insertion sort.  For a consistent comparator the stable
      arrangement of an array is unique ([sort_is_the_stable_sort]), so the
      algorithm of the engine does not matter; the comparator of the sort
      stage is consistent when the collation of the host is
      ([sortStage_is_the_stable_sort]).
    - Host services (collation, currency formatting, date parsing) are the
      methods of the class [Host]. *)

From Stdlib Require Import ZArith QArith Qround Qabs Qpower Ascii String List Lia Lqa.
From Stdlib Require Import Floats.SpecFloat.
From Stdlib Require Import DecimalString.
From stdpp Require Import gmap list strings sorting.

Local Open Scope Z_scope.

(** ** The JavaScript primitives the pipeline uses *)

Module Js.

(** [String(n)] for an integer-valued number. *)
Definition numToString (n : Z) : string :=
  NilZero.string_of_int (Z.to_int n).

(** ASCII restriction of [String.prototype.toLowerCase]. *)
Definition lowerChar (c : ascii) : ascii :=
  let n := N_of_ascii c in
  if ((65 <=? n) && (n <=? 90))%N then ascii_of_N (n + 32) else c.

Fixpoint toLowerCase (s : string) : string :=
  match s with
  | EmptyString => EmptyString
  | String c s' => String (lowerChar c) (toLowerCase s')
  end.

(** White space and line terminators of the ASCII range: TAB, LF, VT, FF, CR
    and SPACE. *)
Definition isSpace (c : ascii) : bool :=
  let n := N_of_ascii c in
  (((9 <=? n) && (n <=? 13)) || (n =? 32))%N.

Fixpoint trimStart (s : string) : string :=
  match s with
  | EmptyString => EmptyString
  | String c s' => if isSpace c then trimStart s' else s
  end.

Fixpoint trimEnd (s : string) : string :=
  match s with
  | EmptyString => EmptyString
  | String c s' =>
      match trimEnd s' with
      | EmptyString => if isSpace c then EmptyString else String c EmptyString
      | t => String c t
      end
  end.

(** [String.prototype.trim] *)
Definition trim (s : string) : string := trimEnd (trimStart s).

(** [String.prototype.includes]: literal substring search. *)
Fixpoint includes (hay needle : string) : bool :=
  String.prefix needle hay ||
  match hay with
  | EmptyString => false
  | String _ hay' => includes hay' needle
  end.

(** [Array.prototype.join(sep)] on an array of strings. *)
Definition join (sep : string) (parts : list string) : string :=
  String.concat sep parts.

(** Truthiness of a string: [!q] holds exactly for the empty string. *)
Definition isEmpty (s : string) : bool :=
  match s with EmptyString => true | _ => false end.

(** [Array.prototype.slice(start, end)]: a negative index counts from the
    end, both indices are clamped to the array, and an empty range gives an
    empty array. *)
Definition relIndex (len i : Z) : Z :=
  if i <? 0 then Z.max (len + i) 0 else Z.min i len.

Definition slice {A} (l : list A) (start end_ : Z) : list A :=
  let len := Z.of_nat (length l) in
  let k := relIndex len start in
  let final := relIndex len end_ in
  take (Z.to_nat (final - k)) (drop (Z.to_nat k) l).

(** [Array.prototype.sort(cmp)].  [cmp x y <= 0] keeps [x] in front of [y];
    an element is placed in front of the first element of the sorted rest
    that it does not exceed, so equal elements keep their input order. *)
Fixpoint insert {A} (cmp : A -> A -> Z) (x : A) (l : list A) : list A :=
  match l with
  | [] => [x]
  | y :: l' => if cmp x y <=? 0 then x :: l else y :: insert cmp x l'
  end.

Definition sort {A} (cmp : A -> A -> Z) (l : list A) : list A :=
  foldr (insert cmp) [] l.

(** [Math.ceil] and [Math.round] (ties go up) of an exact value.  An engine
    applies them to a number: to the quotient rounded to binary64
    ([Number.round]), which at or next to a tie may lie on the other side of
    it. *)
Definition ceil (x : Q) : Z := Qceiling x.
Definition round (x : Q) : Z := Qfloor (x + (1 # 2)).

End Js.

(** ** Data model (types/project.ts) *)

Inductive ProjectStatus := ACTIVE | PAUSED | DONE.

Inductive StatusFilter := ALL | Only (s : ProjectStatus).

Inductive SortDir := asc | desc.

#[global] Instance ProjectStatus_eq_dec : EqDecision ProjectStatus.
Proof. solve_decision. Defined.

#[global] Instance StatusFilter_eq_dec : EqDecision StatusFilter.
Proof. solve_decision. Defined.

#[global] Instance SortDir_eq_dec : EqDecision SortDir.
Proof. solve_decision. Defined.

Definition statusLabel (s : ProjectStatus) : string :=
  match s with
  | ACTIVE => "ACTIVE"
  | PAUSED => "PAUSED"
  | DONE => "DONE"
  end.

(** The services of the host the components call.  [localeCompare] is the
    collation of [String.prototype.localeCompare]; [formatEUR] is the
    [Intl.NumberFormat] currency formatter; [dateTime s] is
    [new Date(s).getTime()], with [None] for [NaN]. *)
Class Host := {
  localeCompare : string -> string -> Z;
  formatEUR : Z -> string;
  dateTime : string -> option Z;
}.

(** Per-status counters: the object [{ ACTIVE: 0, PAUSED: 0, DONE: 0 }]. *)
Record Counts := { nACTIVE : Z; nPAUSED : Z; nDONE : Z }.

Definition bump (s : ProjectStatus) (m : Counts) : Counts :=
  match s with
  | ACTIVE => {| nACTIVE := nACTIVE m + 1; nPAUSED := nPAUSED m; nDONE := nDONE m |}
  | PAUSED => {| nACTIVE := nACTIVE m; nPAUSED := nPAUSED m + 1; nDONE := nDONE m |}
  | DONE => {| nACTIVE := nACTIVE m; nPAUSED := nPAUSED m; nDONE := nDONE m + 1 |}
  end.

Definition statusRows (m : Counts) : list (string * Z) :=
  [("ACTIVE"%string, nACTIVE m); ("PAUSED"%string, nPAUSED m); ("DONE"%string, nDONE m)].

(** ** The dashboard built on [calculateKPIs] and [ChartsPanel] *)

Module Dashboard.

(** A project as the defensive code reads it off the wire: [id] is the key
    of the store, every other property may be missing. *)
Record Project := {
  id : Z;
  name : option string;
  status : option ProjectStatus;
  owner : option string;
  budget : option Z;
  spent : option Z;
  createdAt : option string;
}.

#[global] Instance Project_eq_dec : EqDecision Project.
Proof. solve_decision. Defined.

Inductive SortKey := KCreatedAt | KName | KOwner | KBudget | KSpent | KStatus.

#[global] Instance SortKey_eq_dec : EqDecision SortKey.
Proof. solve_decision. Defined.

(** A value read through [any]. *)
Inductive value := VNull | VNum (n : Z) | VStr (s : string).

(** [(p as any)[sortKey]] *)
Definition field (k : SortKey) (p : Project) : value :=
  match k with
  | KCreatedAt => from_option VStr VNull (createdAt p)
  | KName => from_option VStr VNull (name p)
  | KOwner => from_option VStr VNull (owner p)
  | KBudget => from_option VNum VNull (budget p)
  | KSpent => from_option VNum VNull (spent p)
  | KStatus => from_option (fun s => VStr (statusLabel s)) VNull (status p)
  end.

(** [String(v)] *)
Definition toString (v : value) : string :=
  match v with
  | VNull => "null"
  | VNum n => Js.numToString n
  | VStr s => s
  end.

Section WithHost.
Context `{Host}.

(** api/kpis.ts, on integer amounts and in exact arithmetic.  The totals
    that the engine adds up, and the burn rate that it rounds, are those of
    [DashboardNum]. *)

Record KPI := { label : string; kvalue : string + Z }.

Definition totalBudget (projects : list Project) : Z :=
  fold_left (fun s p => s + default 0 (budget p)) projects 0.

Definition totalSpent (projects : list Project) : Z :=
  fold_left (fun s p => s + default 0 (spent p)) projects 0.

Definition activeCount (projects : list Project) : Z :=
  Z.of_nat (length (List.filter (fun p => bool_decide (status p = Some ACTIVE)) projects)).

Definition burnRate (projects : list Project) : Z :=
  if totalBudget projects <=? 0 then 0
  else Js.round ((inject_Z (totalSpent projects) / inject_Z (totalBudget projects)) * 100).

Definition calculateKPIs (projects : list Project) : list KPI :=
  [ {| label := "Total Budget"; kvalue := inl (formatEUR (totalBudget projects)) |};
    {| label := "Total Spent"; kvalue := inl (formatEUR (totalSpent projects)) |};
    {| label := "Active Projects"; kvalue := inr (activeCount projects) |};
    {| label := "Burn Rate"; kvalue := inl (Js.numToString (burnRate projects) ++ "%")%string |} ].

(** The page component. *)

Definition normalize (s : option string) : string :=
  Js.trim (Js.toLowerCase (default EmptyString s)).

Definition compare (a b : value) : Z :=
  match a, b with
  | VNull, VNull => 0
  | VNull, _ => -1
  | _, VNull => 1
  | VNum x, VNum y => x - y
  | _, _ => localeCompare (toString a) (toString b)
  end.

Definition matchesStatus (statusFilter : StatusFilter) (p : Project) : bool :=
  match statusFilter with
  | ALL => true
  | Only s => bool_decide (status p = Some s)
  end.

Definition hay (p : Project) : string :=
  Js.join " "
    (map normalize
       [ name p;
         owner p;
         Some (Js.numToString (id p));
         statusLabel <$> status p;
         Some (from_option Js.numToString EmptyString (budget p));
         Some (from_option Js.numToString EmptyString (spent p));
         createdAt p ]).

(** The callback of [projects.filter], with [q] already normalized. *)
Definition keeps (q : string) (statusFilter : StatusFilter) (p : Project) : bool :=
  if Js.isEmpty q then matchesStatus statusFilter p
  else matchesStatus statusFilter p && Js.includes (hay p) q.

Definition filterStage (projects : list Project) (query : string)
    (statusFilter : StatusFilter) : list Project :=
  List.filter (keeps (normalize (Some query)) statusFilter) projects.

(** The callback of [list.sort]. *)
Definition sortCmp (sortKey : SortKey) (sortDir : SortDir) (a b : Project) : Z :=
  let c := compare (field sortKey a) (field sortKey b) in
  match sortDir with asc => c | desc => - c end.

Definition sortStage (sortKey : SortKey) (sortDir : SortDir)
    (items : list Project) : list Project :=
  Js.sort (sortCmp sortKey sortDir) items.

Definition filteredProjects (projects : list Project) (query : string)
    (statusFilter : StatusFilter) (sortKey : SortKey) (sortDir : SortDir) : list Project :=
  sortStage sortKey sortDir (filterStage projects query statusFilter).

Definition pageSize : Z := 5.

Definition totalPages (n : nat) (size : Z) : Z :=
  Z.max 1 (Js.ceil (inject_Z (Z.of_nat n) / inject_Z size)).

Definition safePage (page totalPages : Z) : Z := Z.min page totalPages.

Definition pagedProjects (items : list Project) (safePage size : Z) : list Project :=
  let start := (safePage - 1) * size in
  Js.slice items start (start + size).

(** components/ChartsPanel.tsx *)

Record Bar := { bar_id : Z; bar_name : option string; bar_budget : Z; bar_spent : Z }.

Definition budgetDesc (a b : Project) : Z :=
  default 0 (budget b) - default 0 (budget a).

Definition toBar (p : Project) : Bar :=
  {| bar_id := id p; bar_name := name p;
     bar_budget := default 0 (budget p); bar_spent := default 0 (spent p) |}.

Definition topBudget (projects : list Project) : list Bar :=
  map toBar (Js.slice (Js.sort budgetDesc projects) 0 6).

(** A record without a status writes the counter of a fourth key, which is
    not among the rows returned. *)
Definition countByStatus (projects : list Project) : list (string * Z) :=
  statusRows
    (fold_left (fun m p => from_option (fun s => bump s m) m (status p)) projects
       {| nACTIVE := 0; nPAUSED := 0; nDONE := 0 |}).

(** The state of the component and what one render derives from it. *)

Record State := {
  query : string;
  statusFilter : StatusFilter;
  sortKey : SortKey;
  sortDir : SortDir;
  page : Z;
}.

Definition initial : State :=
  {| query := EmptyString; statusFilter := ALL; sortKey := KCreatedAt;
     sortDir := desc; page := 1 |}.

Definition setPage (f : Z -> Z) (st : State) : State :=
  {| query := query st; statusFilter := statusFilter st; sortKey := sortKey st;
     sortDir := sortDir st; page := f (page st) |}.

Record View := {
  v_kpis : list KPI;
  v_totalPages : Z;
  v_safePage : Z;
  v_pagedProjects : list Project;
  v_topBudget : list Bar;
  v_statusData : list (string * Z);
}.

Definition shown (projects : list Project) (st : State) : list Project :=
  filteredProjects projects (query st) (statusFilter st) (sortKey st) (sortDir st).

Definition render (projects : list Project) (st : State) : View :=
  let fp := shown projects st in
  let tp := totalPages (length fp) pageSize in
  let sp := safePage (page st) tp in
  {| v_kpis := calculateKPIs fp;
     v_totalPages := tp;
     v_safePage := sp;
     v_pagedProjects := pagedProjects fp sp pageSize;
     v_topBudget := topBudget fp;
     v_statusData := countByStatus fp |}.

(** The event handlers.  [Next] reads [totalPages] of the render it was
    created in. *)
Inductive Event :=
  | SetQuery (s : string)
  | SetStatusFilter (f : StatusFilter)
  | SetSortKey (k : SortKey)
  | ToggleSortDir
  | Prev
  | Next.

Definition handle (projects : list Project) (e : Event) (st : State) : State :=
  match e with
  | SetQuery s =>
      {| query := s; statusFilter := statusFilter st; sortKey := sortKey st;
         sortDir := sortDir st; page := page st |}
  | SetStatusFilter f =>
      {| query := query st; statusFilter := f; sortKey := sortKey st;
         sortDir := sortDir st; page := page st |}
  | SetSortKey k =>
      {| query := query st; statusFilter := statusFilter st; sortKey := k;
         sortDir := sortDir st; page := page st |}
  | ToggleSortDir =>
      {| query := query st; statusFilter := statusFilter st; sortKey := sortKey st;
         sortDir := match sortDir st with asc => desc | desc => asc end;
         page := page st |}
  | Prev => setPage (fun p => Z.max 1 (p - 1)) st
  | Next => setPage (fun p => Z.min (v_totalPages (render projects st)) (p + 1)) st
  end.

(** The dependency array of the page-reset effect. *)
Definition deps (st : State) : string * StatusFilter * SortKey * SortDir :=
  (query st, statusFilter st, sortKey st, sortDir st).

(** [useEffect(() => setPage(1), deps)]: runs after a render whose
    dependencies differ from those of the render before. *)
Definition effect (before after : State) : State :=
  if decide (deps before = deps after) then after else setPage (fun _ => 1) after.

(** One user event: the handler updates the state, the component renders,
    and the effect runs on what that render saw. *)
Definition step (projects : list Project) (e : Event) (st : State) : State :=
  effect st (handle projects e st).


End WithHost.

(** Reachable states: the records may be refetched between any two events. *)
Inductive reachable `{Host} : State -> Prop :=
  | reach_initial : reachable initial
  | reach_step projects e st : reachable st -> reachable (step projects e st).

End Dashboard.

(** ** The dashboard of pages/DashboardPage.tsx *)

Module Pages.

(** A project as types/project.ts declares it. *)
Record Project := {
  id : Z;
  name : string;
  status : ProjectStatus;
  owner : string;
  budget : Z;
  spent : Z;
  createdAt : string;
}.

#[global] Instance Project_eq_dec : EqDecision Project.
Proof. solve_decision. Defined.

Inductive SortKey := KCreatedAt | KBudget | KSpent.

#[global] Instance SortKey_eq_dec : EqDecision SortKey.
Proof. solve_decision. Defined.

Definition clamp (n min max : Z) : Z := Z.max min (Z.min max n).

Section WithHost.
Context `{Host}.

(** The callback of [items.filter], with [qq] already trimmed and folded. *)
Definition keeps (qq : string) (status_ : StatusFilter) (p : Project) : bool :=
  let matchesQ :=
    Js.isEmpty qq
    || Js.includes (Js.toLowerCase (name p)) qq
    || Js.includes (Js.toLowerCase (owner p)) qq
    || Js.includes (Js.numToString (id p)) qq in
  let matchesStatus :=
    match status_ with ALL => true | Only s => bool_decide (status p = s) end in
  matchesQ && matchesStatus.

Definition filterStage (data : list Project) (q : string) (status_ : StatusFilter)
    : list Project :=
  let qq := Js.toLowerCase (Js.trim q) in
  List.filter (keeps qq status_) data.

(** The number a record is sorted by; [None] is the [NaN] of a date that
    does not parse. *)
Definition sortValue (sort : SortKey) (p : Project) : option Z :=
  match sort with
  | KCreatedAt => dateTime (createdAt p)
  | KBudget => Some (budget p)
  | KSpent => Some (spent p)
  end.

(** The callback of [filtered.sort]; a [NaN] difference counts as [0]. *)
Definition sortCmp (sort : SortKey) (dir : SortDir) (a b : Project) : Z :=
  match sortValue sort a, sortValue sort b with
  | Some av, Some bv => match dir with asc => av - bv | desc => bv - av end
  | _, _ => 0
  end.

Definition sortStage (sort : SortKey) (dir : SortDir) (filtered : list Project)
    : list Project :=
  Js.sort (sortCmp sort dir) filtered.

Definition filteredSorted (data : list Project) (q : string) (status_ : StatusFilter)
    (sort : SortKey) (dir : SortDir) : list Project :=
  sortStage sort dir (filterStage data q status_).

Definition pageSize : Z := 6.

Definition totalPages (n : nat) (size : Z) : Z :=
  Z.max 1 (Js.ceil (inject_Z (Z.of_nat n) / inject_Z size)).

Definition safePage (page totalPages : Z) : Z := clamp page 1 totalPages.

Definition pageItems (items : list Project) (safePage size : Z) : list Project :=
  Js.slice items ((safePage - 1) * size) (safePage * size).

(** The inline KPIs, on integer amounts and in exact arithmetic; those that
    the engine computes are [PagesNum.kpis]. *)
Record KPIs := { totalBudget : Z; totalSpent : Z; active : Z; burn : Z }.

Definition kpis (items : list Project) : KPIs :=
  let totalBudget := fold_left (fun s p => s + budget p) items 0 in
  let totalSpent := fold_left (fun s p => s + spent p) items 0 in
  let active :=
    Z.of_nat (length (List.filter (fun p => bool_decide (status p = ACTIVE)) items)) in
  let burn :=
    if totalBudget <=? 0 then 0
    else Js.round ((inject_Z totalSpent / inject_Z totalBudget) * 100) in
  {| totalBudget := totalBudget; totalSpent := totalSpent; active := active; burn := burn |}.

Definition statusPie (items : list Project) : list (string * Z) :=
  statusRows
    (fold_left (fun counts p => bump (status p) counts) items
       {| nACTIVE := 0; nPAUSED := 0; nDONE := 0 |}).

Record Bar := { bar_name : string; bar_budget : Z; bar_spent : Z }.

Definition budgetDesc (a b : Project) : Z := budget b - budget a.

Definition toBar (p : Project) : Bar :=
  {| bar_name := name p; bar_budget := budget p; bar_spent := spent p |}.

Definition budgetBars (items : list Project) : list Bar :=
  map toBar (Js.slice (Js.sort budgetDesc (Js.slice items 0 (Z.of_nat (length items)))) 0 6).

Record State := {
  q : string;
  statusF : StatusFilter;
  sort : SortKey;
  dir : SortDir;
  page : Z;
}.

Definition initial : State :=
  {| q := EmptyString; statusF := ALL; sort := KCreatedAt; dir := desc; page := 1 |}.

Definition shown (data : list Project) (st : State) : list Project :=
  filteredSorted data (q st) (statusF st) (sort st) (dir st).

Inductive Event :=
  | SetQ (s : string)
  | SetStatus (f : StatusFilter)
  | SetSort (k : SortKey)
  | ToggleDir
  | Prev
  | Next.

Definition handle (data : list Project) (e : Event) (st : State) : State :=
  match e with
  | SetQ s =>
      {| q := s; statusF := statusF st; sort := sort st; dir := dir st; page := 1 |}
  | SetStatus f =>
      {| q := q st; statusF := f; sort := sort st; dir := dir st; page := 1 |}
  | SetSort k =>
      {| q := q st; statusF := statusF st; sort := k; dir := dir st; page := page st |}
  | ToggleDir =>
      {| q := q st; statusF := statusF st; sort := sort st;
         dir := match dir st with asc => desc | desc => asc end; page := page st |}
  | Prev =>
      {| q := q st; statusF := statusF st; sort := sort st; dir := dir st;
         page := Z.max 1 (page st - 1) |}
  | Next =>
      {| q := q st; statusF := statusF st; sort := sort st; dir := dir st;
         page := Z.min (totalPages (length (shown data st)) pageSize) (page st + 1) |}
  end.

End WithHost.

End Pages.

(** ** Arrays as shared objects

    A variable of array type holds a reference.  [filter], [slice], the
    spread [[...a]] and [map] allocate a new array; [sort] writes the array it
    is called on.  The records inside are values: no statement of the
    pipeline assigns to a property of a record. *)

Module Heap.

Definition ref := nat.

(** A computation over a store of arrays of [A]; [None] is a read or a write
    through a reference that was never allocated. *)
Definition M (A X : Type) : Type :=
  gmap ref (list A) -> option (X * gmap ref (list A)).

Section Arrays.
Context {A : Type}.

Definition ret {X} (x : X) : M A X := fun h => Some (x, h).

Definition bind {X Y} (m : M A X) (k : X -> M A Y) : M A Y :=
  fun h => match m h with Some (x, h') => k x h' | None => None end.

Definition alloc (l : list A) : M A ref :=
  fun h => let r := fresh (dom h) in Some (r, <[r := l]> h).

Definition read (r : ref) : M A (list A) :=
  fun h => match h !! r with Some l => Some (l, h) | None => None end.

Definition write (r : ref) (l : list A) : M A unit :=
  fun h => match h !! r with Some _ => Some (tt, <[r := l]> h) | None => None end.

End Arrays.

Declare Scope heap_scope.
Delimit Scope heap_scope with heap.
Notation "'let*' x ':=' m 'in' k" := (bind m (fun x => k))
  (at level 10, x name, m at level 100, k at level 200) : heap_scope.

Section Methods.
Context {A : Type}.
Local Open Scope heap_scope.

Definition filterA (f : A -> bool) (r : ref) : M A ref :=
  let* l := read r in alloc (List.filter f l).

Definition sortA (cmp : A -> A -> Z) (r : ref) : M A ref :=
  let* l := read r in
  let* _ := write r (Js.sort cmp l) in
  ret r.

Definition sliceA (r : ref) (start end_ : Z) : M A ref :=
  let* l := read r in alloc (Js.slice l start end_).

(** [a.slice()] and [[...a]] *)
Definition copyA (r : ref) : M A ref :=
  let* l := read r in alloc l.

(** [a.map(f)]: the new array holds new objects and is returned by value. *)
Definition mapA {B} (f : A -> B) (r : ref) : M A (list B) :=
  let* l := read r in ret (map f l).

Definition lengthA (r : ref) : M A nat :=
  let* l := read r in ret (length l).

End Methods.

End Heap.

(** The two components again, statement by statement, over the store. *)

Module DashboardRefs.
Import Heap Dashboard.
Local Open Scope heap_scope.

Section WithHost.
Context `{Host}.

Definition filteredProjects (projects : ref) (query : string)
    (statusFilter : StatusFilter) (sortKey : SortKey) (sortDir : SortDir) : M Project ref :=
  let q := normalize (Some query) in
  let* list := filterA (keeps q statusFilter) projects in
  let* list := sortA (sortCmp sortKey sortDir) list in
  ret list.

Definition pagedProjects (filteredProjects : ref) (safePage size : Z) : M Project ref :=
  let start := (safePage - 1) * size in
  sliceA filteredProjects start (start + size).

Definition topBudget (projects : ref) : M Project (list Bar) :=
  let* copy := copyA projects in
  let* sorted := sortA budgetDesc copy in
  let* top := sliceA sorted 0 6 in
  mapA toBar top.

(** One render: what it returns, and the reference of the filtered and
    sorted array it handed to the KPIs, the pagination and the charts. *)
Definition render (projects : ref) (st : State) : M Project (View * ref) :=
  let* fp := filteredProjects projects (query st) (statusFilter st) (sortKey st) (sortDir st) in
  let* items := read fp in
  let kpis := calculateKPIs items in
  let tp := totalPages (length items) pageSize in
  let sp := safePage (page st) tp in
  let* paged := pagedProjects fp sp pageSize in
  let* pagedItems := read paged in
  let* bars := topBudget fp in
  let* items' := read fp in
  ret ({| v_kpis := kpis; v_totalPages := tp; v_safePage := sp;
          v_pagedProjects := pagedItems; v_topBudget := bars;
          v_statusData := countByStatus items' |}, fp).

End WithHost.
End DashboardRefs.

Module PagesRefs.
Import Heap Pages.
Local Open Scope heap_scope.

Section WithHost.
Context `{Host}.

Definition filteredSorted (data : ref) (q : string) (status_ : StatusFilter)
    (sort : SortKey) (dir : SortDir) : M Project ref :=
  let* items := copyA data in
  let qq := Js.toLowerCase (Js.trim q) in
  let* filtered := filterA (keeps qq status_) items in
  let* _ := sortA (sortCmp sort dir) filtered in
  ret filtered.

Definition budgetBars (filteredSorted : ref) : M Project (list Bar) :=
  let* copy := copyA filteredSorted in
  let* sorted := sortA budgetDesc copy in
  let* top := sliceA sorted 0 6 in
  mapA toBar top.

End WithHost.
End PagesRefs.

(** ** Vocabulary of the properties *)

Module Spec.

(** Some occurrence of [a] lies in front of some occurrence of [b]. *)
Definition before {A} (a b : A) (l : list A) : Prop :=
  exists l1 l2 l3, l = l1 ++ a :: l2 ++ b :: l3.

Definition substring (q s : string) : Prop :=
  exists pre post, s = (pre ++ q ++ post)%string.

(** The order a comparator asks for. *)
Definition inOrder {A} (cmp : A -> A -> Z) (x y : A) : Prop := cmp x y <= 0.

(** What a stable sort is: decorate every element with its position in
    the input, and order the pairs by the comparator first and by position
    among elements the comparator holds equal. *)
Fixpoint indexFrom {A} (k : nat) (l : list A) : list (A * nat) :=
  match l with
  | [] => []
  | x :: l' => (x, k) :: indexFrom (S k) l'
  end.

Definition stableOrder {A} (cmp : A -> A -> Z) (p q : A * nat) : Prop :=
  cmp p.1 q.1 < 0 \/ (cmp p.1 q.1 = 0 /\ (p.2 <= q.2)%nat).

Definition byKeyThenIndex {A} (cmp : A -> A -> Z) (p q : A * nat) : Z :=
  if cmp p.1 q.1 =? 0 then Z.of_nat p.2 - Z.of_nat q.2 else cmp p.1 q.1.

Definition sumZ (l : list Z) : Z := foldr Z.add 0 l.

Fixpoint count {A} (f : A -> bool) (l : list A) : Z :=
  match l with
  | [] => 0
  | x :: l' => (if f x then 1 else 0) + count f l'
  end.

(** The budget of a record, a missing one counting as 0. *)
Definition budgetOf (p : Dashboard.Project) : Z := default 0 (Dashboard.budget p).



(** A record whose sort key is missing. *)
Definition missing (k : Dashboard.SortKey) (p : Dashboard.Project) : bool :=
  match Dashboard.field k p with Dashboard.VNull => true | _ => false end.

Definition present (k : Dashboard.SortKey) (p : Dashboard.Project) : bool :=
  negb (missing k p).

(** The type of the values of one sort key. *)
Inductive kind := Numeric | Textual.

Definition kindOf (k : Dashboard.SortKey) : kind :=
  match k with Dashboard.KBudget | Dashboard.KSpent => Numeric | _ => Textual end.

Definition ofKind (c : kind) (v : Dashboard.value) : Prop :=
  match v, c with
  | Dashboard.VNull, _ => True
  | Dashboard.VNum _, Numeric => True
  | Dashboard.VStr _, Textual => True
  | _, _ => False
  end.

(** The text predicate in the words of the specification: the normalized
    query is empty, or occurs in the case-folded concatenation of the seven
    fields joined by white space. *)
Definition searchable (fields : list string) : string :=
  Js.toLowerCase (Js.join " " fields).

Definition matchesText (query : string) (fields : list string) : Prop :=
  let q := Js.toLowerCase (Js.trim query) in
  q = EmptyString \/ substring q (searchable fields).

Definition fieldsOfPage (p : Pages.Project) : list string :=
  [ Pages.name p; Pages.owner p; Js.numToString (Pages.id p);
    statusLabel (Pages.status p); Js.numToString (Pages.budget p);
    Js.numToString (Pages.spent p); Pages.createdAt p ].

Definition fieldsOf (p : Dashboard.Project) : list string :=
  [ default EmptyString (Dashboard.name p);
    default EmptyString (Dashboard.owner p);
    Js.numToString (Dashboard.id p);
    from_option statusLabel EmptyString (Dashboard.status p);
    from_option Js.numToString EmptyString (Dashboard.budget p);
    from_option Js.numToString EmptyString (Dashboard.spent p);
    default EmptyString (Dashboard.createdAt p) ].

End Spec.

(** ** A reference host, to run the components on concrete data

    Collation by code unit, amounts printed as plain decimals, and dates of
    the form YYYY-MM-DD turned into milliseconds since the epoch. *)

Module RefHost.

Definition compareStrings (a b : string) : Z :=
  match String.compare a b with Lt => -1 | Eq => 0 | Gt => 1 end.

Definition digit (c : ascii) : option Z :=
  let n := Z.of_N (N_of_ascii c) in
  if (48 <=? n) && (n <=? 57) then Some (n - 48) else None.

Fixpoint digits (acc : Z) (cs : list ascii) : option Z :=
  match cs with
  | [] => Some acc
  | c :: cs' => match digit c with Some d => digits (10 * acc + d) cs' | None => None end
  end.

(** Days since 1970-01-01 of a date of the proleptic Gregorian calendar. *)
Definition daysFromCivil (y m d : Z) : Z :=
  let y' := if m <=? 2 then y - 1 else y in
  let era := y' / 400 in
  let yoe := y' - era * 400 in
  let mp := (m + 9) mod 12 in
  let doy := (153 * mp + 2) / 5 + d - 1 in
  let doe := yoe * 365 + yoe / 4 - yoe / 100 + doy in
  era * 146097 + doe - 719468.

Definition parseDate (s : string) : option Z :=
  match list_ascii_of_string s with
  | [y1; y2; y3; y4; "-"%char; m1; m2; "-"%char; d1; d2] =>
      match digits 0 [y1; y2; y3; y4], digits 0 [m1; m2], digits 0 [d1; d2] with
      | Some y, Some m, Some d =>
          if (1 <=? m) && (m <=? 12) && (1 <=? d) && (d <=? 31)
          then Some (daysFromCivil y m d * 86400000)
          else None
      | _, _, _ => None
      end
  | _ => None
  end.

#[export] Instance host : Host := {|
  localeCompare := compareStrings;
  formatEUR := fun n => ("EUR " ++ Js.numToString n)%string;
  dateTime := parseDate;
|}.

End RefHost.

(** ** Sample data *)

Module Samples.

Definition project (i : Z) (n o : string) (s : ProjectStatus) (b sp : Z) (d : string)
    : Dashboard.Project :=
  {| Dashboard.id := i; Dashboard.name := Some n; Dashboard.status := Some s;
     Dashboard.owner := Some o; Dashboard.budget := Some b;
     Dashboard.spent := Some sp; Dashboard.createdAt := Some d |}.

Definition pageProject (i : Z) (n o : string) (s : ProjectStatus) (b sp : Z) (d : string)
    : Pages.Project :=
  {| Pages.id := i; Pages.name := n; Pages.status := s; Pages.owner := o;
     Pages.budget := b; Pages.spent := sp; Pages.createdAt := d |}.

(** Seven records, four of them active, budgets 850 and spending 500 in
    total. *)
Definition seven : list Dashboard.Project :=
  [ project 1 "Website" "Ana" ACTIVE 100 50 "2026-01-05";
    project 2 "Mobile app" "Bogdan" ACTIVE 200 100 "2026-01-06";
    project 3 "Data lake" "Carmen" PAUSED 300 200 "2026-01-07";
    project 4 "Audit" "Dan" DONE 0 0 "2026-01-08";
    project 5 "Intranet" "Elena" ACTIVE 50 25 "2026-01-09";
    project 6 "Billing" "Florin" DONE 75 50 "2026-01-10";
    project 7 "Search" "Gina" ACTIVE 125 75 "2026-01-11" ].

Definition sevenPages : list Pages.Project :=
  [ pageProject 1 "Website" "Ana" ACTIVE 100 50 "2026-01-05";
    pageProject 2 "Mobile app" "Bogdan" ACTIVE 200 100 "2026-01-06";
    pageProject 3 "Data lake" "Carmen" PAUSED 300 200 "2026-01-07";
    pageProject 4 "Audit" "Dan" DONE 0 0 "2026-01-08";
    pageProject 5 "Intranet" "Elena" ACTIVE 50 25 "2026-01-09";
    pageProject 6 "Billing" "Florin" DONE 75 50 "2026-01-10";
    pageProject 7 "Search" "Gina" ACTIVE 125 75 "2026-01-11" ].

(** Twelve records with ids 1 to 12. *)
Definition numbered (i : Z) : Dashboard.Project :=
  project i "Project" "Owner" ACTIVE (10 * i) i "2026-01-05".

Definition twelve : list Dashboard.Project :=
  map numbered [1; 2; 3; 4; 5; 6; 7; 8; 9; 10; 11; 12].

Definition numberedPage (i : Z) : Pages.Project :=
  pageProject i "Project" "Owner" ACTIVE (10 * i) i "2026-01-05".

Definition twelvePages : list Pages.Project :=
  map numberedPage [1; 2; 3; 4; 5; 6; 7; 8; 9; 10; 11; 12].

(** Two records that share the budget 200; the one with id 3 comes first. *)
Definition tied3 : Dashboard.Project := project 3 "Gamma" "Ana" ACTIVE 200 20 "2026-02-01".
Definition tied7 : Dashboard.Project := project 7 "Eta" "Dan" PAUSED 200 90 "2026-02-02".

Definition withTies : list Dashboard.Project :=
  [ project 1 "Alpha" "Ana" ACTIVE 100 10 "2026-01-01";
    tied3;
    project 5 "Epsilon" "Carmen" DONE 300 30 "2026-01-03";
    tied7 ].


(** A record that lacks a budget. *)
Definition unbudgeted : Dashboard.Project :=
  {| Dashboard.id := 9; Dashboard.name := Some "Draft"%string; Dashboard.status := Some PAUSED;
     Dashboard.owner := Some "Ana"%string; Dashboard.budget := None;
     Dashboard.spent := Some 5; Dashboard.createdAt := Some "2026-03-01"%string |}.

(** A record whose name ends in a space. *)
Definition padded : Dashboard.Project :=
  project 1 "a " "b" ACTIVE 10 5 "2026-01-05".

(** The initial state of either component, moved to page 2. *)
Definition onPage2 : Dashboard.State := Dashboard.setPage (fun _ => 2) Dashboard.initial.

Definition pagesOnPage2 : Pages.State :=
  {| Pages.q := EmptyString; Pages.statusF := ALL; Pages.sort := Pages.KCreatedAt;
     Pages.dir := desc; Pages.page := 2 |}.

End Samples.

(** ** Further vocabulary *)

Module Props.

Definition hasStatus (s : ProjectStatus) (p : Dashboard.Project) : bool :=
  bool_decide (Dashboard.status p = Some s).

Definition hasStatusPage (s : ProjectStatus) (p : Pages.Project) : bool :=
  bool_decide (Pages.status p = s).



(** The order of two optional amounts in which a missing one comes first. *)
Definition amountLe (x y : option Z) : Prop :=
  match x, y with
  | None, _ => True
  | Some _, None => False
  | Some a, Some b => a <= b
  end.

(** No two records at different places of the list compare equal under the
    key. *)
Definition noTies {A} (cmp : A -> A -> Z) (l : list A) : Prop :=
  forall a b, Spec.before a b l -> cmp a b <> 0.

(** A host that holds all strings equal, for the keys that are numbers. *)
Definition numericHost : Host :=
  {| localeCompare := fun _ _ => 0; formatEUR := Js.numToString; dateTime := fun _ => None |}.

(** A string of [n] decimal digits. *)
Definition digitsOnly (n : nat) (s : string) : bool :=
  (length (list_ascii_of_string s) =? n)%nat
  && forallb (fun c => let k := N_of_ascii c in ((48 <=? k) && (k <=? 57))%N)
       (list_ascii_of_string s).

Fixpoint noTiesb {A} (cmp : A -> A -> Z) (l : list A) : bool :=
  match l with
  | [] => true
  | x :: l' => forallb (fun y => negb (cmp x y =? 0)) l' && noTiesb cmp l'
  end.

End Props.

(** ** The create form *)

(** More primitives: [String.prototype.padStart], [String.prototype.slice]
    and the test of the regular expression [^\d{4}-\d{2}-\d{2}$]. *)
Module JsText.

Definition padStart (s : string) (targetLength : nat) (padString : string) : string :=
  let len := String.length s in
  if (targetLength <=? len)%nat || Js.isEmpty padString then s
  else
    let fillLen := (targetLength - len)%nat in
    let filler := concat (repeat (list_ascii_of_string padString) fillLen) in
    (string_of_list_ascii (take fillLen filler) ++ s)%string.

Definition slice (s : string) (start end_ : Z) : string :=
  string_of_list_ascii (Js.slice (list_ascii_of_string s) start end_).

Definition isDigit (c : ascii) : bool :=
  let n := N_of_ascii c in ((48 <=? n) && (n <=? 57))%N.

Definition isDateShape (s : string) : bool :=
  match list_ascii_of_string s with
  | [y1; y2; y3; y4; h1; m1; m2; h2; d1; d2] =>
      forallb isDigit [y1; y2; y3; y4; m1; m2; d1; d2]
      && Ascii.eqb h1 "-" && Ascii.eqb h2 "-"
  | _ => false
  end.

End JsText.

Inductive Field := FName | FOwner | FStatus | FBudget | FSpent | FCreatedAt.

#[global] Instance Field_eq_dec : EqDecision Field.
Proof. solve_decision. Defined.

(** An issue of a failed validation: the field, and the message the schema
    gives for it ([None] where the schema leaves the message to the
    library). *)
Definition Issue : Type := Field * option string.

(** [z.enum(["ACTIVE", "PAUSED", "DONE"])] *)
Definition parseStatus (s : string) : option ProjectStatus :=
  if String.eqb s "ACTIVE" then Some ACTIVE
  else if String.eqb s "PAUSED" then Some PAUSED
  else if String.eqb s "DONE" then Some DONE
  else None.

(** [z.coerce.number().min(0, message)] on the number [Number(input)] gave,
    [None] standing for [NaN]. *)
Definition parseAmount (f : Field) (message : option string) (x : option Z)
    : Z + list Issue :=
  match x with
  | None => inr [(f, None)]
  | Some n => if n <? 0 then inr [(f, message)] else inl n
  end.

(** [z.string().min(2, message)], after [.trim()] when the schema has it. *)
Definition parseText (f : Field) (message : string) (trimmed : bool) (s : string)
    : string + list Issue :=
  let s' := if trimmed then Js.trim s else s in
  if (String.length s' <? 2)%nat then inr [(f, Some message)] else inl s'.

Definition issuesOf {A} (r : A + list Issue) : list Issue :=
  match r with inl _ => [] | inr issues => issues end.

(** The form of the component of api/kpis.ts. *)
Module DashboardForm.

(** What the form holds; the amounts are what [Number] makes of the
    inputs. *)
Record ProjectFormValues := {
  name : string;
  owner : string;
  status : string;
  budget : option Z;
  spent : option Z;
  createdAt : string;
}.

(** What the schema returns, and so what is posted: a project without id. *)
Record Payload := {
  p_name : string;
  p_owner : string;
  p_status : ProjectStatus;
  p_budget : Z;
  p_spent : Z;
  p_createdAt : string;
}.

Definition parseCreatedAt (s : string) : string + list Issue :=
  let s' := Js.trim s in
  if JsText.isDateShape s' then inl s' else inr [(FCreatedAt, Some "Use YYYY-MM-DD"%string)].

Definition projectSchema (v : ProjectFormValues) : Payload + list Issue :=
  let rName := parseText FName "Name is required (min 2 chars)" true (name v) in
  let rOwner := parseText FOwner "Owner is required (min 2 chars)" true (owner v) in
  let rStatus :=
    match parseStatus (status v) with
    | Some s => inl s
    | None => inr [(FStatus, None)]
    end in
  let rBudget := parseAmount FBudget (Some "Budget must be >= 0"%string) (budget v) in
  let rSpent := parseAmount FSpent (Some "Spent must be >= 0"%string) (spent v) in
  let rCreatedAt := parseCreatedAt (createdAt v) in
  match rName, rOwner, rStatus, rBudget, rSpent, rCreatedAt with
  | inl n, inl o, inl s, inl b, inl sp, inl d =>
      inl {| p_name := n; p_owner := o; p_status := s; p_budget := b; p_spent := sp;
             p_createdAt := d |}
  | _, _, _, _, _, _ =>
      inr (issuesOf rName ++ issuesOf rOwner ++ issuesOf rStatus ++ issuesOf rBudget
           ++ issuesOf rSpent ++ issuesOf rCreatedAt)
  end.

(** The date offered by default, from the year, the month (from 0) and the
    day of the month of the clock. *)
Definition defaultDate (yyyy month date : Z) : string :=
  let mm := JsText.padStart (Js.numToString (month + 1)) 2 "0" in
  let dd := JsText.padStart (Js.numToString date) 2 "0" in
  (Js.numToString yyyy ++ "-" ++ mm ++ "-" ++ dd)%string.

Definition defaultValues (yyyy month date : Z) : ProjectFormValues :=
  {| name := EmptyString; owner := "Antoniu"; status := "ACTIVE"; budget := Some 0;
     spent := Some 0; createdAt := defaultDate yyyy month date |}.

(** [form.handleSubmit(callback)]: on a valid form the callback posts the
    payload and resets the form; on an invalid one nothing is posted and the
    issues are shown. *)
Record Outcome := {
  posted : option Payload;
  form : ProjectFormValues;
  errors : list Issue;
}.

Definition handleSubmit (v : ProjectFormValues) : Outcome :=
  match projectSchema v with
  | inl values =>
      {| posted := Some values;
         form := {| name := EmptyString; owner := p_owner values;
                    status := statusLabel (p_status values); budget := Some 0;
                    spent := Some 0; createdAt := p_createdAt values |};
         errors := [] |}
  | inr issues => {| posted := None; form := v; errors := issues |}
  end.

(** The user types a name into the form. *)
Definition typeName (n : string) (v : ProjectFormValues) : ProjectFormValues :=
  {| name := n; owner := owner v; status := status v; budget := budget v;
     spent := spent v; createdAt := createdAt v |}.

End DashboardForm.

(** The form of pages/DashboardPage.tsx. *)
Module PagesForm.

Record FormValues := {
  name : string;
  owner : string;
  status : string;
  budget : option Z;
  spent : option Z;
}.

Record Parsed := {
  v_name : string;
  v_owner : string;
  v_status : ProjectStatus;
  v_budget : Z;
  v_spent : Z;
}.

Record Payload := {
  p_name : string;
  p_owner : string;
  p_status : ProjectStatus;
  p_budget : Z;
  p_spent : Z;
  p_createdAt : string;
}.

Definition schema (v : FormValues) : Parsed + list Issue :=
  let rName := parseText FName "Name too short" false (name v) in
  let rOwner := parseText FOwner "Owner too short" false (owner v) in
  let rStatus :=
    match parseStatus (status v) with
    | Some s => inl s
    | None => inr [(FStatus, None)]
    end in
  let rBudget := parseAmount FBudget None (budget v) in
  let rSpent := parseAmount FSpent None (spent v) in
  match rName, rOwner, rStatus, rBudget, rSpent with
  | inl n, inl o, inl s, inl b, inl sp =>
      inl {| v_name := n; v_owner := o; v_status := s; v_budget := b; v_spent := sp |}
  | _, _, _, _, _ =>
      inr (issuesOf rName ++ issuesOf rOwner ++ issuesOf rStatus ++ issuesOf rBudget
           ++ issuesOf rSpent)
  end.

(** [onSubmit], with the text [new Date().toISOString()] of the clock. *)
Definition onSubmit (nowISO : string) (values : Parsed) : Payload * FormValues :=
  let createdAt := JsText.slice nowISO 0 10 in
  ({| p_name := v_name values; p_owner := v_owner values; p_status := v_status values;
      p_budget := v_budget values;
      p_spent := Z.min (v_spent values) (v_budget values);
      p_createdAt := createdAt |},
   {| name := EmptyString; owner := v_owner values; status := "ACTIVE";
      budget := Some 0; spent := Some 0 |}).

Record Outcome := {
  posted : option Payload;
  form : FormValues;
  errors : list Issue;
}.

Definition handleSubmit (nowISO : string) (v : FormValues) : Outcome :=
  match schema v with
  | inl values =>
      let '(payload, reset) := onSubmit nowISO values in
      {| posted := Some payload; form := reset; errors := [] |}
  | inr issues => {| posted := None; form := v; errors := issues |}
  end.

(** The user types a name into the form. *)
Definition typeName (n : string) (v : FormValues) : FormValues :=
  {| name := n; owner := owner v; status := status v; budget := budget v;
     spent := spent v |}.

End PagesForm.

(** Sample submissions. *)
Module FormSamples.

Definition typed : DashboardForm.ProjectFormValues :=
  {| DashboardForm.name := " Portal "; DashboardForm.owner := "Ana";
     DashboardForm.status := "PAUSED"; DashboardForm.budget := Some 10;
     DashboardForm.spent := Some 25; DashboardForm.createdAt := "2026-01-05 " |}.

Definition sent : DashboardForm.Payload :=
  {| DashboardForm.p_name := "Portal"; DashboardForm.p_owner := "Ana";
     DashboardForm.p_status := PAUSED; DashboardForm.p_budget := 10;
     DashboardForm.p_spent := 25; DashboardForm.p_createdAt := "2026-01-05" |}.

Definition clock : string := "2026-01-05T10:20:30.000Z".

Definition clockLater : string := "2026-01-06T08:00:00.000Z".

Definition typedPage : PagesForm.FormValues :=
  {| PagesForm.name := "Portal"; PagesForm.owner := "Ana";
     PagesForm.status := "PAUSED"; PagesForm.budget := Some 10;
     PagesForm.spent := Some 25 |}.

Definition sentPage : PagesForm.Payload :=
  {| PagesForm.p_name := "Portal"; PagesForm.p_owner := "Ana";
     PagesForm.p_status := PAUSED; PagesForm.p_budget := 10;
     PagesForm.p_spent := 10; PagesForm.p_createdAt := "2026-01-05" |}.

End FormSamples.

(** ** Numbers

    A JS number is an IEEE 754 binary64 value.  [Number.t] holds its exact
    rational value, or one of the three values that are not finite; the sign
    of zero is not modelled (no value the dashboard shows depends on it).
    [ofQ] is the Number value for a real: the nearest value of the format,
    ties to the even significand, with gradual underflow and with overflow
    to infinity.  Sum, product and quotient are the exact results rounded by
    [ofQ], as IEEE 754 defines them. *)

Module Number.

Inductive t := Finite (q : Q) | PosInfinity | NegInfinity | NaN.

Definition pow2 (e : Z) : Q := Qpower 2 e.

(** [floor (log2 |x|)] for [x <> 0]. *)
Definition ilog2 (x : Q) : Z :=
  let k := Z.log2 (Z.abs (Qnum x)) - Z.log2 (Zpos (Qden x)) in
  if Qle_bool (pow2 k) (Qabs x) then k else k - 1.

(** The exponent of the unit in the last place of a value of magnitude
    [|x|]: 53 significant bits, and not below the least subnormal. *)
Definition quantum (x : Q) : Z := Z.max (ilog2 x - 52) (-1074).

Definition nearestEven (x : Q) : Z :=
  let f := Qfloor x in
  match (x - inject_Z f ?= 1 # 2)%Q with
  | Lt => f
  | Gt => f + 1
  | Eq => if Z.even f then f else f + 1
  end.

Definition infinity (positive : bool) : t :=
  if positive then PosInfinity else NegInfinity.

Definition ofQ (x0 : Q) : t :=
  let x := Qred x0 in
  if Qeq_bool x 0 then Finite 0
  else
    let e := quantum x in
    let y := (inject_Z (nearestEven (x / pow2 e)) * pow2 e)%Q in
    if Qle_bool (pow2 1024) (Qabs y) then infinity (Qle_bool 0 x)
    else Finite (Qred y).

(** The Number value of an integer literal. *)
Definition ofZ (z : Z) : t := ofQ (inject_Z z).

(** [a + b] *)
Definition add (a b : t) : t :=
  match a, b with
  | NaN, _ | _, NaN => NaN
  | PosInfinity, NegInfinity | NegInfinity, PosInfinity => NaN
  | PosInfinity, _ | _, PosInfinity => PosInfinity
  | NegInfinity, _ | _, NegInfinity => NegInfinity
  | Finite x, Finite y => ofQ (x + y)
  end.

(** The sign of a value that is not NaN ([true]: not negative). *)
Definition positive (a : t) : bool :=
  match a with
  | Finite x => Qle_bool 0 x
  | PosInfinity => true
  | NegInfinity => false
  | NaN => true
  end.

Definition isZero (a : t) : bool :=
  match a with Finite x => Qeq_bool x 0 | _ => false end.

Definition isFinite (a : t) : bool :=
  match a with Finite _ => true | _ => false end.

(** [a * b] *)
Definition mul (a b : t) : t :=
  match a, b with
  | NaN, _ | _, NaN => NaN
  | Finite x, Finite y => ofQ (x * y)
  | _, _ =>
      if isZero a || isZero b then NaN
      else infinity (Bool.eqb (positive a) (positive b))
  end.

(** [a / b] *)
Definition div (a b : t) : t :=
  match a, b with
  | NaN, _ | _, NaN => NaN
  | Finite x, Finite y =>
      if Qeq_bool y 0
      then (if Qeq_bool x 0 then NaN else infinity (Qle_bool 0 x))
      else ofQ (x / y)
  | Finite _, _ => Finite 0
  | _, Finite _ => infinity (Bool.eqb (positive a) (positive b))
  | _, _ => NaN
  end.

(** [a <= b] *)
Definition leb (a b : t) : bool :=
  match a, b with
  | NaN, _ | _, NaN => false
  | Finite x, Finite y => Qle_bool x y
  | NegInfinity, _ => true
  | _, PosInfinity => true
  | _, _ => false
  end.

(** [Math.round(a)]: the nearest integer, a tie going up. *)
Definition round (a : t) : t :=
  match a with
  | Finite x => Finite (inject_Z (Js.round x))
  | _ => a
  end.

(** The exact value of a binary64 datum of IEEE 754, as the Standard
    Library specifies the format. *)
Definition ofSpecFloat (f : spec_float) : t :=
  match f with
  | S754_zero _ => Finite 0
  | S754_infinity s => infinity (negb s)
  | S754_nan => NaN
  | S754_finite s m e =>
      Finite (Qred (inject_Z (if s then Z.neg m else Z.pos m) * pow2 e))
  end.

End Number.

(** ** The KPIs on numbers

    [calculateKPIs] (api/kpis.ts) and the inline [kpis] of
    pages/DashboardPage.tsx with the amounts as the engine holds them.  A
    record is given by the three fields that the two functions read. *)

Module DashboardNum.

Record Project := {
  status : option ProjectStatus;
  budget : option Number.t;
  spent : option Number.t;
}.

(** A record whose amounts are integers. *)
Definition ofProject (p : Dashboard.Project) : Project :=
  {| status := Dashboard.status p;
     budget := Number.ofZ <$> Dashboard.budget p;
     spent := Number.ofZ <$> Dashboard.spent p |}.

Definition totalBudget (projects : list Project) : Number.t :=
  fold_left (fun s p => Number.add s (default (Number.Finite 0) (budget p))) projects
    (Number.Finite 0).

Definition totalSpent (projects : list Project) : Number.t :=
  fold_left (fun s p => Number.add s (default (Number.Finite 0) (spent p))) projects
    (Number.Finite 0).

Definition activeCount (projects : list Project) : Z :=
  Z.of_nat (length (List.filter (fun p => bool_decide (status p = Some ACTIVE)) projects)).

Definition burnRate (projects : list Project) : Number.t :=
  if Number.leb (totalBudget projects) (Number.Finite 0) then Number.Finite 0
  else Number.round
         (Number.mul (Number.div (totalSpent projects) (totalBudget projects))
            (Number.Finite 100)).

(** The four rows with their values, before [formatEUR] and the template
    of the burn rate turn them into text. *)
Definition calculateKPIs (projects : list Project) : list (string * Number.t) :=
  [ ("Total Budget"%string, totalBudget projects);
    ("Total Spent"%string, totalSpent projects);
    ("Active Projects"%string, Number.Finite (inject_Z (activeCount projects)));
    ("Burn Rate"%string, burnRate projects) ].

End DashboardNum.

Module PagesNum.

Record Project := {
  status : ProjectStatus;
  budget : Number.t;
  spent : Number.t;
}.

Definition ofProject (p : Pages.Project) : Project :=
  {| status := Pages.status p;
     budget := Number.ofZ (Pages.budget p);
     spent := Number.ofZ (Pages.spent p) |}.

Record KPIs := {
  totalBudget : Number.t;
  totalSpent : Number.t;
  active : Z;
  burn : Number.t;
}.

Definition kpis (items : list Project) : KPIs :=
  let totalBudget := fold_left (fun s p => Number.add s (budget p)) items (Number.Finite 0) in
  let totalSpent := fold_left (fun s p => Number.add s (spent p)) items (Number.Finite 0) in
  let active :=
    Z.of_nat (length (List.filter (fun p => bool_decide (status p = ACTIVE)) items)) in
  let burn :=
    if Number.leb totalBudget (Number.Finite 0) then Number.Finite 0
    else Number.round
           (Number.mul (Number.div totalSpent totalBudget) (Number.Finite 100)) in
  {| totalBudget := totalBudget; totalSpent := totalSpent; active := active; burn := burn |}.

End PagesNum.

(** Collections of integer amounts that the engine adds up without
    rounding: the absolute values of the budgets, and those of the
    spendings, sum to [2^53] at most. *)
Module Amounts.

Definition exact : Z := 9007199254740992.

Definition safe (l : list Dashboard.Project) : Prop :=
  Spec.sumZ (map (fun p => Z.abs (default 0 (Dashboard.budget p))) l) <= exact
  /\ Spec.sumZ (map (fun p => Z.abs (default 0 (Dashboard.spent p))) l) <= exact.

Definition safePage (l : list Pages.Project) : Prop :=
  Spec.sumZ (map (fun p => Z.abs (Pages.budget p)) l) <= exact
  /\ Spec.sumZ (map (fun p => Z.abs (Pages.spent p)) l) <= exact.

(** The percentage before [Math.round]: the quotient of the totals, rounded
    to a number, times 100, rounded to a number. *)
Definition percent (ts tb : Q) : Number.t :=
  Number.mul (Number.div (Number.Finite ts) (Number.Finite tb)) (Number.Finite 100).

(** [b] is an integer nearest to [x]. *)
Definition nearest (b : Z) (x : Q) : Prop := (Qabs (inject_Z b - x) <= 1 # 2)%Q.

(** How far the percentage that the engine computes may lie from the exact
    percentage [x]: two roundings, each of a relative error of [2^-53] at
    most. *)
Definition tolerance (x : Q) : Q := (Qabs x * Number.pow2 (-51))%Q.

(** The largest total spending, in absolute value, for which the two
    roundings cannot carry the percentage across a tie: [2^51 / 200]. *)
Definition tieSafe : Z := 11258999068426.

Definition spentOf (p : Dashboard.Project) : Z := default 0 (Dashboard.spent p).

End Amounts.

(** The same operations as the Standard Library defines them for the
    binary64 format of IEEE 754 ([SpecFloat]), to compare [Number] with. *)
Module Ieee.

Definition ofZ (z : Z) : spec_float := binary_normalize 53 1024 z 0 false.

Definition add : spec_float -> spec_float -> spec_float := SFadd 53 1024.
Definition mul : spec_float -> spec_float -> spec_float := SFmul 53 1024.
Definition div : spec_float -> spec_float -> spec_float := SFdiv 53 1024.

Definition percent (ts tb : Z) : spec_float := mul (div (ofZ ts) (ofZ tb)) (ofZ 100).

(** The amount of [n] cents. *)
Definition cents (n : Z) : spec_float := div (ofZ n) (ofZ 100).

Definition eqb (a b : Number.t) : bool :=
  match a, b with
  | Number.Finite x, Number.Finite y => Qeq_bool x y
  | Number.PosInfinity, Number.PosInfinity => true
  | Number.NegInfinity, Number.NegInfinity => true
  | Number.NaN, Number.NaN => true
  | _, _ => false
  end.

(** Both give the same percentage for the totals [ts] and [tb], and the
    same sum and the same amount of cents. *)
Definition agree (ts tb : Z) : bool :=
  eqb (Number.ofSpecFloat (percent ts tb)) (Amounts.percent (inject_Z ts) (inject_Z tb))
  && eqb (Number.ofSpecFloat (add (cents ts) (cents tb)))
       (Number.add (Number.ofQ (ts # 100)) (Number.ofQ (tb # 100))).

Definition agreeUpTo (n : nat) : bool :=
  forallb (fun ts => forallb (fun tb => agree (Z.of_nat ts) (Z.of_nat tb)) (seq 1 n))
    (seq 0 (S n)).

End Ieee.

(** Sample records for the arithmetic. *)
Module NumSamples.

Definition amounts (s : ProjectStatus) (budget spent : Q) : DashboardNum.Project :=
  {| DashboardNum.status := Some s;
     DashboardNum.budget := Some (Number.ofQ budget);
     DashboardNum.spent := Some (Number.ofQ spent) |}.

Definition pageAmounts (s : ProjectStatus) (budget spent : Q) : PagesNum.Project :=
  {| PagesNum.status := s;
     PagesNum.budget := Number.ofQ budget;
     PagesNum.spent := Number.ofQ spent |}.

(** Amounts with cents: 100.02, 200.17 and 699.81 spent. *)
Definition cents : list DashboardNum.Project :=
  [ amounts ACTIVE 1500 (10002 # 100);
    amounts ACTIVE 2500 (20017 # 100);
    amounts ACTIVE 4000 (69981 # 100) ].

Definition centsPages : list PagesNum.Project :=
  [ pageAmounts ACTIVE 1500 (10002 # 100);
    pageAmounts ACTIVE 2500 (20017 # 100);
    pageAmounts ACTIVE 4000 (69981 # 100) ].





End NumSamples.

(** Fifty records, and the state after nine clicks on Next with them. *)
Module PageSamples.



End PageSamples.

(** * Sanity checks of the primitives *)

Example numToString_ex : Js.numToString 120 = "120"%string /\ Js.numToString 0 = "0"%string /\ Js.numToString (-7) = "-7"%string.
Proof. repeat split; reflexivity. Qed.

Example trim_ex : Js.trim (Js.toLowerCase "  Ali Baba "%string) = "ali baba"%string.
Proof. reflexivity. Qed.

Example includes_ex : Js.includes "hello world"%string "o w"%string = true /\ Js.includes "abc"%string "bd"%string = false /\ Js.includes EmptyString EmptyString = true.
Proof. repeat split; reflexivity. Qed.

Example slice_ex : Js.slice [1;2;3;4;5;6;7] 5 10 = [6;7] /\ Js.slice [1;2;3;4;5;6;7] (-3) (-1) = [5;6] /\ Js.slice [1;2;3] (-5) 0 = [].
Proof. repeat split; reflexivity. Qed.

Example round_ex : Js.round (5 # 2) = 3 /\ Js.round (-5 # 2) = -2 /\ Js.round ((500 # 850) * 100) = 59.
Proof. repeat split; reflexivity. Qed.

Example parseDate_ex : RefHost.parseDate "1970-01-02" = Some 86400000 /\ RefHost.parseDate "2026-01-05" = Some 1767571200000 /\ RefHost.parseDate "2026-1-5" = None.
Proof. repeat split; reflexivity. Qed.

(** * Properties of the primitives *)

Section JsFacts.

Lemma ceil_div (n size : Z) :
  0 < size -> Js.ceil (inject_Z n / inject_Z size) = - ((- n) / size).
Proof.
  intros Hs. destruct size as [|p|p]; try lia.
  unfold Js.ceil, Qceiling, Qfloor, Qdiv, Qinv, Qmult, Qopp, inject_Z. simpl.
  now rewrite Z.mul_1_r.
Qed.

(** [ceil (n / size)] is the least [c] with [n <= c * size]. *)
Lemma ceil_least (n size : Z) :
  0 < size ->
  let c := Js.ceil (inject_Z n / inject_Z size) in
  (c - 1) * size < n <= c * size.
Proof.
  intros Hs c. subst c. rewrite ceil_div by done.
  pose proof (Z.div_mod (- n) size ltac:(lia)) as Hd.
  pose proof (Z.mod_pos_bound (- n) size Hs) as Hm.
  nia.
Qed.

Lemma round_div (s b : Z) :
  0 < b -> Js.round ((inject_Z s / inject_Z b) * 100) = (200 * s + b) / (2 * b).
Proof.
  intros Hb. destruct b as [|p|p]; try lia.
  unfold Js.round, Qfloor, Qdiv, Qinv, Qmult, Qplus, inject_Z. simpl.
  rewrite Pos.mul_1_r. f_equal; lia.
Qed.

(** [round] returns an integer within one half of its argument. *)
Lemma round_nearest (s b : Z) :
  0 < b ->
  let r := Js.round ((inject_Z s / inject_Z b) * 100) in
  (2 * r - 1) * b <= 200 * s < (2 * r + 1) * b.
Proof.
  intros Hb r. subst r. rewrite round_div by done.
  pose proof (Z.div_mod (200 * s + b) (2 * b) ltac:(lia)) as Hd.
  pose proof (Z.mod_pos_bound (200 * s + b) (2 * b) ltac:(lia)) as Hm.
  nia.
Qed.

Context {A : Type}.
Implicit Types l : list A.

Lemma take_min l (n : nat) : take n l = take (n `min` length l) l.
Proof.
  destruct (decide (n ≤ length l))%nat as [Hle|Hgt].
  - by rewrite Nat.min_l.
  - rewrite Nat.min_r by lia. rewrite !take_ge; [done|lia..].
Qed.

(** On a range that starts inside the array, [slice] is the window
    [[start, end)] cut at the end of the array. *)
Lemma slice_window l (start end_ : Z) :
  0 <= start -> 0 <= end_ ->
  Js.slice l start end_ = take (Z.to_nat (end_ - start)) (drop (Z.to_nat start) l).
Proof.
  intros Hs He. unfold Js.slice, Js.relIndex.
  destruct (Z.ltb_spec start 0); [lia|]. destruct (Z.ltb_spec end_ 0); [lia|].
  destruct (decide (start <= Z.of_nat (length l))) as [Hin|Hout].
  - rewrite (Z.min_l start) by lia.
    rewrite (take_min (drop _ _) (Z.to_nat (end_ - start))).
    rewrite (take_min (drop _ _) (Z.to_nat (Z.min _ _ - start))).
    f_equal. rewrite length_drop. lia.
  - rewrite !(drop_ge l); [by rewrite !take_nil|lia..].
Qed.

Lemma slice_length l (start end_ : Z) :
  start <= end_ -> Z.of_nat (length (Js.slice l start end_)) <= end_ - start.
Proof.
  intros Hle. unfold Js.slice, Js.relIndex.
  rewrite length_take, length_drop.
  destruct (Z.ltb_spec start 0); destruct (Z.ltb_spec end_ 0); lia.
Qed.

Lemma slice_sublist l (start end_ : Z) : sublist (Js.slice l start end_) l.
Proof.
  unfold Js.slice. etrans; [apply sublist_take|apply sublist_drop].
Qed.

Variable cmp : A -> A -> Z.

Lemma insert_perm x l : Js.insert cmp x l ≡ₚ x :: l.
Proof.
  induction l as [|y l IH]; simpl; [done|].
  destruct (cmp x y <=? 0); [done|]. rewrite IH. apply Permutation_swap.
Qed.

Lemma sort_perm l : Js.sort cmp l ≡ₚ l.
Proof.
  induction l as [|x l IH]; simpl; [done|].
  rewrite insert_perm. by rewrite IH.
Qed.


End JsFacts.

Section StringFacts.

Lemma append_String (c : ascii) (s t : string) :
  (String c s ++ t)%string = String c (s ++ t)%string.
Proof. reflexivity. Qed.

Lemma prefix_spec (q h : string) :
  String.prefix q h = true <-> exists post, h = (q ++ post)%string.
Proof.
  revert h. induction q as [|c q IH]; intros [|d h]; simpl.
  - split; [intros _; by exists EmptyString|done].
  - split; [intros _; by exists (String d h)|done].
  - split; [done|]. by intros [post Hp].
  - destruct (ascii_dec c d) as [->|Hne].
    + rewrite IH. split; intros [post Hp]; exists post; rewrite append_String in *; congruence.
    + split; [done|]. intros [post Hp]. rewrite append_String in Hp. congruence.
Qed.

Lemma includes_spec (hay q : string) :
  Js.includes hay q = true <-> Spec.substring q hay.
Proof.
  unfold Spec.substring. induction hay as [|c hay IH].
  - change (Js.includes EmptyString q) with (String.prefix q EmptyString || false).
    rewrite orb_false_r, prefix_spec. split.
    + intros [post Hp]. by exists EmptyString, post.
    + intros [[|d pre] [post Hp]]; [by exists post|done].
  - change (Js.includes (String c hay) q)
      with (String.prefix q (String c hay) || Js.includes hay q).
    rewrite orb_true_iff, prefix_spec, IH. split.
    + intros [[post Hp]|(pre & post & Hp)].
      * by exists EmptyString, post.
      * exists (String c pre), post. by rewrite append_String, Hp.
    + intros [[|d pre] [post Hp]].
      * left. by exists post.
      * right. exists pre, post. rewrite append_String in Hp. congruence.
Qed.

Lemma isEmpty_spec (s : string) : Js.isEmpty s = true <-> s = EmptyString.
Proof. by destruct s. Qed.

End StringFacts.

Section SortFacts.
Context {A : Type}.
Implicit Types l : list A.
Variable cmp : A -> A -> Z.

Lemma before_cons (a b x : A) l : Spec.before a b l -> Spec.before a b (x :: l).
Proof. intros (l1 & l2 & l3 & ->). by exists (x :: l1), l2, l3. Qed.

Lemma before_head (a b : A) l : b ∈ l -> Spec.before a b (a :: l).
Proof.
  intros (l2 & l3 & ->)%list_elem_of_split. by exists [], l2, l3.
Qed.

Lemma before_cons_inv (a b x : A) l :
  Spec.before a b (x :: l) -> (x = a /\ b ∈ l) \/ Spec.before a b l.
Proof.
  intros ([|y l1] & l2 & l3 & Heq); simpl in Heq; simplify_eq.
  - left. split; [done|]. set_solver.
  - right. by exists l1, l2, l3.
Qed.

Lemma before_nil (a b : A) : ~ Spec.before a b [].
Proof. intros ([|? ?] & ? & ? & ?); discriminate. Qed.

(** Inserting an element does not reorder the ones already there. *)
Lemma before_insert (a b x : A) l :
  Spec.before a b l -> Spec.before a b (Js.insert cmp x l).
Proof.
  induction l as [|y l IH]; intros Hb; simpl.
  - by apply before_nil in Hb.
  - destruct (cmp x y <=? 0); [by apply before_cons|].
    apply before_cons_inv in Hb as [[-> Hin]|Hb].
    + apply before_head. by rewrite insert_perm, elem_of_cons; right.
    + by apply before_cons, IH.
Qed.

(** The inserted element stops in front of everything it does not exceed. *)
Lemma insert_before (x b : A) l :
  cmp x b <= 0 -> b ∈ l -> Spec.before x b (Js.insert cmp x l).
Proof.
  intros Hxb. induction l as [|y l IH]; intros Hin; simpl.
  - by apply elem_of_nil in Hin.
  - destruct (Z.leb_spec (cmp x y) 0) as [Hle|Hgt]; [by apply before_head|].
    apply elem_of_cons in Hin as [->|Hin]; [lia|].
    by apply before_cons, IH.
Qed.

Lemma sort_stable (a b : A) l :
  Spec.before a b l -> cmp a b <= 0 -> Spec.before a b (Js.sort cmp l).
Proof.
  intros Hb Hab. induction l as [|x l IH]; simpl.
  - by apply before_nil in Hb.
  - apply before_cons_inv in Hb as [[-> Hin]|Hb].
    + apply insert_before; [done|]. by rewrite sort_perm.
    + by apply before_insert, IH.
Qed.

(** For a comparator that is a total preorder the output is sorted. *)
Section Consistent.
Hypothesis cmp_total : forall x y, 0 < cmp x y -> cmp y x <= 0.
Hypothesis cmp_trans : forall x y z, cmp x y <= 0 -> cmp y z <= 0 -> cmp x z <= 0.

Lemma insert_sorted (x : A) l :
  StronglySorted (Spec.inOrder cmp) l ->
  StronglySorted (Spec.inOrder cmp) (Js.insert cmp x l).
Proof.
  induction 1 as [|y l Hs IH Hy]; simpl.
  - repeat constructor.
  - destruct (Z.leb_spec (cmp x y) 0) as [Hle|Hgt].
    + constructor; [by constructor|]. constructor; [done|].
      eapply Forall_impl; [exact Hy|]. intros z Hz. by eapply cmp_trans.
    + constructor; [done|]. rewrite insert_perm. constructor; [|done].
      by apply cmp_total.
Qed.

Lemma sort_sorted l : StronglySorted (Spec.inOrder cmp) (Js.sort cmp l).
Proof.
  induction l as [|x l IH]; simpl; [constructor|by apply insert_sorted].
Qed.

End Consistent.
End SortFacts.

(** For a consistent comparator, the sorted and stable arrangement of an
    array is unique, and [Js.sort] computes it. *)
Section StableSort.
Context {A : Type}.
Implicit Types l : list A.
Variable cmp : A -> A -> Z.
Hypothesis cmp_sym : forall x y, Z.sgn (cmp y x) = - Z.sgn (cmp x y).
Hypothesis cmp_trans : forall x y z, cmp x y <= 0 -> cmp y z <= 0 -> cmp x z <= 0.

Lemma indexFrom_fst (k : nat) l : map fst (Spec.indexFrom k l) = l.
Proof. revert k. induction l as [|x l IH]; intros k; simpl; [done|]. by rewrite IH. Qed.

Lemma indexFrom_lookup (k : nat) l (a : A) (i : nat) :
  (a, i) ∈ Spec.indexFrom k l -> (k <= i)%nat /\ l !! (i - k)%nat = Some a.
Proof.
  revert k. induction l as [|x l IH]; intros k; simpl.
  - by intros ?%elem_of_nil.
  - intros [[= -> ->]|Hin]%elem_of_cons.
    + split; [lia|]. by rewrite Nat.sub_diag.
    + apply IH in Hin as [Hle Hl]. split; [lia|].
      by replace (i - k)%nat with (S (i - S k)) by lia.
Qed.

Lemma indexFrom_later (k : nat) l :
  Forall (fun q => (k < q.2)%nat) (Spec.indexFrom (S k) l).
Proof.
  apply Forall_forall. intros [a i] Hin%indexFrom_lookup. simpl. lia.
Qed.

(** The element that comes first in the input is placed by its key alone. *)
Lemma insert_decorated (x : A) (k : nat) (t : list (A * nat)) :
  Forall (fun q => (k < q.2)%nat) t ->
  map fst (Js.insert (Spec.byKeyThenIndex cmp) (x, k) t) = Js.insert cmp x (map fst t).
Proof.
  induction 1 as [|[y j] t Hj _ IH]; simpl; [done|].
  unfold Spec.byKeyThenIndex at 1. simpl in *.
  destruct (Z.eqb_spec (cmp x y) 0) as [Heq|Hne].
  - rewrite Heq. simpl. destruct (Z.leb_spec (Z.of_nat k - Z.of_nat j) 0); [done|lia].
  - destruct (cmp x y <=? 0); simpl; [done|]. by rewrite IH.
Qed.

Lemma sort_decorated (k : nat) l :
  map fst (Js.sort (Spec.byKeyThenIndex cmp) (Spec.indexFrom k l)) = Js.sort cmp l.
Proof.
  revert k. induction l as [|x l IH]; intros k; simpl; [done|].
  rewrite insert_decorated, IH; [done|].
  rewrite sort_perm. apply indexFrom_later.
Qed.

Lemma byKeyThenIndex_total (p q : A * nat) :
  0 < Spec.byKeyThenIndex cmp p q -> Spec.byKeyThenIndex cmp q p <= 0.
Proof.
  unfold Spec.byKeyThenIndex. pose proof (cmp_sym p.1 q.1).
  destruct (Z.eqb_spec (cmp p.1 q.1) 0), (Z.eqb_spec (cmp q.1 p.1) 0); lia.
Qed.

Lemma byKeyThenIndex_trans (p q r : A * nat) :
  Spec.byKeyThenIndex cmp p q <= 0 -> Spec.byKeyThenIndex cmp q r <= 0 ->
  Spec.byKeyThenIndex cmp p r <= 0.
Proof.
  unfold Spec.byKeyThenIndex.
  pose proof (cmp_sym p.1 q.1). pose proof (cmp_sym q.1 r.1). pose proof (cmp_sym p.1 r.1).
  pose proof (cmp_trans p.1 q.1 r.1). pose proof (cmp_trans r.1 p.1 q.1).
  pose proof (cmp_trans q.1 r.1 p.1). pose proof (cmp_trans r.1 q.1 p.1).
  pose proof (cmp_trans q.1 p.1 r.1). pose proof (cmp_trans p.1 r.1 q.1).
  destruct (Z.eqb_spec (cmp p.1 q.1) 0), (Z.eqb_spec (cmp q.1 r.1) 0),
    (Z.eqb_spec (cmp p.1 r.1) 0); lia.
Qed.

Lemma sort_decorated_sorted l :
  StronglySorted (Spec.stableOrder cmp)
    (Js.sort (Spec.byKeyThenIndex cmp) (Spec.indexFrom 0 l)).
Proof.
  assert (forall t, StronglySorted (Spec.inOrder (Spec.byKeyThenIndex cmp)) t ->
                    StronglySorted (Spec.stableOrder cmp) t) as Himpl.
  { induction 1 as [|p t _ IH Hp]; constructor; [done|].
    eapply Forall_impl; [exact Hp|]. intros q.
    unfold Spec.inOrder, Spec.byKeyThenIndex, Spec.stableOrder.
    destruct (Z.eqb_spec (cmp p.1 q.1) 0); lia. }
  apply Himpl, sort_sorted.
  - apply byKeyThenIndex_total.
  - apply byKeyThenIndex_trans.
Qed.

(** Whatever algorithm arranges the decorated input in stable order, the
    result is the array [Js.sort] returns. *)
Lemma sort_is_the_stable_sort l (t : list (A * nat)) :
  t ≡ₚ Spec.indexFrom 0 l ->
  StronglySorted (Spec.stableOrder cmp) t ->
  map fst t = Js.sort cmp l.
Proof.
  intros Hp Hs. rewrite <- (sort_decorated 0 l). f_equal.
  apply (StronglySorted_unique_strong (Spec.stableOrder cmp)).
  - intros [a i] [b j] Ha Hb H1 H2. rewrite Hp in Ha. rewrite sort_perm in Hb.
    unfold Spec.stableOrder in H1, H2. simpl in *.
    pose proof (cmp_sym a b). assert (i = j) as -> by lia.
    apply indexFrom_lookup in Ha as [_ Ha]. apply indexFrom_lookup in Hb as [_ Hb].
    congruence.
  - done.
  - apply sort_decorated_sorted.
  - by rewrite sort_perm.
Qed.

End StableSort.

(** * Aggregation *)

Section Aggregation.
Context `{Host}.
Import Dashboard.

Lemma fold_left_sum {A} (f : A -> Z) (l : list A) (a : Z) :
  fold_left (fun s p => s + f p) l a = a + Spec.sumZ (map f l).
Proof.
  revert a. induction l as [|x l IH]; intros a; simpl; [lia|].
  rewrite IH. lia.
Qed.

Lemma totalBudget_sum (projects : list Project) :
  totalBudget projects = Spec.sumZ (map (fun p => default 0 (budget p)) projects).
Proof. unfold totalBudget. by rewrite fold_left_sum. Qed.

Lemma totalSpent_sum (projects : list Project) :
  totalSpent projects = Spec.sumZ (map (fun p => default 0 (spent p)) projects).
Proof. unfold totalSpent. by rewrite fold_left_sum. Qed.


End Aggregation.

(** * Pagination *)

Section Pagination.


Lemma totalPages_pos (n : nat) (size : Z) : 1 <= Dashboard.totalPages n size.
Proof. unfold Dashboard.totalPages. lia. Qed.

(** [totalPages] is [max 1 c] for the least [c] with [n <= c * size]. *)
Lemma totalPages_ceil (n : nat) (size : Z) :
  0 < size ->
  exists c, (c - 1) * size < Z.of_nat n <= c * size
            /\ Dashboard.totalPages n size = Z.max 1 c.
Proof.
  intros Hs. eexists. split; [by apply ceil_least|done].
Qed.

Lemma pagedProjects_window (items : list Dashboard.Project) (sp size : Z) :
  0 < size -> 1 <= sp ->
  Dashboard.pagedProjects items sp size
  = take (Z.to_nat size) (drop (Z.to_nat ((sp - 1) * size)) items).
Proof.
  intros Hs Hp. unfold Dashboard.pagedProjects. cbv zeta.
  rewrite slice_window by nia. do 2 f_equal. lia.
Qed.

Lemma pageItems_window (items : list Pages.Project) (sp size : Z) :
  0 < size -> 1 <= sp ->
  Pages.pageItems items sp size
  = take (Z.to_nat size) (drop (Z.to_nat ((sp - 1) * size)) items).
Proof.
  intros Hs Hp. unfold Pages.pageItems.
  rewrite slice_window by nia. do 2 f_equal. lia.
Qed.

End Pagination.

Section PaginationExamples.
Import Samples.

(** Twelve records on pages of five, page 10 requested: both components
    show page 3 with the last two records. *)
Example last_page_of_twelve :
  Dashboard.totalPages (length twelve) 5 = 3
  /\ Dashboard.safePage 10 3 = 3
  /\ Dashboard.pagedProjects twelve 3 5 = [numbered 11; numbered 12]
  /\ Pages.safePage 10 3 = 3
  /\ Pages.pageItems twelvePages 3 5 = [numberedPage 11; numberedPage 12].
Proof. repeat split; reflexivity. Qed.

End PaginationExamples.

(** * The page index as the events go by *)

Section PageIndex.
Context `{Host}.
Import Dashboard.

Lemma effect_page_cases (st st' : State) :
  page (effect st st') = page st' \/ page (effect st st') = 1.
Proof.
  unfold effect. destruct (decide (deps st = deps st')); [by left|by right].
Qed.

Lemma handle_page_pos (projects : list Project) (e : Event) (st : State) :
  1 <= page st -> 1 <= page (handle projects e st).
Proof.
  intros Hp. destruct e; simpl; try done.
  - lia.
  - pose proof (totalPages_pos (length (shown projects st)) pageSize). lia.
Qed.

Lemma step_page_pos (projects : list Project) (e : Event) (st : State) :
  1 <= page st -> 1 <= page (step projects e st).
Proof.
  intros Hp. unfold step.
  destruct (effect_page_cases st (handle projects e st)) as [-> | ->]; [|lia].
  by apply handle_page_pos.
Qed.

Lemma reachable_page_pos (st : State) : reachable st -> 1 <= page st.
Proof.
  induction 1 as [|projects e st _ IH]; [simpl; lia|by apply step_page_pos].
Qed.

Lemma step_Prev (projects : list Project) (st : State) :
  page (step projects Prev st) = Z.max 1 (page st - 1).
Proof.
  unfold step, effect. simpl. by rewrite decide_True.
Qed.

Lemma step_Next (projects : list Project) (st : State) :
  page (step projects Next st)
  = Z.min (totalPages (length (shown projects st)) pageSize) (page st + 1).
Proof.
  unfold step, effect. simpl. by rewrite decide_True.
Qed.

(** C9: from page index 1, a Prev step stores [max 1 (page - 1)] and a Next
    step stores [min totalPages (page + 1)]; the stored index is at least 1 in
    every reachable state, and there the displayed index
    [min page totalPages] lies in [[1, totalPages]] whatever the records
    are, although [min page totalPages] alone keeps any index below
    [totalPages] as it is. *)
Theorem page_index_invariant (st : State) :
  reachable st ->
  page initial = 1
  /\ (forall projects, page (step projects Prev st) = Z.max 1 (page st - 1))
  /\ (forall projects,
        page (step projects Next st)
        = Z.min (v_totalPages (render projects st)) (page st + 1))
  /\ 1 <= page st
  /\ (forall projects,
        let v := render projects st in
        v_safePage v = Z.min (page st) (v_totalPages v)
        /\ 1 <= v_safePage v <= v_totalPages v)
  /\ (forall p tp, p <= tp -> safePage p tp = p).
Proof.
  intros Hr. pose proof (reachable_page_pos st Hr) as Hp.
  split; [done|]. split; [intros; apply step_Prev|]. split; [intros; apply step_Next|].
  split; [done|]. split; [|intros p tp Hle; unfold safePage; lia].
  intros projects v. split; [done|].
  subst v. simpl. unfold safePage.
  pose proof (totalPages_pos (length (shown projects st)) pageSize). lia.
Qed.



End PageIndex.

Section PageIndexExamples.
Import Samples RefHost.

Lemma page_index_invariant_witness :
  Dashboard.reachable (Dashboard.step twelve Dashboard.Next Dashboard.initial)
  /\ 1 <= Dashboard.page (Dashboard.step twelve Dashboard.Next Dashboard.initial).
Proof.
  assert (Dashboard.reachable (Dashboard.step twelve Dashboard.Next Dashboard.initial))
    as Hr by (apply Dashboard.reach_step, Dashboard.reach_initial).
  split; [exact Hr|].
  exact (proj1 (proj2 (proj2 (proj2 (page_index_invariant _ Hr))))).
Defined.



End PageIndexExamples.

(** * Pagination in reachable states *)

Section PaginationBounds.
Context `{Host}.


End PaginationBounds.

Section PaginationBoundsExamples.
Import Samples PageSamples RefHost.



End PaginationBoundsExamples.

(** * The comparator of the sort stage is consistent *)

Section ConsistentComparator.
Context `{Host}.
Import Dashboard.

(** What is asked of the collation of the host: the sign flips with the
    arguments, and "not after" is transitive. *)
Hypothesis collation_sym :
  forall s t, Z.sgn (localeCompare t s) = - Z.sgn (localeCompare s t).
Hypothesis collation_trans :
  forall s t u, localeCompare s t <= 0 -> localeCompare t u <= 0 -> localeCompare s u <= 0.

(** Under one key all values are of one type, or missing. *)
Lemma field_kind (k : SortKey) (p : Project) : Spec.ofKind (Spec.kindOf k) (field k p).
Proof.
  destruct k; simpl;
    [destruct (createdAt p)|destruct (name p)|destruct (owner p)
    |destruct (budget p)|destruct (spent p)|destruct (status p)]; done.
Qed.

Lemma compare_sym (c : Spec.kind) (v w : value) :
  Spec.ofKind c v -> Spec.ofKind c w -> Z.sgn (compare w v) = - Z.sgn (compare v w).
Proof.
  destruct c, v as [|x|s], w as [|y|t]; simpl; try done; try lia;
    intros _ _; apply collation_sym.
Qed.

Lemma compare_trans (c : Spec.kind) (u v w : value) :
  Spec.ofKind c u -> Spec.ofKind c v -> Spec.ofKind c w ->
  compare u v <= 0 -> compare v w <= 0 -> compare u w <= 0.
Proof.
  destruct c, u as [|x|s], v as [|y|t], w as [|z|r]; simpl; try done; try lia;
    intros _ _ _; apply collation_trans.
Qed.

Lemma sortCmp_sym (k : SortKey) (d : SortDir) (a b : Project) :
  Z.sgn (sortCmp k d b a) = - Z.sgn (sortCmp k d a b).
Proof.
  pose proof (compare_sym (Spec.kindOf k) _ _ (field_kind k a) (field_kind k b)).
  unfold sortCmp. destruct d; lia.
Qed.

Lemma sortCmp_trans (k : SortKey) (d : SortDir) (a b c : Project) :
  sortCmp k d a b <= 0 -> sortCmp k d b c <= 0 -> sortCmp k d a c <= 0.
Proof.
  pose proof (compare_sym (Spec.kindOf k) _ _ (field_kind k a) (field_kind k b)).
  pose proof (compare_sym (Spec.kindOf k) _ _ (field_kind k b) (field_kind k c)).
  pose proof (compare_sym (Spec.kindOf k) _ _ (field_kind k a) (field_kind k c)).
  pose proof (compare_trans (Spec.kindOf k) _ _ _ (field_kind k a) (field_kind k b) (field_kind k c)).
  pose proof (compare_trans (Spec.kindOf k) _ _ _ (field_kind k c) (field_kind k b) (field_kind k a)).
  unfold sortCmp. destruct d; lia.
Qed.

(** So the sort stage returns the one stable arrangement of its input, and
    that arrangement is in the order of the comparator. *)
Lemma sortStage_is_the_stable_sort (k : SortKey) (d : SortDir) (l : list Project)
    (t : list (Project * nat)) :
  t ≡ₚ Spec.indexFrom 0 l ->
  StronglySorted (Spec.stableOrder (sortCmp k d)) t ->
  map fst t = sortStage k d l.
Proof.
  apply sort_is_the_stable_sort; [apply sortCmp_sym|apply sortCmp_trans].
Qed.

Lemma sortStage_sorted (k : SortKey) (d : SortDir) (l : list Project) :
  StronglySorted (Spec.inOrder (sortCmp k d)) (sortStage k d l).
Proof.
  apply sort_sorted; [|apply sortCmp_trans].
  intros x y Hxy. pose proof (sortCmp_sym k d x y). lia.
Qed.

End ConsistentComparator.

(** * The sort stage *)

Section InsertFacts.
Context {A : Type}.
Implicit Types l : list A.
Variable cmp : A -> A -> Z.

Lemma insert_front (x : A) l :
  match l with [] => True | y :: _ => cmp x y <= 0 end -> Js.insert cmp x l = x :: l.
Proof.
  destruct l as [|y l]; simpl; [done|]. intros Hle.
  by destruct (Z.leb_spec (cmp x y) 0); [|lia].
Qed.

Lemma insert_past (x : A) l1 l2 :
  Forall (fun y => 0 < cmp x y) l1 ->
  Js.insert cmp x (l1 ++ l2) = l1 ++ Js.insert cmp x l2.
Proof.
  induction 1 as [|y l1 Hy _ IH]; simpl; [done|].
  destruct (Z.leb_spec (cmp x y) 0); [lia|]. by rewrite IH.
Qed.

Lemma insert_within (x : A) l1 l2 :
  match l2 with [] => True | y :: _ => cmp x y <= 0 end ->
  Js.insert cmp x (l1 ++ l2) = Js.insert cmp x l1 ++ l2.
Proof.
  intros Hl2. induction l1 as [|y l1 IH]; simpl.
  - by apply insert_front.
  - destruct (cmp x y <=? 0); [done|]. by rewrite IH.
Qed.

End InsertFacts.

Section SortStage.
Context `{Host}.
Import Dashboard.

Lemma missing_field (k : SortKey) (p : Project) :
  Spec.missing k p = true <-> field k p = VNull.
Proof. unfold Spec.missing. destruct (field k p); split; congruence. Qed.

Lemma present_field (k : SortKey) (p : Project) :
  Spec.present k p = true <-> field k p <> VNull.
Proof.
  unfold Spec.present, Spec.missing. destruct (field k p); simpl; split; congruence.
Qed.

Lemma compare_missing_l (v : value) : v <> VNull -> compare VNull v = -1.
Proof. by destruct v. Qed.

Lemma compare_missing_r (v : value) : v <> VNull -> compare v VNull = 1.
Proof. by destruct v. Qed.

Lemma compare_missing_any (v : value) : compare VNull v <= 0.
Proof. destruct v; simpl; lia. Qed.

Lemma sortCmp_desc (k : SortKey) (a b : Project) :
  sortCmp k desc a b = - sortCmp k asc a b.
Proof. reflexivity. Qed.

Lemma Forall_filter {A} (f : A -> bool) (l : list A) :
  Forall (fun x => f x = true) (List.filter f l).
Proof.
  apply Forall_forall. intros x Hx%list_elem_of_In%filter_In. tauto.
Qed.

Lemma sorted_present (k : SortKey) (d : SortDir) (l : list Project) :
  Forall (fun y => Spec.present k y = true)
    (sortStage k d (List.filter (Spec.present k) l)).
Proof.
  unfold sortStage. rewrite sort_perm. apply Forall_filter.
Qed.

Lemma filter_present_cons_missing (k : SortKey) (x : Project) (l : list Project) :
  Spec.missing k x = true ->
  List.filter (Spec.missing k) (x :: l) = x :: List.filter (Spec.missing k) l
  /\ List.filter (Spec.present k) (x :: l) = List.filter (Spec.present k) l.
Proof. intros Hx. simpl. unfold Spec.present. by rewrite Hx. Qed.

Lemma filter_present_cons_present (k : SortKey) (x : Project) (l : list Project) :
  Spec.missing k x = false ->
  List.filter (Spec.missing k) (x :: l) = List.filter (Spec.missing k) l
  /\ List.filter (Spec.present k) (x :: l) = x :: List.filter (Spec.present k) l.
Proof. intros Hx. simpl. unfold Spec.present. by rewrite Hx. Qed.

(** Ascending: the records without a key come first, in input order. *)
Lemma sortStage_asc_missing_first (k : SortKey) (l : list Project) :
  sortStage k asc l
  = List.filter (Spec.missing k) l ++ sortStage k asc (List.filter (Spec.present k) l).
Proof.
  induction l as [|x l IH]; [done|].
  change (sortStage k asc (x :: l)) with (Js.insert (sortCmp k asc) x (sortStage k asc l)).
  rewrite IH. destruct (Spec.missing k x) eqn:Hx.
  - destruct (filter_present_cons_missing k x l Hx) as [-> ->].
    rewrite <- app_comm_cons. apply insert_front. apply missing_field in Hx.
    destruct (_ ++ _); [done|]. unfold sortCmp. rewrite Hx. apply compare_missing_any.
  - destruct (filter_present_cons_present k x l Hx) as [-> ->].
    apply insert_past. eapply Forall_impl; [apply Forall_filter|].
    intros y Hy%missing_field. unfold sortCmp. rewrite Hy, compare_missing_r; [lia|].
    apply present_field. unfold Spec.present. by rewrite Hx.
Qed.

(** Descending: the records without a key come last, in input order. *)
Lemma sortStage_desc_missing_last (k : SortKey) (l : list Project) :
  sortStage k desc l
  = sortStage k desc (List.filter (Spec.present k) l) ++ List.filter (Spec.missing k) l.
Proof.
  induction l as [|x l IH]; [done|].
  change (sortStage k desc (x :: l)) with (Js.insert (sortCmp k desc) x (sortStage k desc l)).
  rewrite IH. destruct (Spec.missing k x) eqn:Hx.
  - destruct (filter_present_cons_missing k x l Hx) as [-> ->].
    apply missing_field in Hx. rewrite insert_past.
    + f_equal. apply insert_front.
      pose proof (Forall_filter (Spec.missing k) l) as Hm.
      destruct (List.filter (Spec.missing k) l) as [|y ?]; [done|].
      apply Forall_cons in Hm as [Hy%missing_field _].
      unfold sortCmp. rewrite Hx, Hy. simpl. lia.
    + eapply Forall_impl; [apply sorted_present|].
      intros y Hy%present_field. unfold sortCmp. rewrite Hx, compare_missing_l; [lia|done].
  - destruct (filter_present_cons_present k x l Hx) as [-> ->].
    apply insert_within.
    pose proof (Forall_filter (Spec.missing k) l) as Hm.
    destruct (List.filter (Spec.missing k) l) as [|y ?]; [done|].
    apply Forall_cons in Hm as [Hy%missing_field _].
    unfold sortCmp. rewrite Hy, compare_missing_r; [lia|].
    apply present_field. unfold Spec.present. by rewrite Hx.
Qed.

(** C5: under every sort key the comparator puts a record without a value
    for the key below every record that has one; the descending comparator
    is the negation of the ascending one, the rule for missing values
    included; so the sort stage puts the records without a value first in
    ascending mode and last in descending mode. *)
Theorem missing_values_sort (k : SortKey) (l : list Project) :
  (forall a b, Spec.missing k a = true -> Spec.present k b = true ->
     sortCmp k asc a b < 0 /\ 0 < sortCmp k asc b a)
  /\ (forall a b, sortCmp k desc a b = - sortCmp k asc a b)
  /\ sortStage k asc l
     = List.filter (Spec.missing k) l ++ sortStage k asc (List.filter (Spec.present k) l)
  /\ sortStage k desc l
     = sortStage k desc (List.filter (Spec.present k) l) ++ List.filter (Spec.missing k) l.
Proof.
  split; [|split; [|split]].
  - intros a b Ha%missing_field Hb%present_field. unfold sortCmp.
    rewrite Ha, compare_missing_l, compare_missing_r by done. lia.
  - intros a b. apply sortCmp_desc.
  - apply sortStage_asc_missing_first.
  - apply sortStage_desc_missing_last.
Qed.

Lemma sortCmp_equal (k : SortKey) (d : SortDir) (a b : Project) :
  compare (field k a) (field k b) = 0 -> sortCmp k d a b = 0.
Proof. intros Hc. unfold sortCmp. rewrite Hc. by destruct d. Qed.

(** C6: the output of the sort stage is a permutation of its input; two
    records whose keys compare equal keep their input order in both
    directions; in particular, sorted by budget in descending order, a record
    of budget 200 that precedes another record of budget 200 in the input
    precedes it in the output. *)
Theorem sort_stage_permutation_stable (k : SortKey) (d : SortDir) (l : list Project) :
  sortStage k d l ≡ₚ l
  /\ (forall a b, Spec.before a b l -> compare (field k a) (field k b) = 0 ->
        Spec.before a b (sortStage k d l))
  /\ (forall a b, budget a = Some 200 -> budget b = Some 200 -> Spec.before a b l ->
        Spec.before a b (sortStage KBudget desc l)).
Proof.
  split; [apply sort_perm|]. split.
  - intros a b Hb Hc. apply sort_stable; [done|]. by rewrite sortCmp_equal.
  - intros a b Ha Hb Hbefore. apply sort_stable; [done|].
    unfold sortCmp. simpl. rewrite Ha, Hb. simpl. lia.
Qed.

End SortStage.

Section SortStageExamples.
Import Samples RefHost.

(** By budget, descending: 300, then the two records of 200 in input order,
    then 100. *)
Example ties_by_budget_desc :
  map Dashboard.id (Dashboard.sortStage Dashboard.KBudget desc withTies) = [5; 3; 7; 1]
  /\ map Dashboard.id (Dashboard.sortStage Dashboard.KBudget asc withTies) = [1; 3; 7; 5].
Proof. split; reflexivity. Qed.

Example missing_budget_position :
  map Dashboard.id (Dashboard.sortStage Dashboard.KBudget asc (withTies ++ [unbudgeted]))
    = [9; 1; 3; 7; 5]
  /\ map Dashboard.id (Dashboard.sortStage Dashboard.KBudget desc (unbudgeted :: withTies))
    = [5; 3; 7; 1; 9].
Proof. split; reflexivity. Qed.

Lemma missing_values_sort_witness :
  Spec.missing Dashboard.KBudget unbudgeted = true
  /\ Spec.present Dashboard.KBudget tied3 = true
  /\ Dashboard.sortCmp Dashboard.KBudget asc unbudgeted tied3 < 0.
Proof.
  assert (Spec.missing Dashboard.KBudget unbudgeted = true) as Hm by reflexivity.
  assert (Spec.present Dashboard.KBudget tied3 = true) as Hp by reflexivity.
  split; [exact Hm|]. split; [exact Hp|].
  exact (proj1 (proj1 (missing_values_sort Dashboard.KBudget withTies) _ _ Hm Hp)).
Defined.

Lemma sort_stage_permutation_stable_witness :
  Dashboard.budget tied3 = Some 200
  /\ Dashboard.budget tied7 = Some 200
  /\ Spec.before tied3 tied7 withTies
  /\ Spec.before tied3 tied7 (Dashboard.sortStage Dashboard.KBudget desc withTies).
Proof.
  assert (Spec.before tied3 tied7 withTies) as Hb.
  { exists [project 1 "Alpha" "Ana" ACTIVE 100 10 "2026-01-01"],
      [project 5 "Epsilon" "Carmen" DONE 300 30 "2026-01-03"], []. reflexivity. }
  split; [reflexivity|]. split; [reflexivity|]. split; [exact Hb|].
  exact (proj2 (proj2 (sort_stage_permutation_stable Dashboard.KBudget desc withTies))
           tied3 tied7 eq_refl eq_refl Hb).
Defined.

End SortStageExamples.

(** * Numbers *)

Section NumberFacts.
Import Number.
Local Open Scope Q_scope.

Lemma pow2_pos (e : Z) : 0 < pow2 e.
Proof. apply Qpower_0_lt. reflexivity. Qed.

Lemma pow2_add (a b : Z) : pow2 (a + b) == pow2 a * pow2 b.
Proof. apply Qpower_plus. discriminate. Qed.

Lemma pow2_le (a b : Z) : (a <= b)%Z -> pow2 a <= pow2 b.
Proof. intros Hab. apply Qpower_le_compat_l; [done|]. discriminate. Qed.

Lemma pow2_Z (n : Z) : (0 <= n)%Z -> pow2 n == inject_Z (2 ^ n).
Proof. intros Hn. unfold pow2. by rewrite Zpower_Qpower. Qed.

Lemma pow2_0 : pow2 0 == 1.
Proof. reflexivity. Qed.

Lemma pow2_S (e : Z) : pow2 (e + 1) == 2 * pow2 e.
Proof. rewrite pow2_add. change (pow2 1) with 2. ring. Qed.

Lemma Qred_inject_Z (x : Q) (z : Z) : x == inject_Z z -> Qred x = inject_Z z.
Proof.
  intros Hx. rewrite (Qred_complete _ _ Hx).
  unfold inject_Z, Qred. simpl.
  pose proof (Z.ggcd_gcd z 1) as Hg. pose proof (Z.ggcd_correct_divisors z 1) as Hd.
  destruct (Z.ggcd z 1) as [g [a b]]. simpl in *.
  rewrite Z.gcd_1_r in Hg. subst g. destruct Hd as [Ha Hb].
  rewrite Z.mul_1_l in Ha, Hb. by subst.
Qed.

Lemma nearestEven_error (x : Q) : Qabs (inject_Z (nearestEven x) - x) <= 1 # 2.
Proof.
  unfold nearestEven.
  pose proof (Qfloor_le x) as Hlo. pose proof (Qlt_floor x) as Hhi.
  rewrite inject_Z_plus in Hhi. change (inject_Z 1) with 1 in Hhi.
  apply Qabs_Qle_condition.
  destruct (Qcompare_spec (x - inject_Z (Qfloor x)) (1 # 2)) as [He|Hlt|Hgt].
  - destruct (Z.even (Qfloor x)); rewrite ?inject_Z_plus; change (inject_Z 1) with 1; lra.
  - lra.
  - rewrite inject_Z_plus. change (inject_Z 1) with 1. lra.
Qed.

Lemma nearestEven_int (x : Q) (z : Z) : x == inject_Z z -> nearestEven x = z.
Proof.
  intros Hx. unfold nearestEven.
  assert (Qfloor x = z) as -> by (rewrite Hx; apply Qfloor_Z).
  assert (x - inject_Z z == 0) as H0 by lra.
  rewrite H0. reflexivity.
Qed.

End NumberFacts.

Section Rounding.
Import Number.
Local Open Scope Q_scope.

Lemma Qabs_make (x : Q) : Qabs x = (Z.abs (Qnum x) # Qden x).
Proof. by destruct x. Qed.

Lemma Qnum_nonzero (x : Q) : ~ x == 0 -> (0 < Z.abs (Qnum x))%Z.
Proof.
  intros Hx. destruct x as [n d]. simpl.
  assert (n <> 0%Z); [|lia].
  intros ->. apply Hx. reflexivity.
Qed.

(** [ilog2 x] is not above the binary logarithm of [|x|]. *)
Lemma ilog2_le (x : Q) : ~ x == 0 -> pow2 (ilog2 x) <= Qabs x.
Proof.
  intros Hx. unfold ilog2.
  set (n := Z.abs (Qnum x)). set (d := Z.pos (Qden x)).
  destruct (Qle_bool (pow2 (Z.log2 n - Z.log2 d)) (Qabs x)) eqn:Ht.
  { by apply Qle_bool_iff. }
  assert (0 < n)%Z as Hn by by apply Qnum_nonzero.
  assert (0 < d)%Z as Hd by done.
  destruct (Z.log2_spec n Hn) as [Hn1 _]. destruct (Z.log2_spec d Hd) as [_ Hd2].
  pose proof (Z.log2_nonneg n) as Ha. pose proof (Z.log2_nonneg d) as Hb.
  rewrite Qabs_make. fold n. rewrite (Qmake_Qdiv n (Qden x)). fold d.
  replace (Z.log2 n - Z.log2 d - 1)%Z with (Z.log2 n + - (Z.succ (Z.log2 d)))%Z by lia.
  rewrite pow2_add. unfold pow2 at 2. rewrite Qpower_opp. fold (pow2 (Z.succ (Z.log2 d))).
  rewrite !pow2_Z by lia.
  assert (inject_Z (2 ^ Z.log2 n) <= inject_Z n) as H1 by by rewrite <- Zle_Qle.
  assert (inject_Z d < inject_Z (2 ^ Z.succ (Z.log2 d))) as H2 by by rewrite <- Zlt_Qlt.
  assert (0 < inject_Z d) as H3 by (by rewrite <- (Zlt_Qlt 0)).
  assert (0 < inject_Z (2 ^ Z.log2 n)) as H4.
  { rewrite <- (Zlt_Qlt 0). by apply Z.pow_pos_nonneg. }
  set (A := inject_Z (2 ^ Z.log2 n)) in *. set (B := inject_Z (2 ^ Z.succ (Z.log2 d))) in *.
  set (N := inject_Z n) in *. set (D := inject_Z d) in *.
  apply Qle_shift_div_l; [done|].
  setoid_replace (A * / B * D) with (A * D / B) using relation Qeq by (field; lra).
  apply Qle_shift_div_r; [lra|]. nra.
Qed.

Lemma ofQ_zero (x : Q) : x == 0 -> ofQ x = Finite 0.
Proof.
  intros Hx. unfold ofQ. rewrite (Qred_inject_Z x 0 Hx). reflexivity.
Qed.

(** In the normal range the Number value for [x] is finite, and its relative
    error is at most [2^-53]. *)
Lemma ofQ_error (x : Q) :
  pow2 (-1022) <= Qabs x -> Qabs x <= pow2 1023 ->
  exists y, ofQ x = Finite y /\ Qabs (y - x) <= Qabs x * pow2 (-53).
Proof.
  intros Hlo Hhi. unfold ofQ.
  pose proof (Qred_correct x) as Hr. set (x' := Qred x) in *.
  pose proof (pow2_pos (-1022)) as Hp.
  assert (~ x' == 0) as Hx'.
  { intros H0. rewrite Hr in H0. rewrite H0 in Hlo. change (Qabs 0) with 0 in Hlo. lra. }
  destruct (Qeq_bool x' 0) eqn:He; [by apply Qeq_bool_iff in He|].
  set (e := quantum x'). set (m := nearestEven (x' / pow2 e)).
  pose proof (nearestEven_error (x' / pow2 e)) as Hm. fold m in Hm.
  pose proof (pow2_pos e) as He0. pose proof (pow2_pos (-53)) as Hu.
  assert (pow2 e <= 2 * (Qabs x * pow2 (-53))) as Hq.
  { subst e. unfold quantum.
    destruct (Z.max_spec (ilog2 x' - 52) (-1074)) as [[_ ->]|[_ ->]].
    - assert (pow2 (-1074) == 2 * (pow2 (-1022) * pow2 (-53))) as -> by reflexivity.
      nra.
    - replace (ilog2 x' - 52)%Z with (ilog2 x' + -53 + 1)%Z by lia.
      rewrite pow2_S, pow2_add. pose proof (ilog2_le x' Hx') as Hl.
      pose proof (Qabs_wd _ _ Hr) as Ha. nra. }
  assert (Qabs (inject_Z m * pow2 e - x) <= Qabs x * pow2 (-53)) as Hy.
  { setoid_replace (inject_Z m * pow2 e - x)
      with ((inject_Z m - x' / pow2 e) * pow2 e) using relation Qeq by (rewrite <- Hr; field; lra).
    rewrite Qabs_Qmult, (Qabs_pos (pow2 e)) by lra.
    nra. }
  assert (pow2 (-53) < 1) as Hu1 by reflexivity.
  assert (pow2 1024 == 2 * pow2 1023) as H1024 by reflexivity.
  pose proof (pow2_pos 1023) as H1023.
  assert (Qabs (inject_Z m * pow2 e) < pow2 1024) as Hfin.
  { setoid_replace (inject_Z m * pow2 e) with ((inject_Z m * pow2 e - x) + x) using relation Qeq by ring.
    eapply Qle_lt_trans; [apply Qabs_triangle|].
    pose proof (Qabs_nonneg x).
    assert (Qabs x * pow2 (-53) <= pow2 1023 * pow2 (-53)) by nra.
    assert (pow2 1023 * pow2 (-53) < pow2 1023) by nra.
    lra. }
  destruct (Qle_bool (pow2 1024) (Qabs (inject_Z m * pow2 e))) eqn:Ho.
  { apply Qle_bool_iff in Ho. lra. }
  eexists. split; [reflexivity|]. by rewrite Qred_correct.
Qed.

End Rounding.

Section Integers.
Import Number.
Local Open Scope Q_scope.

Lemma ilog2_inject_Z (z : Z) : z <> 0%Z -> ilog2 (inject_Z z) = Z.log2 (Z.abs z).
Proof.
  intros Hz. unfold ilog2. cbn [Qnum Qden inject_Z].
  change (Z.log2 1) with 0%Z. rewrite Z.sub_0_r.
  assert (Qle_bool (pow2 (Z.log2 (Z.abs z))) (Qabs (inject_Z z)) = true) as ->; [|done].
  apply Qle_bool_iff. rewrite pow2_Z by apply Z.log2_nonneg.
  change (Qabs (inject_Z z)) with (inject_Z (Z.abs z)). rewrite <- Zle_Qle.
  apply Z.log2_spec. lia.
Qed.

(** An integer of magnitude [2^53] at most is a number. *)
Lemma ofQ_int (x : Q) (z : Z) :
  x == inject_Z z -> (Z.abs z <= Amounts.exact)%Z -> ofQ x = Finite (inject_Z z).
Proof.
  intros Hx Hz. destruct (decide (z = 0%Z)) as [->|Hz0]; [by apply ofQ_zero|].
  unfold ofQ. rewrite (Qred_inject_Z x z Hx).
  destruct (Qeq_bool (inject_Z z) 0) eqn:He.
  { apply Qeq_bool_iff in He. rewrite (inject_Z_injective z 0) in He. done. }
  unfold quantum. rewrite ilog2_inject_Z by done.
  set (L := Z.log2 (Z.abs z)).
  assert (0 <= L <= 53)%Z as HL.
  { split; [apply Z.log2_nonneg|].
    change 53%Z with (Z.log2 Amounts.exact). by apply Z.log2_le_mono. }
  rewrite Z.max_l by lia.
  assert (exists m, inject_Z z / pow2 (L - 52) == inject_Z m) as [m Hm].
  { destruct (decide (L = 53%Z)) as [HL53|HL53].
    - assert (Z.abs z = Amounts.exact) as Habs.
      { destruct (Z.log2_spec (Z.abs z)) as [Hlo _]; [lia|].
        fold L in Hlo. rewrite HL53 in Hlo. change (2 ^ 53)%Z with Amounts.exact in Hlo. lia. }
      rewrite HL53. unfold Amounts.exact in Habs.
      assert (z = 9007199254740992 \/ z = -9007199254740992)%Z as [-> | ->] by lia.
      + by exists 4503599627370496%Z.
      + by exists (-4503599627370496)%Z.
    - exists (z * 2 ^ (52 - L))%Z.
      rewrite inject_Z_mult, <- pow2_Z by lia.
      pose proof (pow2_add (L - 52) (52 - L)) as Hp.
      replace (L - 52 + (52 - L))%Z with 0%Z in Hp by lia. rewrite pow2_0 in Hp.
      pose proof (pow2_pos (L - 52)).
      transitivity (inject_Z z * (pow2 (L - 52) * pow2 (52 - L)) / pow2 (L - 52)).
      + rewrite <- Hp. field. lra.
      + field. lra. }
  rewrite (nearestEven_int _ _ Hm).
  assert (inject_Z m * pow2 (L - 52) == inject_Z z) as Hy.
  { rewrite <- Hm. pose proof (pow2_pos (L - 52)). field. lra. }
  destruct (Qle_bool (pow2 1024) (Qabs (inject_Z m * pow2 (L - 52)))) eqn:Ho.
  { apply Qle_bool_iff in Ho. rewrite Hy in Ho.
    change (Qabs (inject_Z z)) with (inject_Z (Z.abs z)) in Ho.
    rewrite (pow2_Z 1024) in Ho by done. rewrite <- Zle_Qle in Ho.
    assert (Amounts.exact < 2 ^ 1024)%Z by reflexivity. lia. }
  by rewrite (Qred_inject_Z _ _ Hy).
Qed.

Lemma ofZ_exact (z : Z) : (Z.abs z <= Amounts.exact)%Z -> ofZ z = Finite (inject_Z z).
Proof. intros Hz. by apply ofQ_int. Qed.

Lemma add_exact (a b : Z) :
  (Z.abs (a + b) <= Amounts.exact)%Z ->
  add (Finite (inject_Z a)) (Finite (inject_Z b)) = Finite (inject_Z (a + b)).
Proof. intros Hab. simpl. apply ofQ_int; [|done]. by rewrite inject_Z_plus. Qed.

(** Adding up integers whose absolute values sum to [2^53] at most loses
    nothing. *)
Lemma fold_add_exact {A} (f : A -> Z) (g : A -> Number.t) (l : list A) (a : Z) :
  (forall x, (Z.abs (f x) <= Amounts.exact)%Z -> g x = Finite (inject_Z (f x))) ->
  (Z.abs a + Spec.sumZ (map (fun x => Z.abs (f x)) l) <= Amounts.exact)%Z ->
  fold_left (fun s x => add s (g x)) l (Finite (inject_Z a))
  = Finite (inject_Z (a + Spec.sumZ (map f l))).
Proof.
  intros Hg. revert a.
  induction l as [|x l IH]; intros a Ha; cbn [fold_left map] in *.
  { cbn. by rewrite Z.add_0_r. }
  change (Spec.sumZ (?y :: ?k)) with (y + Spec.sumZ k)%Z in *.
  assert (0 <= Spec.sumZ (map (fun x => Z.abs (f x)) l))%Z as Hpos.
  { clear. induction l as [|y l IH]; simpl; lia. }
  rewrite Hg by lia. rewrite add_exact by lia.
  rewrite IH by lia. do 2 f_equal. lia.
Qed.

End Integers.

Section Percentage.
Import Number.
Local Open Scope Q_scope.

Lemma round_nearest_number (p : Q) :
  inject_Z (Js.round p) - (1 # 2) <= p /\ p < inject_Z (Js.round p) + (1 # 2).
Proof.
  unfold Js.round.
  pose proof (Qfloor_le (p + (1 # 2))) as Hlo. pose proof (Qlt_floor (p + (1 # 2))) as Hhi.
  rewrite inject_Z_plus in Hhi. change (inject_Z 1) with 1 in Hhi. lra.
Qed.

Lemma percent_zero (ts tb : Q) : 0 < tb -> ts == 0 -> Amounts.percent ts tb = Finite 0.
Proof.
  intros Hb Hs. unfold Amounts.percent, div.
  destruct (Qeq_bool tb 0) eqn:He; [apply Qeq_bool_iff in He; lra|].
  rewrite (ofQ_zero (ts / tb)) by (rewrite Hs; field; lra).
  reflexivity.
Qed.

(** The percentage that the engine computes lies within the tolerance of
    the exact percentage. *)
Lemma percent_error (ts tb : Q) :
  0 < tb -> pow2 (-1022) <= Qabs (ts / tb) -> Qabs (ts / tb) <= pow2 1000 ->
  exists p, Amounts.percent ts tb = Finite p
            /\ Qabs (p - 100 * (ts / tb)) <= Amounts.tolerance (100 * (ts / tb)).
Proof.
  intros Hb Hlo Hhi. unfold Amounts.percent, Amounts.tolerance, div.
  destruct (Qeq_bool tb 0) eqn:He; [apply Qeq_bool_iff in He; lra|].
  set (x := ts / tb) in *.
  pose proof (pow2_pos (-1022)) as H1022. pose proof (pow2_pos 1000) as H1000.
  pose proof (pow2_pos (-53)) as Hu.
  assert (pow2 (-53) <= 1 # 2) as Hu1 by (by compute).
  assert (200 * pow2 1000 <= pow2 1023) as Hbig by (by compute).
  assert (pow2 (-51) == 4 * pow2 (-53)) as H51 by reflexivity.
  destruct (ofQ_error x) as (q & -> & Hq); [done|lra|].
  cbn [mul].
  pose proof (Qabs_triangle_reverse x (x - q)) as Hrev.
  setoid_replace (x - (x - q)) with q using relation Qeq in Hrev by ring.
  rewrite (Qabs_Qminus x q) in Hrev.
  pose proof (Qabs_triangle (q - x) x) as Htri.
  setoid_replace (q - x + x) with q using relation Qeq in Htri by ring.
  pose proof (Qabs_nonneg x) as Hx0.
  set (a := Qabs x) in *. set (aq := Qabs q) in *. set (dq := Qabs (q - x)) in *.
  set (u := pow2 (-53)) in *.
  assert (a * u <= a * (1 # 2)) as Hau by nra.
  assert (Qabs (q * 100) == aq * 100) as Hq100 by (by rewrite Qabs_Qmult).
  destruct (ofQ_error (q * 100)) as (p & -> & Hp).
  { rewrite Hq100. lra. }
  { rewrite Hq100. lra. }
  exists p. split; [done|].
  rewrite Hq100 in Hp. fold u in Hp.
  setoid_replace (p - 100 * x) with ((p - q * 100) + 100 * (q - x)) using relation Qeq by ring.
  eapply Qle_trans; [apply Qabs_triangle|].
  rewrite (Qabs_Qmult 100 (q - x)), (Qabs_Qmult 100 x).
  change (Qabs 100) with 100. fold a dq.
  assert (aq * 100 * u <= (a + a * u) * 100 * u) as H1 by nra.
  assert (a * u * u <= a * u) as H2 by nra.
  rewrite H51. fold u. nra.
Qed.

(** Totals that are integers of [2^53] at most keep the quotient in the
    normal range. *)
Lemma quotient_range (ts tb : Z) :
  (0 < tb <= Amounts.exact)%Z -> (Z.abs ts <= Amounts.exact)%Z -> ts <> 0%Z ->
  pow2 (-1022) <= Qabs (inject_Z ts / inject_Z tb)
  /\ Qabs (inject_Z ts / inject_Z tb) <= pow2 1000.
Proof.
  intros Hb Hs Hs0.
  assert (Qabs (inject_Z ts / inject_Z tb) == inject_Z (Z.abs ts) / inject_Z tb) as ->.
  { unfold Qdiv. rewrite Qabs_Qmult, Qabs_Qinv.
    change (Qabs (inject_Z ts)) with (inject_Z (Z.abs ts)).
    change (Qabs (inject_Z tb)) with (inject_Z (Z.abs tb)).
    by rewrite (Z.abs_eq tb) by lia. }
  assert (1 <= inject_Z (Z.abs ts)) as H1 by (rewrite <- (Zle_Qle 1); lia).
  assert (inject_Z (Z.abs ts) <= inject_Z Amounts.exact) as H2 by (by rewrite <- Zle_Qle).
  assert (1 <= inject_Z tb) as H3 by (rewrite <- (Zle_Qle 1); lia).
  assert (inject_Z tb <= inject_Z Amounts.exact) as H4 by (rewrite <- Zle_Qle; lia).
  assert (pow2 (-1022) * inject_Z Amounts.exact <= 1) as H5 by (by compute).
  assert (inject_Z Amounts.exact <= pow2 1000) as H6 by (by compute).
  pose proof (pow2_pos (-1022)) as H7.
  set (S := inject_Z (Z.abs ts)) in *. set (B := inject_Z tb) in *.
  set (E := inject_Z Amounts.exact) in *.
  split.
  - apply Qle_shift_div_l; [lra|]. nra.
  - apply Qle_shift_div_r; [lra|]. nra.
Qed.

(** Below [2^51 / 200] of total spending the two roundings cannot carry the
    percentage across a tie: the rounded percentage is an integer nearest to
    the exact one. *)
Lemma rounded_percent_nearest (ts tb : Z) (p : Q) :
  (0 < tb)%Z -> (Z.abs ts <= Amounts.tieSafe)%Z ->
  Qabs (p - 100 * (inject_Z ts / inject_Z tb))
  <= Amounts.tolerance (100 * (inject_Z ts / inject_Z tb)) ->
  Amounts.nearest (Js.round p) (100 * (inject_Z ts / inject_Z tb)).
Proof.
  intros Hb Hs Hp. unfold Amounts.nearest, Amounts.tolerance in *.
  destruct (round_nearest_number p) as [Hlo Hhi].
  set (b := Js.round p) in *.
  assert (0 < inject_Z tb) as HB by (by rewrite <- (Zlt_Qlt 0)).
  assert (inject_Z (Z.abs ts) <= inject_Z Amounts.tieSafe) as HS by (by rewrite <- Zle_Qle).
  assert (200 * inject_Z Amounts.tieSafe * pow2 (-51) < 1) as Hsafe by (by compute).
  pose proof (pow2_pos (-51)) as Hu.
  assert (Qabs (100 * (inject_Z ts / inject_Z tb))
          == 100 * inject_Z (Z.abs ts) / inject_Z tb) as Habs.
  { unfold Qdiv. rewrite !Qabs_Qmult, Qabs_Qinv.
    change (Qabs 100) with 100.
    change (Qabs (inject_Z ts)) with (inject_Z (Z.abs ts)).
    change (Qabs (inject_Z tb)) with (inject_Z (Z.abs tb)).
    rewrite (Z.abs_eq tb) by lia. ring. }
  rewrite Habs in Hp. apply Qabs_Qle_condition in Hp as [Hp1 Hp2].
  set (x := 100 * (inject_Z ts / inject_Z tb)) in *.
  assert (x * inject_Z tb == 100 * inject_Z ts) as Hx by (subst x; field; lra).
  (* the slack, times the total budget, is one half at most *)
  assert (100 * inject_Z (Z.abs ts) / inject_Z tb * pow2 (-51) * inject_Z tb < 1 # 2) as Hd.
  { setoid_replace (100 * inject_Z (Z.abs ts) / inject_Z tb * pow2 (-51) * inject_Z tb)
      with (100 * inject_Z (Z.abs ts) * pow2 (-51)) using relation Qeq by (field; lra).
    nra. }
  set (d := 100 * inject_Z (Z.abs ts) / inject_Z tb * pow2 (-51)) in *.
  apply Qabs_Qle_condition. split.
  - (* x <= b + 1/2 *)
    destruct (Qlt_le_dec (inject_Z b + (1 # 2)) x) as [Hgt|Hle]; [exfalso|lra].
    assert ((2 * b + 1) * tb + 1 <= 200 * ts)%Z as Hint.
    { assert ((2 * b + 1) * tb < 200 * ts)%Z; [|lia].
      rewrite Zlt_Qlt. rewrite !inject_Z_mult, !inject_Z_plus, !inject_Z_mult.
      change (inject_Z 2) with 2. change (inject_Z 1) with 1. change (inject_Z 200) with 200.
      nra. }
    rewrite Zle_Qle in Hint.
    rewrite !inject_Z_plus, !inject_Z_mult, !inject_Z_plus, !inject_Z_mult in Hint.
    change (inject_Z 2) with 2 in Hint. change (inject_Z 1) with 1 in Hint.
    change (inject_Z 200) with 200 in Hint.
    nra.
  - destruct (Qlt_le_dec x (inject_Z b - (1 # 2))) as [Hlt|Hge]; [exfalso|lra].
    assert (200 * ts + 1 <= (2 * b + -1) * tb)%Z as Hint.
    { assert (200 * ts < (2 * b + -1) * tb)%Z; [|lia].
      rewrite Zlt_Qlt. rewrite !inject_Z_mult, inject_Z_plus, !inject_Z_mult.
      change (inject_Z 2) with 2. change (inject_Z (-1)) with (-1).
      change (inject_Z 200) with 200.
      nra. }
    rewrite Zle_Qle in Hint.
    rewrite !inject_Z_plus, !inject_Z_mult, inject_Z_plus, !inject_Z_mult in Hint.
    change (inject_Z 2) with 2 in Hint. change (inject_Z 1) with 1 in Hint.
    change (inject_Z (-1)) with (-1) in Hint.
    change (inject_Z 200) with 200 in Hint.
    nra.
Qed.

(** Away from a tie the nearest integer is the one [Math.round] gives for
    the exact percentage. *)
Lemma nearest_unique (ts tb b : Z) :
  (0 < tb)%Z ->
  Amounts.nearest b (100 * (inject_Z ts / inject_Z tb)) ->
  (forall k, 200 * ts <> (2 * k + 1) * tb)%Z ->
  b = Js.round (100 * (inject_Z ts / inject_Z tb)).
Proof.
  intros Hb Hn Hk. unfold Amounts.nearest in Hn.
  apply Qabs_Qle_condition in Hn as [Hn1 Hn2].
  assert (0 < inject_Z tb) as HB by (by rewrite <- (Zlt_Qlt 0)).
  set (x := 100 * (inject_Z ts / inject_Z tb)) in *.
  assert (x * inject_Z tb == 100 * inject_Z ts) as Hx by (subst x; field; lra).
  destruct (round_nearest_number x) as [Hr1 Hr2].
  set (r := Js.round x) in *.
  assert (b <= r)%Z as H1.
  { assert (b < r + 1)%Z; [|lia]. rewrite Zlt_Qlt, inject_Z_plus.
    change (inject_Z 1) with 1. lra. }
  assert (r <= b + 1)%Z as H2.
  { rewrite Zle_Qle, inject_Z_plus. change (inject_Z 1) with 1. lra. }
  destruct (decide (b = r)) as [|Hne]; [done|exfalso].
  assert (r = b + 1)%Z as Hr by lia.
  apply (Hk b). apply inject_Z_injective.
  rewrite Hr, inject_Z_plus in Hr1. change (inject_Z 1) with 1 in Hr1.
  assert (x == inject_Z b + (1 # 2)) as Hxb by lra.
  rewrite !inject_Z_mult, inject_Z_plus, inject_Z_mult.
  change (inject_Z 200) with 200. change (inject_Z 2) with 2. change (inject_Z 1) with 1.
  rewrite Hxb in Hx. lra.
Qed.

End Percentage.
(** * KPIs *)

Section KPIs.
Import Number.
Local Open Scope Q_scope.

Lemma length_filter_count {A} (f : A -> bool) (l : list A) :
  Z.of_nat (length (List.filter f l)) = Spec.count f l.
Proof.
  induction l as [|x l IH]; simpl; [done|].
  destruct (f x); simpl length; lia.
Qed.

Lemma fold_left_map {A B C} (g : C -> B -> C) (f : A -> B) (l : list A) (c : C) :
  fold_left g (map f l) c = fold_left (fun s x => g s (f x)) l c.
Proof. revert c. induction l as [|x l IH]; intros c; simpl; [done|apply IH]. Qed.

Lemma length_filter_map {A B} (f : A -> B) (P : B -> bool) (l : list A) :
  length (List.filter P (map f l)) = length (List.filter (fun x => P (f x)) l).
Proof.
  induction l as [|x l IH]; simpl; [done|].
  destruct (P (f x)); simpl; by rewrite IH.
Qed.

Lemma sumZ_abs {A} (f : A -> Z) (l : list A) :
  (Z.abs (Spec.sumZ (map f l)) <= Spec.sumZ (map (fun x => Z.abs (f x)) l))%Z.
Proof. induction l as [|x l IH]; simpl; lia. Qed.

(** The totals of integer amounts are their sums. *)
Lemma totals_exact (rows : list Dashboard.Project) :
  Amounts.safe rows ->
  DashboardNum.totalBudget (map DashboardNum.ofProject rows)
  = Finite (inject_Z (Spec.sumZ (map Spec.budgetOf rows)))
  /\ DashboardNum.totalSpent (map DashboardNum.ofProject rows)
     = Finite (inject_Z (Spec.sumZ (map Amounts.spentOf rows))).
Proof.
  intros [Hb Hs]. unfold DashboardNum.totalBudget, DashboardNum.totalSpent.
  rewrite !fold_left_map. split.
  - apply (fold_add_exact Spec.budgetOf
             (fun p => default (Finite 0) (DashboardNum.budget (DashboardNum.ofProject p)))
             rows 0); [|exact Hb].
    intros p Hp. unfold Spec.budgetOf in *. simpl.
    destruct (Dashboard.budget p) as [z|]; simpl in *; [by apply ofZ_exact|done].
  - apply (fold_add_exact Amounts.spentOf
             (fun p => default (Finite 0) (DashboardNum.spent (DashboardNum.ofProject p)))
             rows 0); [|exact Hs].
    intros p Hp. unfold Amounts.spentOf in *. simpl.
    destruct (Dashboard.spent p) as [z|]; simpl in *; [by apply ofZ_exact|done].
Qed.

Lemma totals_exact_page (data : list Pages.Project) :
  Amounts.safePage data ->
  PagesNum.totalBudget (PagesNum.kpis (map PagesNum.ofProject data))
  = Finite (inject_Z (Spec.sumZ (map Pages.budget data)))
  /\ PagesNum.totalSpent (PagesNum.kpis (map PagesNum.ofProject data))
     = Finite (inject_Z (Spec.sumZ (map Pages.spent data))).
Proof.
  intros [Hb Hs]. unfold PagesNum.kpis. cbn [PagesNum.totalBudget PagesNum.totalSpent].
  rewrite !fold_left_map. split.
  - apply (fold_add_exact Pages.budget
             (fun p => PagesNum.budget (PagesNum.ofProject p)) data 0); [|exact Hb].
    intros p Hp. simpl. by apply ofZ_exact.
  - apply (fold_add_exact Pages.spent
             (fun p => PagesNum.spent (PagesNum.ofProject p)) data 0); [|exact Hs].
    intros p Hp. simpl. by apply ofZ_exact.
Qed.

(** The burn rate as a function of the two totals. *)
Lemma burnRate_of_totals (projects : list DashboardNum.Project) (s b : Q) :
  DashboardNum.totalSpent projects = Finite s ->
  DashboardNum.totalBudget projects = Finite b ->
  DashboardNum.burnRate projects
  = if Qle_bool b 0 then Finite 0 else round (Amounts.percent s b).
Proof. intros Hs Hb. unfold DashboardNum.burnRate. by rewrite Hs, Hb. Qed.

Lemma burn_of_totals (items : list PagesNum.Project) (s b : Q) :
  PagesNum.totalSpent (PagesNum.kpis items) = Finite s ->
  PagesNum.totalBudget (PagesNum.kpis items) = Finite b ->
  PagesNum.burn (PagesNum.kpis items)
  = if Qle_bool b 0 then Finite 0 else round (Amounts.percent s b).
Proof.
  unfold PagesNum.kpis. cbn [PagesNum.totalBudget PagesNum.totalSpent PagesNum.burn].
  intros Hs Hb. by rewrite Hs, Hb.
Qed.

(** The rounded percentage of totals in the normal range. *)
Lemma rounded_percent (s b : Q) :
  0 < b -> pow2 (-1022) <= Qabs (s / b) <= pow2 1000 ->
  exists p, Amounts.percent s b = Finite p
    /\ (if Qle_bool b 0 then Finite 0 else round (Amounts.percent s b))
       = Finite (inject_Z (Js.round p))
    /\ Qabs (p - 100 * (s / b)) <= Amounts.tolerance (100 * (s / b))
    /\ Qabs (inject_Z (Js.round p) - 100 * (s / b))
       <= (1 # 2) + Amounts.tolerance (100 * (s / b)).
Proof.
  intros Hb [Hlo Hhi].
  destruct (percent_error s b Hb Hlo Hhi) as (p & Hp & Herr).
  exists p. split; [done|].
  destruct (Qle_bool b 0) eqn:He; [apply Qle_bool_iff in He; lra|].
  split; [by rewrite Hp|]. split; [done|].
  destruct (round_nearest_number p) as [H1 H2].
  apply Qabs_Qle_condition in Herr as [H3 H4].
  apply Qabs_Qle_condition. split; lra.
Qed.

(** The rounded percentage of integer totals. *)
Lemma rounded_percent_int (ts tb : Z) :
  (Z.abs ts <= Amounts.exact)%Z -> (tb <= Amounts.exact)%Z ->
  let r := if Qle_bool (inject_Z tb) 0 then Finite 0
           else round (Amounts.percent (inject_Z ts) (inject_Z tb)) in
  let x := 100 * (inject_Z ts / inject_Z tb) in
  ((tb <= 0)%Z -> r = Finite 0)
  /\ ((0 < tb)%Z ->
      exists b, r = Finite (inject_Z b)
        /\ Qabs (inject_Z b - x) <= (1 # 2) + Amounts.tolerance x
        /\ ((Z.abs ts <= Amounts.tieSafe)%Z ->
            Amounts.nearest b x
            /\ ((forall k, 200 * ts <> (2 * k + 1) * tb)%Z -> b = Js.round x)))
  /\ (tb = 850%Z -> ts = 500%Z -> r = Finite 59).
Proof.
  intros Hs Hb r x. split; [|split].
  - intros Hle. subst r.
    assert (Qle_bool (inject_Z tb) 0 = true) as ->; [|done].
    apply Qle_bool_iff. change 0 with (inject_Z 0). by rewrite <- Zle_Qle.
  - intros Hpos.
    assert (0 < inject_Z tb) as HB by (by rewrite <- (Zlt_Qlt 0)).
    destruct (decide (ts = 0%Z)) as [->|Hs0].
    + exists 0%Z. subst r x.
      destruct (Qle_bool (inject_Z tb) 0) eqn:He; [apply Qle_bool_iff in He; lra|].
      rewrite percent_zero by done.
      assert (100 * (inject_Z 0 / inject_Z tb) == 0) as Hx0 by (field; lra).
      split; [done|]. unfold Amounts.nearest, Amounts.tolerance.
      split; [rewrite Hx0; by compute|]. intros _.
      split; [rewrite Hx0; by compute|]. intros _.
      unfold Js.round. by rewrite Hx0.
    + destruct (rounded_percent (inject_Z ts) (inject_Z tb) HB) as (p & Hp & Hr & Herr & Hb').
      { apply quotient_range; [lia|done|done]. }
      exists (Js.round p). split; [exact Hr|]. split; [exact Hb'|].
      intros Hsafe.
      assert (Amounts.nearest (Js.round p) (100 * (inject_Z ts / inject_Z tb))) as Hnear
        by by apply rounded_percent_nearest.
      split; [exact Hnear|]. intros Hk. by apply nearest_unique.
  - intros -> ->. by vm_compute.
Qed.


(** The two models: on integer amounts that the engine adds up without
    rounding, with a total spending below [2^51 / 200] and away from a tie of
    the percentage, the KPIs that the engine computes are those of the exact
    arithmetic of [Dashboard] and [Pages]. *)
Lemma exact_model_agrees (rows : list Dashboard.Project) (data : list Pages.Project) :
  (Amounts.safe rows ->
   (Z.abs (Dashboard.totalSpent rows) <= Amounts.tieSafe)%Z ->
   (forall k, 200 * Dashboard.totalSpent rows <> (2 * k + 1) * Dashboard.totalBudget rows)%Z ->
   DashboardNum.totalBudget (map DashboardNum.ofProject rows)
   = Finite (inject_Z (Dashboard.totalBudget rows))
   /\ DashboardNum.totalSpent (map DashboardNum.ofProject rows)
      = Finite (inject_Z (Dashboard.totalSpent rows))
   /\ DashboardNum.activeCount (map DashboardNum.ofProject rows)
      = Dashboard.activeCount rows
   /\ DashboardNum.burnRate (map DashboardNum.ofProject rows)
      = Finite (inject_Z (Dashboard.burnRate rows)))
  /\ (Amounts.safePage data ->
      let k := Pages.kpis data in
      (Z.abs (Pages.totalSpent k) <= Amounts.tieSafe)%Z ->
      (forall i, 200 * Pages.totalSpent k <> (2 * i + 1) * Pages.totalBudget k)%Z ->
      PagesNum.kpis (map PagesNum.ofProject data)
      = {| PagesNum.totalBudget := Finite (inject_Z (Pages.totalBudget k));
           PagesNum.totalSpent := Finite (inject_Z (Pages.totalSpent k));
           PagesNum.active := Pages.active k;
           PagesNum.burn := Finite (inject_Z (Pages.burn k)) |}).
Proof.
  assert (forall ts tb : Z,
            (Z.abs ts <= Amounts.exact)%Z -> (tb <= Amounts.exact)%Z ->
            (Z.abs ts <= Amounts.tieSafe)%Z ->
            (forall k, 200 * ts <> (2 * k + 1) * tb)%Z ->
            (if Qle_bool (inject_Z tb) 0 then Finite 0
             else round (Amounts.percent (inject_Z ts) (inject_Z tb)))
            = Finite (inject_Z (if (tb <=? 0)%Z then 0%Z
                                else Js.round (inject_Z ts / inject_Z tb * 100)))) as Hburn.
  { intros ts tb Hs Hb Hsafe Hk.
    destruct (rounded_percent_int ts tb Hs Hb) as (H0 & Hpos & _).
    destruct (Z.leb_spec tb 0) as [Hle|Hgt]; [by apply H0|].
    destruct (Hpos Hgt) as (b & -> & _ & Hb').
    destruct (Hb' Hsafe) as [_ ->]; [|done].
    do 2 f_equal. unfold Js.round. apply Qfloor_comp. ring. }
  split.
  - intros Hsafe Hts Hk.
    destruct (totals_exact rows Hsafe) as [Hb Hs].
    rewrite <- totalBudget_sum in Hb. fold Spec.budgetOf in Hb.
    assert (Spec.sumZ (map Amounts.spentOf rows) = Dashboard.totalSpent rows) as Hs'
      by (symmetry; apply totalSpent_sum).
    rewrite Hs' in Hs.
    split; [|split; [done|split]].
    + exact Hb.
    + unfold DashboardNum.activeCount, Dashboard.activeCount.
      by rewrite length_filter_map.
    + rewrite (burnRate_of_totals _ _ _ Hs Hb). unfold Dashboard.burnRate.
      destruct Hsafe as [Hsb Hss]. apply Hburn; [| |done|done].
      * rewrite totalSpent_sum. etrans; [apply sumZ_abs|exact Hss].
      * rewrite totalBudget_sum. pose proof (sumZ_abs Spec.budgetOf rows).
        unfold Spec.budgetOf in *. lia.
  - intros Hsafe k Hts Hk.
    destruct (totals_exact_page data Hsafe) as [Hb Hs].
    assert (Pages.totalBudget k = Spec.sumZ (map Pages.budget data)) as Eb
      by (subst k; unfold Pages.kpis; cbn [Pages.totalBudget]; by rewrite fold_left_sum).
    assert (Pages.totalSpent k = Spec.sumZ (map Pages.spent data)) as Es
      by (subst k; unfold Pages.kpis; cbn [Pages.totalSpent]; by rewrite fold_left_sum).
    rewrite <- Eb in Hb. rewrite <- Es in Hs.
    pose proof (burn_of_totals _ _ _ Hs Hb) as Hr.
    assert (PagesNum.active (PagesNum.kpis (map PagesNum.ofProject data)) = Pages.active k) as Ha.
    { subst k. unfold PagesNum.kpis, Pages.kpis. cbn [PagesNum.active Pages.active].
      by rewrite length_filter_map. }
    rewrite Hburn in Hr; [| | |done|done].
    + destruct (PagesNum.kpis (map PagesNum.ofProject data)) as [b t a r].
      simpl in *. subst. f_equal.
    + rewrite Es. destruct Hsafe as [_ Hss]. etrans; [apply sumZ_abs|exact Hss].
    + rewrite Eb. destruct Hsafe as [Hsb _]. pose proof (sumZ_abs Pages.budget data). lia.
Qed.

End KPIs.

Section KPIExamples.
Import Samples NumSamples RefHost.
Local Open Scope Q_scope.

Ltac by_computation :=
  repeat match goal with |- _ /\ _ => split end; by vm_compute.

(** Seven records, four active, budgets 850 and spending 500. *)
Example kpis_of_seven :
  Dashboard.totalBudget seven = 850%Z
  /\ Dashboard.totalSpent seven = 500%Z
  /\ Dashboard.activeCount seven = 4%Z
  /\ Dashboard.burnRate seven = 59%Z
  /\ Dashboard.calculateKPIs seven
     = [ {| Dashboard.label := "Total Budget"; Dashboard.kvalue := inl "EUR 850"%string |};
         {| Dashboard.label := "Total Spent"; Dashboard.kvalue := inl "EUR 500"%string |};
         {| Dashboard.label := "Active Projects"; Dashboard.kvalue := inr 4%Z |};
         {| Dashboard.label := "Burn Rate"; Dashboard.kvalue := inl "59%"%string |} ]
  /\ Pages.kpis sevenPages
     = {| Pages.totalBudget := 850; Pages.totalSpent := 500; Pages.active := 4;
          Pages.burn := 59 |}
  /\ DashboardNum.calculateKPIs (map DashboardNum.ofProject seven)
     = [ ("Total Budget"%string, Number.Finite 850);
         ("Total Spent"%string, Number.Finite 500);
         ("Active Projects"%string, Number.Finite 4);
         ("Burn Rate"%string, Number.Finite 59) ]
  /\ PagesNum.kpis (map PagesNum.ofProject sevenPages)
     = {| PagesNum.totalBudget := Number.Finite 850;
          PagesNum.totalSpent := Number.Finite 500;
          PagesNum.active := 4; PagesNum.burn := Number.Finite 59 |}.
Proof. by_computation. Qed.

(** [Number] against the binary64 operations of the Standard Library:
    the percentage, the amounts with cents and their sums agree for all
    totals up to 20, and at the totals of the examples below. *)
Example number_agrees_with_binary64 :
  Ieee.agreeUpTo 20 = true
  /\ Ieee.agree 23 40 = true
  /\ Ieee.agree 500 850 = true
  /\ Ieee.agree 135107988821113 9007199254740867 = true
  /\ Ieee.agree 10002 20017 = true
  /\ Ieee.agree 30019 69981 = true.
Proof. by_computation. Qed.



End KPIExamples.

(** * Top budgets *)

Section TopBudgets.
Context `{Host}.



Lemma StronglySorted_impl {A} (R R' : A -> A -> Prop) (l : list A) :
  (forall a b, R a b -> R' a b) -> StronglySorted R l -> StronglySorted R' l.
Proof.
  intros HR. induction 1 as [|x l _ IH Hx]; constructor; [done|].
  eapply Forall_impl; [exact Hx|]. intros y. apply HR.
Qed.


Lemma slice_all {A} (l : list A) : Js.slice l 0 (Z.of_nat (length l)) = l.
Proof.
  rewrite slice_window by lia. rewrite Z.sub_0_r, Nat2Z.id. simpl. apply firstn_all.
Qed.




End TopBudgets.

Section TopBudgetExamples.
Import Samples RefHost.

Example top_of_seven :
  map Dashboard.bar_budget (Dashboard.topBudget seven) = [300; 200; 125; 100; 75; 50].
Proof. reflexivity. Qed.



End TopBudgetExamples.

(** * The filter stage *)

Section FilterStage.

Lemma filter_sublist {A} (f : A -> bool) (l : list A) : sublist (List.filter f l) l.
Proof.
  induction l as [|x l IH]; simpl; [constructor|].
  destruct (f x); by constructor.
Qed.

Lemma matchesStatus_spec (sf : StatusFilter) (p : Dashboard.Project) :
  Dashboard.matchesStatus sf p = true
  <-> sf = ALL \/ exists s, sf = Only s /\ Dashboard.status p = Some s.
Proof.
  destruct sf as [|s]; simpl.
  - split; [by left|done].
  - rewrite bool_decide_eq_true. split.
    + intros Hs. right. by exists s.
    + intros [?|(s' & [= <-] & Hs)]; done.
Qed.

Lemma keeps_spec (q : string) (sf : StatusFilter) (p : Dashboard.Project) :
  Dashboard.keeps q sf p = true
  <-> (q = EmptyString \/ Spec.substring q (Dashboard.hay p))
      /\ (sf = ALL \/ exists s, sf = Only s /\ Dashboard.status p = Some s).
Proof.
  unfold Dashboard.keeps. rewrite <- matchesStatus_spec, <- includes_spec.
  destruct q as [|c q]; simpl.
  - split; [intros Hs; split; [by left|done]|by intros [_ Hs]].
  - rewrite andb_true_iff. split.
    + intros [Hs Hi]. split; [by right|done].
    + intros [[?|Hi] Hs]; done.
Qed.

Lemma hay_fields (p : Dashboard.Project) :
  Dashboard.hay p
  = Js.join " " (map (fun s => Js.trim (Js.toLowerCase s)) (Spec.fieldsOf p)).
Proof.
  unfold Dashboard.hay, Spec.fieldsOf, Dashboard.normalize. simpl.
  by destruct (Dashboard.name p), (Dashboard.owner p), (Dashboard.status p),
    (Dashboard.budget p), (Dashboard.spent p), (Dashboard.createdAt p).
Qed.

Lemma pages_keeps_spec (qq : string) (sf : StatusFilter) (p : Pages.Project) :
  Pages.keeps qq sf p = true
  <-> (qq = EmptyString
       \/ Spec.substring qq (Js.toLowerCase (Pages.name p))
       \/ Spec.substring qq (Js.toLowerCase (Pages.owner p))
       \/ Spec.substring qq (Js.numToString (Pages.id p)))
      /\ (sf = ALL \/ sf = Only (Pages.status p)).
Proof.
  unfold Pages.keeps. cbv zeta.
  rewrite andb_true_iff, !orb_true_iff, !includes_spec, isEmpty_spec.
  assert ((match sf with ALL => true | Only s => bool_decide (Pages.status p = s) end) = true
          <-> sf = ALL \/ sf = Only (Pages.status p)) as ->.
  { destruct sf as [|s]; [split; [by left|done]|].
    rewrite bool_decide_eq_true. split; [intros ->; by right|].
    by intros [?|[= ->]]. }
  tauto.
Qed.

(** C4, amended: both filter stages keep the records that pass a text test
    and a status test, in their original order, and the status test is that
    the filter is ALL or is the status of the record.  In the component of
    api/kpis.ts the text test is that the query, folded to lower case and
    trimmed, is empty or occurs in the seven fields (name, owner, id, status
    label, budget, spending, creation date), each folded to lower case and
    trimmed, then joined by single spaces.  In pages/DashboardPage.tsx the
    text test is that the query, trimmed and folded, is empty or occurs in
    the folded name, in the folded owner, or in the id. *)
Theorem filter_stage_spec (projects : list Dashboard.Project) (data : list Pages.Project)
    (query : string) (sf : StatusFilter) :
  let q := Js.trim (Js.toLowerCase query) in
  let qq := Js.toLowerCase (Js.trim query) in
  Dashboard.filterStage projects query sf = List.filter (Dashboard.keeps q sf) projects
  /\ (forall p, Dashboard.keeps q sf p = true
        <-> (q = EmptyString \/ Spec.substring q (Dashboard.hay p))
            /\ (sf = ALL \/ exists s, sf = Only s /\ Dashboard.status p = Some s))
  /\ (forall p, Dashboard.hay p
        = Js.join " " (map (fun s => Js.trim (Js.toLowerCase s)) (Spec.fieldsOf p)))
  /\ sublist (Dashboard.filterStage projects query sf) projects
  /\ Pages.filterStage data query sf = List.filter (Pages.keeps qq sf) data
  /\ (forall p, Pages.keeps qq sf p = true
        <-> (qq = EmptyString
             \/ Spec.substring qq (Js.toLowerCase (Pages.name p))
             \/ Spec.substring qq (Js.toLowerCase (Pages.owner p))
             \/ Spec.substring qq (Js.numToString (Pages.id p)))
            /\ (sf = ALL \/ sf = Only (Pages.status p)))
  /\ sublist (Pages.filterStage data query sf) data.
Proof.
  intros q qq. split; [done|]. split; [apply keeps_spec|]. split; [apply hay_fields|].
  split; [apply filter_sublist|]. split; [done|]. split; [apply pages_keeps_spec|].
  apply filter_sublist.
Qed.

End FilterStage.

Section FilterExamples.
Import Samples.

Example filter_seven :
  map Dashboard.id (Dashboard.filterStage seven "  AN " ALL) = [1; 2; 4; 5]
  /\ map Dashboard.id (Dashboard.filterStage seven "done" ALL) = [4; 6]
  /\ map Dashboard.id (Dashboard.filterStage seven EmptyString (Only ACTIVE)) = [1; 2; 5; 7]
  /\ Dashboard.filterStage seven "ali" ALL = []
  /\ map Pages.id (Pages.filterStage sevenPages "  AN " ALL) = [1; 2; 4; 5]
  /\ Pages.filterStage sevenPages "done" ALL = [].
Proof. repeat split; reflexivity. Qed.

(** C4, counterexample: the query "active" occurs in the concatenation of
    the seven fields of the first sample record, through its status label,
    yet pages/DashboardPage.tsx drops the record; and the query "a b" does
    not occur in the concatenation of the fields of a record named "a "
    with owner "b", yet the component of api/kpis.ts keeps it. *)
Lemma search_fields_differ :
  Spec.matchesText "active" (Spec.fieldsOfPage (pageProject 1 "Website" "Ana" ACTIVE 100 50 "2026-01-05"))
  /\ Pages.filterStage [pageProject 1 "Website" "Ana" ACTIVE 100 50 "2026-01-05"] "active" ALL = []
  /\ ~ Spec.matchesText "a b" (Spec.fieldsOf padded)
  /\ Dashboard.filterStage [padded] "a b" ALL = [padded].
Proof.
  split; [|split; [reflexivity|split; [|reflexivity]]].
  - right. apply includes_spec. reflexivity.
  - intros [Hq|Hs]; [discriminate|]. apply includes_spec in Hs. discriminate.
Qed.

Lemma filter_stage_spec_witness :
  Spec.substring "web" (Dashboard.hay (project 1 "Website" "Ana" ACTIVE 100 50 "2026-01-05"))
  /\ Dashboard.keeps "web" ALL (project 1 "Website" "Ana" ACTIVE 100 50 "2026-01-05") = true.
Proof.
  assert (Spec.substring "web"
            (Dashboard.hay (project 1 "Website" "Ana" ACTIVE 100 50 "2026-01-05"))) as Hs
    by (apply includes_spec; reflexivity).
  split; [exact Hs|].
  apply (proj1 (proj2 (filter_stage_spec seven sevenPages " Web " ALL))).
  split; [right; exact Hs|by left].
Defined.

End FilterExamples.

(** * Arrays are not written through a shared reference *)

Section HeapFacts.
Context {A : Type}.
Implicit Types h : gmap Heap.ref (list A).
Implicit Types l : list A.

Lemma fresh_lookup h : h !! fresh (dom h) = None.
Proof. apply not_elem_of_dom, is_fresh. Qed.

Lemma filterA_run (f : A -> bool) (r : Heap.ref) l h :
  h !! r = Some l ->
  Heap.filterA f r h = Some (fresh (dom h), <[fresh (dom h) := List.filter f l]> h).
Proof. intros Hr. unfold Heap.filterA, Heap.bind, Heap.read, Heap.alloc. by rewrite Hr. Qed.

Lemma sliceA_run (r : Heap.ref) (start end_ : Z) l h :
  h !! r = Some l ->
  Heap.sliceA r start end_ h
  = Some (fresh (dom h), <[fresh (dom h) := Js.slice l start end_]> h).
Proof. intros Hr. unfold Heap.sliceA, Heap.bind, Heap.read, Heap.alloc. by rewrite Hr. Qed.

Lemma copyA_run (r : Heap.ref) l h :
  h !! r = Some l ->
  Heap.copyA r h = Some (fresh (dom h), <[fresh (dom h) := l]> h).
Proof. intros Hr. unfold Heap.copyA, Heap.bind, Heap.read, Heap.alloc. by rewrite Hr. Qed.

Lemma sortA_run (cmp : A -> A -> Z) (r : Heap.ref) l h :
  h !! r = Some l ->
  Heap.sortA cmp r h = Some (r, <[r := Js.sort cmp l]> h).
Proof.
  intros Hr. unfold Heap.sortA, Heap.bind, Heap.read, Heap.write, Heap.ret.
  rewrite Hr. simpl. by rewrite Hr.
Qed.

Lemma mapA_run {B} (f : A -> B) (r : Heap.ref) l h :
  h !! r = Some l -> Heap.mapA f r h = Some (map f l, h).
Proof. intros Hr. unfold Heap.mapA, Heap.bind, Heap.read, Heap.ret. by rewrite Hr. Qed.

Lemma read_run (r : Heap.ref) l h : h !! r = Some l -> Heap.read r h = Some (l, h).
Proof. intros Hr. unfold Heap.read. by rewrite Hr. Qed.

(** Allocating leaves every array that exists as it is. *)
Lemma alloc_keeps h l (r : Heap.ref) l0 :
  h !! r = Some l0 -> <[fresh (dom h) := l]> h !! r = Some l0.
Proof.
  intros Hr. rewrite lookup_insert_ne; [done|].
  intros <-. by rewrite fresh_lookup in Hr.
Qed.

(** Copy, sort the copy, take the first six, map: the source array and all
    the others are as before. *)
Lemma ranking_run {B} (cmp : A -> A -> Z) (f : A -> B) (r : Heap.ref) l h :
  h !! r = Some l ->
  exists h',
    Heap.bind (Heap.copyA r) (fun copy =>
      Heap.bind (Heap.sortA cmp copy) (fun sorted =>
        Heap.bind (Heap.sliceA sorted 0 6) (fun top => Heap.mapA f top))) h
    = Some (map f (Js.slice (Js.sort cmp l) 0 6), h')
    /\ (forall r0 l0, h !! r0 = Some l0 -> h' !! r0 = Some l0).
Proof.
  intros Hr. unfold Heap.bind at 1. rewrite (copyA_run r l h Hr).
  set (c := fresh (dom h)).
  unfold Heap.bind at 1. rewrite (sortA_run cmp c l) by apply lookup_insert_eq.
  rewrite insert_insert_eq. set (h1 := <[c := Js.sort cmp l]> h).
  unfold Heap.bind at 1. rewrite (sliceA_run c 0 6 (Js.sort cmp l) h1) by apply lookup_insert_eq.
  set (t := fresh (dom h1)).
  rewrite (mapA_run f t (Js.slice (Js.sort cmp l) 0 6)) by apply lookup_insert_eq.
  eexists. split; [done|].
  intros r0 l0 Hr0. apply alloc_keeps. by apply alloc_keeps.
Qed.

End HeapFacts.

Section Frame.
Context `{Host}.

Lemma filteredProjects_run (h : gmap Heap.ref (list Dashboard.Project))
    (projects : Heap.ref) (items : list Dashboard.Project) (query : string)
    (sf : StatusFilter) (k : Dashboard.SortKey) (d : SortDir) :
  h !! projects = Some items ->
  DashboardRefs.filteredProjects projects query sf k d h
  = Some (fresh (dom h),
          <[fresh (dom h) := Dashboard.filteredProjects items query sf k d]> h).
Proof.
  intros Hp. unfold DashboardRefs.filteredProjects. cbv zeta.
  unfold Heap.bind at 1. rewrite (filterA_run _ projects items h Hp).
  unfold Heap.bind at 1. erewrite sortA_run by apply lookup_insert_eq.
  by rewrite insert_insert_eq.
Qed.

Lemma topBudget_run (h : gmap Heap.ref (list Dashboard.Project)) (fp : Heap.ref)
    (l : list Dashboard.Project) :
  h !! fp = Some l ->
  exists h', DashboardRefs.topBudget fp h = Some (Dashboard.topBudget l, h')
             /\ (forall r0 l0, h !! r0 = Some l0 -> h' !! r0 = Some l0).
Proof. apply ranking_run. Qed.

Lemma budgetBars_run (h : gmap Heap.ref (list Pages.Project)) (fs : Heap.ref)
    (l : list Pages.Project) :
  h !! fs = Some l ->
  exists h', PagesRefs.budgetBars fs h = Some (Pages.budgetBars l, h')
             /\ (forall r0 l0, h !! r0 = Some l0 -> h' !! r0 = Some l0).
Proof.
  intros Hl. unfold Pages.budgetBars. rewrite slice_all. by apply ranking_run.
Qed.

Lemma filteredSorted_run (h : gmap Heap.ref (list Pages.Project)) (data : Heap.ref)
    (items : list Pages.Project) (q : string) (sf : StatusFilter)
    (k : Pages.SortKey) (d : SortDir) :
  h !! data = Some items ->
  exists fs h', PagesRefs.filteredSorted data q sf k d h = Some (fs, h')
    /\ h !! fs = None
    /\ h' !! fs = Some (Pages.filteredSorted items q sf k d)
    /\ (forall r0 l0, h !! r0 = Some l0 -> h' !! r0 = Some l0).
Proof.
  intros Hd. unfold PagesRefs.filteredSorted.
  unfold Heap.bind at 1. rewrite (copyA_run data items h Hd).
  set (c := fresh (dom h)). set (h1 := <[c := items]> h). cbv zeta.
  unfold Heap.bind at 1. erewrite (filterA_run _ c items h1) by apply lookup_insert_eq.
  set (f := fresh (dom h1)).
  unfold Heap.bind at 1. erewrite sortA_run by apply lookup_insert_eq.
  rewrite insert_insert_eq. unfold Heap.ret.
  exists f, (<[f := Pages.filteredSorted items q sf k d]> h1).
  split; [done|]. split; [|split; [apply lookup_insert_eq|]].
  - destruct (h !! f) as [l0|] eqn:Hf; [|done].
    pose proof (fresh_lookup h1) as Hn. fold f in Hn. subst h1.
    rewrite lookup_insert_ne in Hn; [congruence|].
    intros Heq. pose proof (fresh_lookup h) as Hc. fold c in Hc. congruence.
  - intros r0 l0 Hr0. apply alloc_keeps. by apply alloc_keeps.
Qed.

(** C10: a render of the component of api/kpis.ts, run on a store in which
    [projects] refers to the record collection, returns what the pure
    pipeline returns, allocates the filtered and sorted array as a new array,
    and ends in a store where that array still holds the filtered and sorted
    collection and every array that existed before, the record collection
    included, holds what it held.  The same goes for the filtered and sorted
    array of pages/DashboardPage.tsx and for its Top budgets aggregation. *)
Theorem pipeline_leaves_arrays_unchanged
    (h : gmap Heap.ref (list Dashboard.Project)) (projects : Heap.ref)
    (items : list Dashboard.Project) (st : Dashboard.State)
    (h0 : gmap Heap.ref (list Pages.Project)) (data : Heap.ref)
    (items0 : list Pages.Project) (q : string) (sf : StatusFilter)
    (k : Pages.SortKey) (d : SortDir) :
  h !! projects = Some items ->
  h0 !! data = Some items0 ->
  (exists fp h',
     DashboardRefs.render projects st h = Some ((Dashboard.render items st, fp), h')
     /\ h !! fp = None
     /\ h' !! fp = Some (Dashboard.shown items st)
     /\ h' !! projects = Some items
     /\ (forall r0 l0, h !! r0 = Some l0 -> h' !! r0 = Some l0))
  /\ (exists fs h1,
        PagesRefs.filteredSorted data q sf k d h0 = Some (fs, h1)
        /\ h0 !! fs = None
        /\ h1 !! fs = Some (Pages.filteredSorted items0 q sf k d)
        /\ h1 !! data = Some items0
        /\ (forall r0 l0, h0 !! r0 = Some l0 -> h1 !! r0 = Some l0)
        /\ exists h2,
             PagesRefs.budgetBars fs h1
             = Some (Pages.budgetBars (Pages.filteredSorted items0 q sf k d), h2)
             /\ h2 !! fs = Some (Pages.filteredSorted items0 q sf k d)
             /\ h2 !! data = Some items0
             /\ (forall r0 l0, h1 !! r0 = Some l0 -> h2 !! r0 = Some l0)).
Proof.
  intros Hp Hd. split.
  - unfold DashboardRefs.render.
    unfold Heap.bind at 1. rewrite (filteredProjects_run h projects items _ _ _ _ Hp).
    fold (Dashboard.shown items st).
    set (fp := fresh (dom h)). set (h1 := <[fp := Dashboard.shown items st]> h).
    assert (h1 !! fp = Some (Dashboard.shown items st)) as Hfp by apply lookup_insert_eq.
    unfold Heap.bind at 1. rewrite (read_run fp _ h1 Hfp). cbv zeta.
    unfold Heap.bind at 1. unfold DashboardRefs.pagedProjects. cbv zeta.
    rewrite (sliceA_run fp _ _ _ h1 Hfp).
    set (pg := fresh (dom h1)). set (h2 := <[pg := _]> h1).
    unfold Heap.bind at 1. erewrite (read_run pg _ h2) by apply lookup_insert_eq.
    assert (h2 !! fp = Some (Dashboard.shown items st)) as Hfp2 by by apply alloc_keeps.
    destruct (topBudget_run h2 fp _ Hfp2) as (h3 & Htop & Hkeep).
    unfold Heap.bind at 1. rewrite Htop.
    unfold Heap.bind at 1. rewrite (read_run fp _ h3 (Hkeep _ _ Hfp2)).
    exists fp, h3. split; [done|]. split; [apply fresh_lookup|].
    split; [by apply Hkeep|].
    assert (forall r0 l0, h !! r0 = Some l0 -> h3 !! r0 = Some l0) as Hall.
    { intros r0 l0 Hr0. apply Hkeep. apply alloc_keeps. by apply alloc_keeps. }
    split; [by apply Hall|done].
  - destruct (filteredSorted_run h0 data items0 q sf k d Hd) as (fs & h1 & Hrun & Hnew & Hfs & Hkeep).
    exists fs, h1. split; [done|]. split; [done|]. split; [done|].
    split; [by apply Hkeep|]. split; [done|].
    destruct (budgetBars_run h1 fs _ Hfs) as (h2 & Hbars & Hkeep2).
    exists h2. split; [done|]. split; [by apply Hkeep2|].
    split; [by apply Hkeep2, Hkeep|done].
Qed.

End Frame.

Section FrameExamples.
Import Samples RefHost.

(** Sorting through a reference writes the array it refers to: had the
    component sorted [projects] itself, the record collection would have
    changed. *)
Example sort_writes_in_place :
  Heap.sortA (Dashboard.sortCmp Dashboard.KBudget desc) 0%nat {[ 0%nat := withTies ]}
  = Some (0%nat, {[ 0%nat := Dashboard.sortStage Dashboard.KBudget desc withTies ]})
  /\ Dashboard.sortStage Dashboard.KBudget desc withTies <> withTies.
Proof.
  split; [|discriminate].
  erewrite sortA_run by apply lookup_singleton_eq. by rewrite insert_singleton_eq.
Qed.

Lemma pipeline_leaves_arrays_unchanged_witness :
  ({[ 0%nat := seven ]} : gmap Heap.ref (list Dashboard.Project)) !! 0%nat = Some seven
  /\ ({[ 0%nat := sevenPages ]} : gmap Heap.ref (list Pages.Project)) !! 0%nat = Some sevenPages
  /\ exists fp h',
       DashboardRefs.render 0%nat onPage2 {[ 0%nat := seven ]}
       = Some ((Dashboard.render seven onPage2, fp), h')
       /\ h' !! 0%nat = Some seven.
Proof.
  assert (({[ 0%nat := seven ]} : gmap Heap.ref (list Dashboard.Project)) !! 0%nat = Some seven)
    as H1 by apply lookup_singleton_eq.
  assert (({[ 0%nat := sevenPages ]} : gmap Heap.ref (list Pages.Project)) !! 0%nat
          = Some sevenPages) as H2 by apply lookup_singleton_eq.
  split; [exact H1|]. split; [exact H2|].
  destruct (pipeline_leaves_arrays_unchanged _ 0%nat seven onPage2 _ 0%nat sevenPages
              EmptyString ALL Pages.KBudget asc H1 H2)
    as [(fp & h' & Hrun & _ & _ & Hsame & _) _].
  exists fp, h'. split; [exact Hrun|exact Hsame].
Defined.

End FrameExamples.

(** * Further properties: pagination *)

Section Windows.
Context {A : Type}.
Implicit Types l : list A.

Lemma take_plus l (n m : nat) : take (n + m) l = take n l ++ take m (drop n l).
Proof.
  revert l. induction n as [|n IH]; intros [|x l]; simpl; try done.
  - by rewrite take_nil.
  - by rewrite IH.
Qed.

(** The first [k] windows of width [s] make up the first [k * s] elements. *)
Lemma windows_concat l (s k : nat) :
  concat (map (fun i => take s (drop (i * s) l)) (seq 0 k)) = take (k * s) l.
Proof.
  induction k as [|k IH]; [done|].
  rewrite seq_S, map_app, concat_app, IH. simpl.
  rewrite app_nil_r, (Nat.add_comm s), take_plus. done.
Qed.

End Windows.

Section PaginationMore.

Lemma totalPages_covers (n : nat) (size : Z) :
  0 < size -> Z.of_nat n <= Dashboard.totalPages n size * size.
Proof.
  intros Hs. destruct (totalPages_ceil n size Hs) as (c & [_ Hc] & ->). nia.
Qed.

Lemma totalPages_tight (n : nat) (size : Z) :
  0 < size -> (0 < n)%nat -> (Dashboard.totalPages n size - 1) * size < Z.of_nat n.
Proof.
  intros Hs Hn. destruct (totalPages_ceil n size Hs) as (c & [Hc _] & ->). nia.
Qed.

Lemma pages_concat {A} (page : Z -> list A) (l : list A) (size : Z) :
  0 < size ->
  (forall i, 1 <= i -> page i = take (Z.to_nat size) (drop (Z.to_nat ((i - 1) * size)) l)) ->
  concat (map (fun i => page (Z.of_nat i))
            (seq 1 (Z.to_nat (Dashboard.totalPages (length l) size)))) = l.
Proof.
  intros Hs Hpage.
  rewrite <- (take_ge l (Z.to_nat (Dashboard.totalPages (length l) size) * Z.to_nat size)) at 2.
  - rewrite <- windows_concat, <- seq_shift, map_map. f_equal.
    apply map_ext. intros i. rewrite Hpage by lia. do 2 f_equal. lia.
  - pose proof (totalPages_covers (length l) size Hs).
    pose proof (totalPages_pos (length l) size). nia.
Qed.

(** X1: the pages 1 to [totalPages], one after the other, are the collection:
    no record is left out and none is shown on two pages. *)
Theorem pages_partition (items : list Dashboard.Project) (items' : list Pages.Project)
    (size : Z) :
  0 < size ->
  concat (map (fun i => Dashboard.pagedProjects items (Z.of_nat i) size)
            (seq 1 (Z.to_nat (Dashboard.totalPages (length items) size)))) = items
  /\ concat (map (fun i => Pages.pageItems items' (Z.of_nat i) size)
               (seq 1 (Z.to_nat (Pages.totalPages (length items') size)))) = items'.
Proof.
  intros Hs. split.
  - apply (pages_concat (fun i => Dashboard.pagedProjects items i size)); [done|].
    intros i Hi. by apply pagedProjects_window.
  - apply (pages_concat (fun i => Pages.pageItems items' i size)); [done|].
    intros i Hi. by apply pageItems_window.
Qed.

Lemma window_length {A} (l : list A) (i size : Z) :
  0 < size -> 1 <= i ->
  Z.of_nat (length (take (Z.to_nat size) (drop (Z.to_nat ((i - 1) * size)) l)))
  = Z.max 0 (Z.min size (Z.of_nat (length l) - (i - 1) * size)).
Proof.
  intros Hs Hi. rewrite length_take, length_drop. nia.
Qed.

Lemma window_size {A} (l : list A) (i size : Z) :
  0 < size ->
  1 <= i <= Dashboard.totalPages (length l) size ->
  let n := Z.of_nat (length l) in
  let m := Z.of_nat (length (take (Z.to_nat size) (drop (Z.to_nat ((i - 1) * size)) l))) in
  m = Z.min size (n - (i - 1) * size)
  /\ (i < Dashboard.totalPages (length l) size -> m = size)
  /\ (0 < n -> 0 < m).
Proof.
  intros Hs Hi. cbv zeta. rewrite window_length by lia.
  pose proof (totalPages_covers (length l) size Hs).
  destruct (decide (0 < length l)%nat) as [Hn|Hn].
  - pose proof (totalPages_tight (length l) size Hs Hn).
    split; [nia|]. split; [intros; nia|intros; nia].
  - assert (length l = 0%nat) as Hz by lia. rewrite Hz in *.
    change (Dashboard.totalPages 0 size)
      with (Z.max 1 (Js.ceil (inject_Z 0 / inject_Z size))) in *.
    rewrite ceil_div in * by done. simpl in *. rewrite Z.div_0_l in * by lia.
    split; [nia|]. split; [intros; lia|intros; lia].
Qed.

(** X2: every page in range holds [min pageSize (n - (i-1) * pageSize)] records:
    all pages but the last are full, and no page in range is empty unless the
    collection is. *)
Theorem page_sizes (items : list Dashboard.Project) (items' : list Pages.Project)
    (i size : Z) :
  0 < size ->
  1 <= i <= Dashboard.totalPages (length items) size ->
  1 <= i <= Pages.totalPages (length items') size ->
  (let n := Z.of_nat (length items) in
   let m := Z.of_nat (length (Dashboard.pagedProjects items i size)) in
   m = Z.min size (n - (i - 1) * size)
   /\ (i < Dashboard.totalPages (length items) size -> m = size)
   /\ (0 < n -> 0 < m))
  /\ (let n := Z.of_nat (length items') in
      let m := Z.of_nat (length (Pages.pageItems items' i size)) in
      m = Z.min size (n - (i - 1) * size)
      /\ (i < Pages.totalPages (length items') size -> m = size)
      /\ (0 < n -> 0 < m)).
Proof.
  intros Hs Hi Hi'. split; cbv zeta.
  - rewrite pagedProjects_window by lia. by apply window_size.
  - rewrite pageItems_window by lia. by apply (window_size items').
Qed.

End PaginationMore.

Section PaginationMoreExamples.
Import Samples.

Lemma pages_partition_witness :
  0 < 5
  /\ Dashboard.pagedProjects twelve 1 5 ++ Dashboard.pagedProjects twelve 2 5
     ++ Dashboard.pagedProjects twelve 3 5 = twelve.
Proof.
  split; [lia|].
  pose proof (proj1 (pages_partition twelve twelvePages 5 ltac:(lia))) as Hp.
  exact Hp.
Defined.

Lemma page_sizes_witness :
  0 < 5
  /\ 1 <= 3 <= Dashboard.totalPages (length twelve) 5
  /\ 1 <= 3 <= Pages.totalPages (length twelvePages) 5
  /\ Z.of_nat (length (Dashboard.pagedProjects twelve 3 5)) = 2.
Proof.
  assert (1 <= 3 <= Dashboard.totalPages (length twelve) 5) as H1 by (vm_compute; split; discriminate).
  assert (1 <= 3 <= Pages.totalPages (length twelvePages) 5) as H2 by (vm_compute; split; discriminate).
  split; [lia|]. split; [exact H1|]. split; [exact H2|].
  exact (proj1 (proj1 (page_sizes twelve twelvePages 3 5 ltac:(lia) H1 H2))).
Defined.

End PaginationMoreExamples.

(** * Further properties: Prev and Next *)

Section Navigation.
Context `{Host}.

Lemma step_Prev_state (projects : list Dashboard.Project) (st : Dashboard.State) :
  Dashboard.step projects Dashboard.Prev st
  = Dashboard.setPage (fun p => Z.max 1 (p - 1)) st.
Proof. unfold Dashboard.step, Dashboard.effect. simpl. by rewrite decide_True. Qed.

Lemma step_Next_state (projects : list Dashboard.Project) (st : Dashboard.State) :
  Dashboard.step projects Dashboard.Next st
  = Dashboard.setPage
      (fun p => Z.min (Dashboard.v_totalPages (Dashboard.render projects st)) (p + 1)) st.
Proof. unfold Dashboard.step, Dashboard.effect. simpl. by rewrite decide_True. Qed.

(** X3: the handlers of the Prev and Next buttons, with the records
    unchanged: the handler of Next never stores an index beyond the last
    page; inside the range Next and Prev move the displayed page by one and
    undo each other; and while the stored index lies beyond the last page
    (the collection has shrunk), Prev leaves the displayed page where it is.
    (A disabled button does not call its handler and leaves the state as it
    is; wherever the displayed page moves below, the button is enabled.) *)
Theorem prev_next_navigation (projects : list Dashboard.Project) (data : list Pages.Project)
    (st : Dashboard.State) (st' : Pages.State) :
  1 <= Dashboard.page st ->
  1 <= Pages.page st' ->
  (let tp := Dashboard.v_totalPages (Dashboard.render projects st) in
   let displayed s := Dashboard.v_safePage (Dashboard.render projects s) in
   let next := Dashboard.step projects Dashboard.Next st in
   let prev := Dashboard.step projects Dashboard.Prev st in
   Dashboard.page next <= tp
   /\ (Dashboard.page st < tp -> displayed next = displayed st + 1)
   /\ (1 < Dashboard.page st <= tp -> displayed prev = displayed st - 1)
   /\ (Dashboard.page st < tp -> Dashboard.step projects Dashboard.Prev next = st)
   /\ (tp < Dashboard.page st -> displayed prev = displayed st))
  /\ (let tp := Pages.totalPages (length (Pages.shown data st')) Pages.pageSize in
      let displayed s :=
        Pages.safePage (Pages.page s)
          (Pages.totalPages (length (Pages.shown data s)) Pages.pageSize) in
      let next := Pages.handle data Pages.Next st' in
      let prev := Pages.handle data Pages.Prev st' in
      Pages.page next <= tp
      /\ (Pages.page st' < tp -> displayed next = displayed st' + 1)
      /\ (1 < Pages.page st' <= tp -> displayed prev = displayed st' - 1)
      /\ (Pages.page st' < tp -> Pages.handle data Pages.Prev next = st')
      /\ (tp < Pages.page st' -> displayed prev = displayed st')).
Proof.
  intros Hp Hp'. split; cbv zeta.
  - rewrite step_Next_state, step_Prev_state.
    destruct st as [q sf k d p]. simpl in *.
    set (tp := Dashboard.totalPages _ _).
    assert (1 <= tp) by apply totalPages_pos.
    unfold Dashboard.safePage. split; [lia|]. split; [lia|]. split; [lia|].
    split; [|lia]. intros Hlt.
    rewrite step_Prev_state. unfold Dashboard.setPage. simpl. f_equal. lia.
  - destruct st' as [q sf k d p]. simpl in *. unfold Pages.shown. simpl.
    set (tp := Pages.totalPages _ _).
    assert (1 <= tp) by exact (totalPages_pos _ _).
    unfold Pages.safePage, Pages.clamp. split; [lia|]. split; [lia|]. split; [lia|].
    split; [|lia]. intros Hlt. f_equal. lia.
Qed.

End Navigation.

Section NavigationExamples.
Import Samples RefHost.

Lemma prev_next_navigation_witness :
  1 <= Dashboard.page onPage2
  /\ 1 <= Pages.page pagesOnPage2
  /\ Dashboard.page onPage2 < Dashboard.v_totalPages (Dashboard.render twelve onPage2)
  /\ Dashboard.step twelve Dashboard.Prev (Dashboard.step twelve Dashboard.Next onPage2)
     = onPage2.
Proof.
  assert (1 <= Dashboard.page onPage2) as H1 by (vm_compute; discriminate).
  assert (1 <= Pages.page pagesOnPage2) as H2 by (vm_compute; discriminate).
  assert (Dashboard.page onPage2
          < Dashboard.v_totalPages (Dashboard.render twelve onPage2)) as H3 by reflexivity.
  split; [exact H1|]. split; [exact H2|]. split; [exact H3|].
  destruct (prev_next_navigation twelve twelvePages onPage2 pagesOnPage2 H1 H2)
    as [(_ & _ & _ & Hround & _) _].
  exact (Hround H3).
Defined.

End NavigationExamples.

(** * Further properties: KPIs and status counts *)

Section Aggregates.
Context `{Host}.

Lemma sumZ_perm (l1 l2 : list Z) : l1 ≡ₚ l2 -> Spec.sumZ l1 = Spec.sumZ l2.
Proof. induction 1; simpl; lia. Qed.

Lemma count_perm {A} (f : A -> bool) (l1 l2 : list A) :
  l1 ≡ₚ l2 -> Spec.count f l1 = Spec.count f l2.
Proof. induction 1; simpl; lia. Qed.

Lemma count_bounds {A} (f : A -> bool) (l : list A) :
  0 <= Spec.count f l <= Z.of_nat (length l).
Proof. induction l as [|x l IH]; simpl; [lia|]. destruct (f x); lia. Qed.

Lemma count_filter_all {A} (f : A -> bool) (l : list A) :
  Forall (fun x => f x = true) l -> Spec.count f l = Z.of_nat (length l).
Proof. induction 1 as [|x l Hx _ IH]; simpl; [done|]. rewrite Hx. lia. Qed.

Lemma count_filter_none {A} (f : A -> bool) (l : list A) :
  Forall (fun x => f x = false) l -> Spec.count f l = 0.
Proof. induction 1 as [|x l Hx _ IH]; simpl; [done|]. rewrite Hx. lia. Qed.

Lemma activeCount_perm (l1 l2 : list Dashboard.Project) :
  l1 ≡ₚ l2 -> Dashboard.activeCount l1 = Dashboard.activeCount l2.
Proof.
  intros Hp. unfold Dashboard.activeCount. rewrite !length_filter_count.
  by apply count_perm.
Qed.

Lemma counts_fold (l : list Dashboard.Project) (m : Counts) :
  fold_left (fun m p => from_option (fun s => bump s m) m (Dashboard.status p)) l m
  = {| nACTIVE := nACTIVE m + Spec.count (Props.hasStatus ACTIVE) l;
       nPAUSED := nPAUSED m + Spec.count (Props.hasStatus PAUSED) l;
       nDONE := nDONE m + Spec.count (Props.hasStatus DONE) l |}.
Proof.
  revert m. induction l as [|p l IH]; intros m; simpl.
  - destruct m. simpl. f_equal; lia.
  - rewrite IH. unfold Props.hasStatus.
    destruct (Dashboard.status p) as [[| |]|]; simpl; f_equal; lia.
Qed.

Lemma counts_fold_page (l : list Pages.Project) (m : Counts) :
  fold_left (fun counts p => bump (Pages.status p) counts) l m
  = {| nACTIVE := nACTIVE m + Spec.count (Props.hasStatusPage ACTIVE) l;
       nPAUSED := nPAUSED m + Spec.count (Props.hasStatusPage PAUSED) l;
       nDONE := nDONE m + Spec.count (Props.hasStatusPage DONE) l |}.
Proof.
  revert m. induction l as [|p l IH]; intros m; simpl.
  - destruct m. simpl. f_equal; lia.
  - rewrite IH. unfold Props.hasStatusPage.
    destruct (Pages.status p); simpl; f_equal; lia.
Qed.

Lemma countByStatus_rows (l : list Dashboard.Project) :
  Dashboard.countByStatus l
  = [ ("ACTIVE"%string, Spec.count (Props.hasStatus ACTIVE) l);
      ("PAUSED"%string, Spec.count (Props.hasStatus PAUSED) l);
      ("DONE"%string, Spec.count (Props.hasStatus DONE) l) ].
Proof. unfold Dashboard.countByStatus. by rewrite counts_fold. Qed.

Lemma statusPie_rows (l : list Pages.Project) :
  Pages.statusPie l
  = [ ("ACTIVE"%string, Spec.count (Props.hasStatusPage ACTIVE) l);
      ("PAUSED"%string, Spec.count (Props.hasStatusPage PAUSED) l);
      ("DONE"%string, Spec.count (Props.hasStatusPage DONE) l) ].
Proof. unfold Pages.statusPie. by rewrite counts_fold_page. Qed.

Lemma safe_perm (l1 l2 : list Dashboard.Project) :
  l1 ≡ₚ l2 -> Amounts.safe l1 -> Amounts.safe l2.
Proof.
  intros Hp [Hb Hs]. split.
  - by rewrite <- (sumZ_perm _ _ (Permutation_map _ Hp)).
  - by rewrite <- (sumZ_perm _ _ (Permutation_map _ Hp)).
Qed.

Lemma safePage_perm (l1 l2 : list Pages.Project) :
  l1 ≡ₚ l2 -> Amounts.safePage l1 -> Amounts.safePage l2.
Proof.
  intros Hp [Hb Hs]. split.
  - by rewrite <- (sumZ_perm _ _ (Permutation_map _ Hp)).
  - by rewrite <- (sumZ_perm _ _ (Permutation_map _ Hp)).
Qed.

(** The KPIs that the engine computes on integer amounts that it adds up
    without rounding do not depend on the order of the records. *)
Lemma calculateKPIs_perm (l1 l2 : list Dashboard.Project) :
  l1 ≡ₚ l2 -> Amounts.safe l1 ->
  DashboardNum.calculateKPIs (map DashboardNum.ofProject l1)
  = DashboardNum.calculateKPIs (map DashboardNum.ofProject l2).
Proof.
  intros Hp Hs1. pose proof (safe_perm _ _ Hp Hs1) as Hs2.
  destruct (totals_exact l1 Hs1) as [Hb1 Ht1]. destruct (totals_exact l2 Hs2) as [Hb2 Ht2].
  rewrite <- (sumZ_perm _ _ (Permutation_map Spec.budgetOf Hp)) in Hb2.
  rewrite <- (sumZ_perm _ _ (Permutation_map Amounts.spentOf Hp)) in Ht2.
  unfold DashboardNum.calculateKPIs.
  rewrite (burnRate_of_totals _ _ _ Ht1 Hb1), (burnRate_of_totals _ _ _ Ht2 Hb2).
  rewrite Hb1, Hb2, Ht1, Ht2.
  unfold DashboardNum.activeCount. rewrite !length_filter_map, !length_filter_count.
  by rewrite (count_perm _ _ _ Hp).
Qed.

Lemma kpis_perm (l1 l2 : list Pages.Project) :
  l1 ≡ₚ l2 -> Amounts.safePage l1 ->
  PagesNum.kpis (map PagesNum.ofProject l1) = PagesNum.kpis (map PagesNum.ofProject l2).
Proof.
  intros Hp Hs1. pose proof (safePage_perm _ _ Hp Hs1) as Hs2.
  destruct (totals_exact_page l1 Hs1) as [Hb1 Ht1].
  destruct (totals_exact_page l2 Hs2) as [Hb2 Ht2].
  rewrite <- (sumZ_perm _ _ (Permutation_map Pages.budget Hp)) in Hb2.
  rewrite <- (sumZ_perm _ _ (Permutation_map Pages.spent Hp)) in Ht2.
  pose proof (burn_of_totals _ _ _ Ht1 Hb1) as Hr1.
  pose proof (burn_of_totals _ _ _ Ht2 Hb2) as Hr2.
  assert (PagesNum.active (PagesNum.kpis (map PagesNum.ofProject l1))
          = PagesNum.active (PagesNum.kpis (map PagesNum.ofProject l2))) as Ha.
  { unfold PagesNum.kpis. cbn [PagesNum.active].
    rewrite !length_filter_map, !length_filter_count. by rewrite (count_perm _ _ _ Hp). }
  destruct (PagesNum.kpis (map PagesNum.ofProject l1)) as [b1 t1 a1 r1].
  destruct (PagesNum.kpis (map PagesNum.ofProject l2)) as [b2 t2 a2 r2].
  simpl in *. congruence.
Qed.

(** X4: sorting changes neither the active count nor the status breakdown.
    When the amounts of the filtered records are integers whose absolute
    values sum to [2^53] at most, it changes none of the KPIs that the
    engine computes: whatever the sort key and direction, the totals and the
    burn rate are those of the filtered collection.  (With amounts that have
    cents the totals can depend on the order: [cents_follow_the_order].) *)
Theorem aggregates_ignore_sorting (projects : list Dashboard.Project)
    (data : list Pages.Project) (query : string) (sf : StatusFilter)
    (k : Dashboard.SortKey) (k' : Pages.SortKey) (d : SortDir) :
  Dashboard.activeCount (Dashboard.filteredProjects projects query sf k d)
  = Dashboard.activeCount (Dashboard.filterStage projects query sf)
  /\ Dashboard.countByStatus (Dashboard.filteredProjects projects query sf k d)
     = Dashboard.countByStatus (Dashboard.filterStage projects query sf)
  /\ Pages.active (Pages.kpis (Pages.filteredSorted data query sf k' d))
     = Pages.active (Pages.kpis (Pages.filterStage data query sf))
  /\ Pages.statusPie (Pages.filteredSorted data query sf k' d)
     = Pages.statusPie (Pages.filterStage data query sf)
  /\ (Amounts.safe (Dashboard.filterStage projects query sf) ->
      DashboardNum.calculateKPIs
        (map DashboardNum.ofProject (Dashboard.filteredProjects projects query sf k d))
      = DashboardNum.calculateKPIs
          (map DashboardNum.ofProject (Dashboard.filterStage projects query sf)))
  /\ (Amounts.safePage (Pages.filterStage data query sf) ->
      PagesNum.kpis (map PagesNum.ofProject (Pages.filteredSorted data query sf k' d))
      = PagesNum.kpis (map PagesNum.ofProject (Pages.filterStage data query sf))).
Proof.
  assert (Dashboard.filteredProjects projects query sf k d
          ≡ₚ Dashboard.filterStage projects query sf) as Hp by apply sort_perm.
  assert (Pages.filteredSorted data query sf k' d
          ≡ₚ Pages.filterStage data query sf) as Hp' by apply sort_perm.
  split; [by apply activeCount_perm|]. split.
  { rewrite !countByStatus_rows. by rewrite !(count_perm _ _ _ Hp). }
  split.
  { unfold Pages.kpis. cbn [Pages.active]. rewrite !length_filter_count.
    by rewrite (count_perm _ _ _ Hp'). }
  split.
  { rewrite !statusPie_rows. by rewrite !(count_perm _ _ _ Hp'). }
  split.
  - intros Hs. symmetry. apply calculateKPIs_perm; [by symmetry|done].
  - intros Hs. symmetry. apply kpis_perm; [by symmetry|done].
Qed.

Lemma count_partition (l : list Pages.Project) :
  Spec.count (Props.hasStatusPage ACTIVE) l + Spec.count (Props.hasStatusPage PAUSED) l
  + Spec.count (Props.hasStatusPage DONE) l = Z.of_nat (length l).
Proof.
  induction l as [|p l IH]; simpl; [done|].
  unfold Props.hasStatusPage at 1 3 5. destruct (Pages.status p); simpl; lia.
Qed.

Lemma count_partition_opt (l : list Dashboard.Project) :
  Spec.count (Props.hasStatus ACTIVE) l + Spec.count (Props.hasStatus PAUSED) l
  + Spec.count (Props.hasStatus DONE) l
  = Spec.count (fun p => bool_decide (is_Some (Dashboard.status p))) l.
Proof.
  induction l as [|p l IH]; simpl; [done|].
  unfold Props.hasStatus at 1 3 5. destruct (Dashboard.status p) as [[| |]|]; simpl; lia.
Qed.

(** X5: the status breakdown always has the three rows ACTIVE, PAUSED, DONE, in
    this order; its ACTIVE row is the Active Projects KPI; its three counts
    add up to the number of records that have a status, which in
    pages/DashboardPage.tsx is every record. *)
Theorem status_breakdown_totals (projects : list Dashboard.Project)
    (items : list Pages.Project) :
  (exists a p d,
     Dashboard.countByStatus projects
     = [("ACTIVE"%string, a); ("PAUSED"%string, p); ("DONE"%string, d)]
     /\ a = Dashboard.activeCount projects
     /\ 0 <= a /\ 0 <= p /\ 0 <= d
     /\ a + p + d
        = Spec.count (fun r => bool_decide (is_Some (Dashboard.status r))) projects
     /\ a + p + d <= Z.of_nat (length projects))
  /\ (exists a p d,
        Pages.statusPie items
        = [("ACTIVE"%string, a); ("PAUSED"%string, p); ("DONE"%string, d)]
        /\ a = Pages.active (Pages.kpis items)
        /\ 0 <= a /\ 0 <= p /\ 0 <= d
        /\ a + p + d = Z.of_nat (length items)).
Proof.
  split.
  - eexists _, _, _. split; [apply countByStatus_rows|].
    split; [symmetry; exact (length_filter_count _ _)|].
    pose proof (count_bounds (Props.hasStatus ACTIVE) projects).
    pose proof (count_bounds (Props.hasStatus PAUSED) projects).
    pose proof (count_bounds (Props.hasStatus DONE) projects).
    pose proof (count_bounds (fun r => bool_decide (is_Some (Dashboard.status r))) projects).
    pose proof (count_partition_opt projects).
    repeat split; lia.
  - eexists _, _, _. split; [apply statusPie_rows|].
    split; [symmetry; exact (length_filter_count _ _)|].
    pose proof (count_bounds (Props.hasStatusPage ACTIVE) items).
    pose proof (count_bounds (Props.hasStatusPage PAUSED) items).
    pose proof (count_bounds (Props.hasStatusPage DONE) items).
    pose proof (count_partition items).
    repeat split; lia.
Qed.

Lemma sumZ_le (l1 l2 : list Z) : Forall2 Z.le l1 l2 -> Spec.sumZ l1 <= Spec.sumZ l2.
Proof. induction 1; simpl; lia. Qed.

Lemma sumZ_nonneg (l : list Z) : Forall (Z.le 0) l -> 0 <= Spec.sumZ l.
Proof. induction 1; simpl; lia. Qed.





(** X7: when no record passes the filter, every KPI is zero, there is one page
    and it is empty, the Top budgets dataset is empty and the three status
    counts are 0. *)
Theorem nothing_to_show (projects : list Dashboard.Project) (st : Dashboard.State) :
  Dashboard.filterStage projects (Dashboard.query st) (Dashboard.statusFilter st) = [] ->
  let v := Dashboard.render projects st in
  Dashboard.v_kpis v = Dashboard.calculateKPIs []
  /\ Dashboard.totalBudget [] = 0 /\ Dashboard.totalSpent [] = 0
  /\ Dashboard.activeCount [] = 0 /\ Dashboard.burnRate [] = 0
  /\ Dashboard.v_totalPages v = 1
  /\ Dashboard.v_pagedProjects v = []
  /\ Dashboard.v_topBudget v = []
  /\ Dashboard.v_statusData v
     = [("ACTIVE"%string, 0); ("PAUSED"%string, 0); ("DONE"%string, 0)].
Proof.
  intros Hempty v. subst v. unfold Dashboard.render, Dashboard.shown, Dashboard.filteredProjects.
  rewrite Hempty. simpl. repeat split; try reflexivity.
  unfold Dashboard.pagedProjects, Js.slice. by rewrite drop_nil, take_nil.
Qed.

End Aggregates.

Section AggregateExamples.
Import Samples NumSamples RefHost.

(** Three records with cents, by increasing and by decreasing budget: the
    engine adds the spending up to 1000 in one order and to a number below
    1000 in the other, and shows a burn rate of 13 and of 12. *)
Example cents_follow_the_order :
  DashboardNum.totalSpent cents = Number.Finite 1000
  /\ DashboardNum.totalSpent (reverse cents)
     = Number.Finite (8796093022207999 # 8796093022208)
  /\ DashboardNum.totalBudget cents = Number.Finite 8000
  /\ DashboardNum.totalBudget (reverse cents) = Number.Finite 8000
  /\ DashboardNum.burnRate cents = Number.Finite 13
  /\ DashboardNum.burnRate (reverse cents) = Number.Finite 12
  /\ PagesNum.burn (PagesNum.kpis centsPages) = Number.Finite 13
  /\ PagesNum.burn (PagesNum.kpis (reverse centsPages)) = Number.Finite 12.
Proof. repeat match goal with |- _ /\ _ => split end; by vm_compute. Qed.

Lemma aggregates_ignore_sorting_witness :
  Amounts.safe (Dashboard.filterStage seven EmptyString ALL)
  /\ Amounts.safePage (Pages.filterStage sevenPages EmptyString ALL)
  /\ DashboardNum.calculateKPIs
       (map DashboardNum.ofProject
          (Dashboard.filteredProjects seven EmptyString ALL Dashboard.KBudget desc))
     = DashboardNum.calculateKPIs
         (map DashboardNum.ofProject (Dashboard.filterStage seven EmptyString ALL))
  /\ PagesNum.kpis
       (map PagesNum.ofProject
          (Pages.filteredSorted sevenPages EmptyString ALL Pages.KSpent asc))
     = PagesNum.kpis
         (map PagesNum.ofProject (Pages.filterStage sevenPages EmptyString ALL)).
Proof.
  assert (Amounts.safe (Dashboard.filterStage seven EmptyString ALL)) as Hs
    by (split; by vm_compute).
  assert (Amounts.safePage (Pages.filterStage sevenPages EmptyString ALL)) as Hs'
    by (split; by vm_compute).
  destruct (aggregates_ignore_sorting seven sevenPages EmptyString ALL
              Dashboard.KBudget Pages.KSpent desc) as (_ & _ & _ & _ & Hd & _).
  destruct (aggregates_ignore_sorting seven sevenPages EmptyString ALL
              Dashboard.KBudget Pages.KSpent asc) as (_ & _ & _ & _ & _ & Hp).
  split; [exact Hs|]. split; [exact Hs'|]. split; [exact (Hd Hs)|exact (Hp Hs')].
Defined.

(** Spending above the budget shows as a burn rate above 100. *)
Example over_budget :
  Dashboard.burnRate [project 1 "Overrun" "Ana" ACTIVE 100 250 "2026-01-05"] = 250.
Proof. reflexivity. Qed.


Lemma nothing_to_show_witness :
  Dashboard.filterStage seven "ali" ALL = []
  /\ Dashboard.v_totalPages
       (Dashboard.render seven
          {| Dashboard.query := "ali"; Dashboard.statusFilter := ALL;
             Dashboard.sortKey := Dashboard.KName; Dashboard.sortDir := asc;
             Dashboard.page := 3 |}) = 1.
Proof.
  split; [reflexivity|].
  refine (proj1 (proj2 (proj2 (proj2 (proj2 (proj2
    (nothing_to_show seven
       {| Dashboard.query := "ali"; Dashboard.statusFilter := ALL;
          Dashboard.sortKey := Dashboard.KName; Dashboard.sortDir := asc;
          Dashboard.page := 3 |} _))))))).
  reflexivity.
Defined.

End AggregateExamples.

(** * Further properties: search and filter *)

Section Normalizing.

Lemma lowerChar_idem (c : ascii) : Js.lowerChar (Js.lowerChar c) = Js.lowerChar c.
Proof. destruct c as [[] [] [] [] [] [] [] []]; reflexivity. Qed.

Lemma isSpace_lowerChar (c : ascii) : Js.isSpace (Js.lowerChar c) = Js.isSpace c.
Proof. destruct c as [[] [] [] [] [] [] [] []]; reflexivity. Qed.

Lemma toLowerCase_idem (s : string) :
  Js.toLowerCase (Js.toLowerCase s) = Js.toLowerCase s.
Proof. induction s as [|c s IH]; simpl; [done|]. by rewrite lowerChar_idem, IH. Qed.

Lemma toLowerCase_append (s t : string) :
  Js.toLowerCase (s ++ t) = (Js.toLowerCase s ++ Js.toLowerCase t)%string.
Proof.
  induction s as [|c s IH]; [done|].
  rewrite append_String. simpl. by rewrite IH.
Qed.

Lemma toLowerCase_trimStart (s : string) :
  Js.toLowerCase (Js.trimStart s) = Js.trimStart (Js.toLowerCase s).
Proof.
  induction s as [|c s IH]; simpl; [done|].
  rewrite isSpace_lowerChar. by destruct (Js.isSpace c).
Qed.

Lemma toLowerCase_trimEnd (s : string) :
  Js.toLowerCase (Js.trimEnd s) = Js.trimEnd (Js.toLowerCase s).
Proof.
  induction s as [|c s IH]; simpl; [done|].
  rewrite <- IH, isSpace_lowerChar.
  destruct (Js.trimEnd s); simpl; [by destruct (Js.isSpace c)|done].
Qed.

Lemma toLowerCase_trim (s : string) :
  Js.toLowerCase (Js.trim s) = Js.trim (Js.toLowerCase s).
Proof. unfold Js.trim. by rewrite toLowerCase_trimEnd, toLowerCase_trimStart. Qed.

Lemma trimEnd_idem (s : string) : Js.trimEnd (Js.trimEnd s) = Js.trimEnd s.
Proof.
  induction s as [|c s IH]; simpl; [done|].
  destruct (Js.trimEnd s) as [|d t] eqn:Ht.
  - destruct (Js.isSpace c) eqn:Hc; simpl; [done|]. by rewrite Hc.
  - cbn [Js.trimEnd]. cbn [Js.trimEnd] in IH. by rewrite IH.
Qed.

(** A string that does not begin with white space. *)
Lemma trimStart_clean (s : string) :
  match Js.trimStart s with
  | EmptyString => True
  | String c _ => Js.isSpace c = false
  end.
Proof.
  induction s as [|c s IH]; simpl; [done|].
  by destruct (Js.isSpace c) eqn:Hc.
Qed.

Lemma trimStart_trimEnd_clean (s : string) :
  match s with EmptyString => True | String c _ => Js.isSpace c = false end ->
  Js.trimStart (Js.trimEnd s) = Js.trimEnd s.
Proof.
  destruct s as [|c s]; simpl; [done|]. intros Hc.
  destruct (Js.trimEnd s); rewrite ?Hc; simpl; by rewrite Hc.
Qed.

Lemma trim_idem (s : string) : Js.trim (Js.trim s) = Js.trim s.
Proof.
  unfold Js.trim. rewrite trimStart_trimEnd_clean by apply trimStart_clean.
  apply trimEnd_idem.
Qed.

Lemma normalize_idem (s : string) :
  Dashboard.normalize (Some (Dashboard.normalize (Some s))) = Dashboard.normalize (Some s).
Proof.
  unfold Dashboard.normalize. simpl.
  by rewrite toLowerCase_trim, toLowerCase_idem, trim_idem.
Qed.

Lemma normalize_lower (s : string) :
  Dashboard.normalize (Some (Js.toLowerCase s)) = Dashboard.normalize (Some s).
Proof. unfold Dashboard.normalize. simpl. by rewrite toLowerCase_idem. Qed.

Lemma normalize_trim (s : string) :
  Dashboard.normalize (Some (Js.trim s)) = Dashboard.normalize (Some s).
Proof. unfold Dashboard.normalize. simpl. by rewrite toLowerCase_trim, trim_idem. Qed.

Lemma filter_idem {A} (f : A -> bool) (l : list A) :
  List.filter f (List.filter f l) = List.filter f l.
Proof.
  induction l as [|x l IH]; simpl; [done|].
  destruct (f x) eqn:Hx; simpl; rewrite ?Hx, IH; done.
Qed.

Lemma filter_all {A} (f : A -> bool) (l : list A) :
  (forall x, f x = true) -> List.filter f l = l.
Proof. intros Hf. induction l as [|x l IH]; simpl; [done|]. by rewrite Hf, IH. Qed.

(** X8: the search ignores the case of the query and the white space around it:
    the query, its lower-case form and its trimmed form select the same
    records; and filtering the result again with the same query and status
    changes nothing. *)
Theorem search_normalizes_query (projects : list Dashboard.Project)
    (data : list Pages.Project) (query : string) (sf : StatusFilter) :
  Dashboard.filterStage projects (Js.toLowerCase query) sf
  = Dashboard.filterStage projects query sf
  /\ Dashboard.filterStage projects (Js.trim query) sf
     = Dashboard.filterStage projects query sf
  /\ Dashboard.filterStage (Dashboard.filterStage projects query sf) query sf
     = Dashboard.filterStage projects query sf
  /\ Pages.filterStage data (Js.toLowerCase query) sf = Pages.filterStage data query sf
  /\ Pages.filterStage data (Js.trim query) sf = Pages.filterStage data query sf
  /\ Pages.filterStage (Pages.filterStage data query sf) query sf
     = Pages.filterStage data query sf.
Proof.
  unfold Dashboard.filterStage, Pages.filterStage. cbv zeta.
  rewrite normalize_lower, normalize_trim, trim_idem, !filter_idem.
  assert (Js.toLowerCase (Js.trim (Js.toLowerCase query)) = Js.toLowerCase (Js.trim query))
    as -> by (by rewrite <- toLowerCase_trim, toLowerCase_idem).
  done.
Qed.

(** X9: a query made of white space only is no query: the status test alone
    decides, and with the status filter ALL every record is kept. *)
Theorem blank_query_keeps_all (projects : list Dashboard.Project)
    (data : list Pages.Project) (query : string) (sf : StatusFilter) :
  Js.trim query = EmptyString ->
  Dashboard.filterStage projects query sf
  = List.filter (Dashboard.matchesStatus sf) projects
  /\ Dashboard.filterStage projects query ALL = projects
  /\ Pages.filterStage data query ALL = data.
Proof.
  intros Hq.
  assert (Dashboard.normalize (Some query) = EmptyString) as Hn.
  { unfold Dashboard.normalize. simpl. by rewrite <- toLowerCase_trim, Hq. }
  unfold Dashboard.filterStage, Pages.filterStage. cbv zeta. rewrite Hn, Hq.
  split; [done|]. split; by apply filter_all.
Qed.

End Normalizing.

Section SearchFinds.

Lemma append_assoc_string (a b c : string) :
  ((a ++ b) ++ c)%string = (a ++ (b ++ c))%string.
Proof. induction a as [|x a IH]; [done|]. rewrite !append_String. by rewrite IH. Qed.

Lemma append_empty_r (a : string) : (a ++ EmptyString)%string = a.
Proof. induction a as [|x a IH]; [done|]. rewrite append_String. by rewrite IH. Qed.

Lemma substring_refl (s : string) : Spec.substring s s.
Proof. exists EmptyString, EmptyString. by rewrite append_empty_r. Qed.

Lemma substring_append_l (q a b : string) :
  Spec.substring q a -> Spec.substring q (a ++ b).
Proof.
  intros (pre & post & ->). exists pre, (post ++ b)%string.
  by rewrite !append_assoc_string.
Qed.

Lemma substring_append_r (q a b : string) :
  Spec.substring q b -> Spec.substring q (a ++ b).
Proof.
  intros (pre & post & ->). exists (a ++ pre)%string, post.
  by rewrite !append_assoc_string.
Qed.

Lemma substring_trans (q s t : string) :
  Spec.substring q s -> Spec.substring s t -> Spec.substring q t.
Proof.
  intros Hqs (pre & post & ->). by apply substring_append_r, substring_append_l.
Qed.

Lemma substring_lower (q s : string) :
  Spec.substring q s -> Spec.substring (Js.toLowerCase q) (Js.toLowerCase s).
Proof.
  intros (pre & post & ->). exists (Js.toLowerCase pre), (Js.toLowerCase post).
  by rewrite !toLowerCase_append.
Qed.

Lemma substring_join (sep x : string) (parts : list string) :
  x ∈ parts -> Spec.substring x (Js.join sep parts).
Proof.
  induction parts as [|y parts IH]; [by intros ?%elem_of_nil|].
  intros Hin. unfold Js.join in *. destruct parts as [|z parts].
  - apply list_elem_of_singleton in Hin as ->. apply substring_refl.
  - cbn [String.concat]. apply elem_of_cons in Hin as [->|Hin].
    + apply substring_append_l, substring_refl.
    + by apply substring_append_r, substring_append_r, IH.
Qed.

Lemma substring_trimStart (s : string) : Spec.substring (Js.trimStart s) s.
Proof.
  induction s as [|c s IH]; simpl; [apply substring_refl|].
  destruct (Js.isSpace c); [|apply substring_refl].
  change (String c s) with (String c EmptyString ++ s)%string.
  by apply substring_append_r.
Qed.

Lemma prefix_trimEnd (s : string) : exists post, s = (Js.trimEnd s ++ post)%string.
Proof.
  induction s as [|c s [post IH]]; simpl; [by exists EmptyString|].
  destruct (Js.trimEnd s) as [|d t] eqn:Ht.
  - destruct (Js.isSpace c).
    + by exists (String c s).
    + exists s. by rewrite append_String.
  - exists post. rewrite append_String. by rewrite <- IH.
Qed.

Lemma substring_trim (s : string) : Spec.substring (Js.trim s) s.
Proof.
  unfold Js.trim. eapply substring_trans; [|apply substring_trimStart].
  destruct (prefix_trimEnd (Js.trimStart s)) as [post Hp].
  exists EmptyString, post. by rewrite <- Hp.
Qed.

(** The cells of the haystack, before they are normalized and joined. *)
Lemma hay_cell (p : Dashboard.Project) (x : string) :
  Some x ∈ [ Dashboard.name p; Dashboard.owner p; Some (Js.numToString (Dashboard.id p));
             statusLabel <$> Dashboard.status p;
             Some (from_option Js.numToString EmptyString (Dashboard.budget p));
             Some (from_option Js.numToString EmptyString (Dashboard.spent p));
             Dashboard.createdAt p ] ->
  Spec.substring (Dashboard.normalize (Some x)) (Dashboard.hay p).
Proof.
  intros Hin. unfold Dashboard.hay. apply substring_join.
  by apply (list_elem_of_fmap_2 Dashboard.normalize) in Hin.
Qed.

(** X10: a record is found by what its row shows: in the component of api/kpis.ts
    the text of any of its seven fields, typed as the query, keeps every
    record that has this field and passes the status filter; in
    pages/DashboardPage.tsx so does its name and its owner. *)
Theorem search_finds_own_fields (projects : list Dashboard.Project)
    (data : list Pages.Project) (sf : StatusFilter) :
  (forall p x,
     p ∈ projects ->
     Dashboard.matchesStatus sf p = true ->
     Some x ∈ [ Dashboard.name p; Dashboard.owner p;
                Some (Js.numToString (Dashboard.id p));
                statusLabel <$> Dashboard.status p;
                Some (from_option Js.numToString EmptyString (Dashboard.budget p));
                Some (from_option Js.numToString EmptyString (Dashboard.spent p));
                Dashboard.createdAt p ] ->
     p ∈ Dashboard.filterStage projects x sf)
  /\ (forall p x,
        p ∈ data ->
        (sf = ALL \/ sf = Only (Pages.status p)) ->
        x = Pages.name p \/ x = Pages.owner p ->
        p ∈ Pages.filterStage data x sf).
Proof.
  split.
  - intros p x Hp Hs Hx. unfold Dashboard.filterStage.
    apply list_elem_of_In, filter_In. split; [by apply list_elem_of_In|].
    apply keeps_spec. split; [right; by apply hay_cell|].
    by apply matchesStatus_spec.
  - intros p x Hp Hs Hx. unfold Pages.filterStage. cbv zeta.
    apply list_elem_of_In, filter_In. split; [by apply list_elem_of_In|].
    apply pages_keeps_spec. split; [|done]. right.
    destruct Hx as [-> | ->]; [left|right; left];
      rewrite toLowerCase_trim; eapply substring_trans;
      solve [apply substring_trim | apply substring_refl].
Qed.

End SearchFinds.

Section FilterMoreExamples.
Import Samples.

Lemma blank_query_keeps_all_witness :
  Js.trim "   " = EmptyString /\ Dashboard.filterStage seven "   " ALL = seven.
Proof.
  split; [reflexivity|].
  exact (proj1 (proj2 (blank_query_keeps_all seven sevenPages "   " ALL eq_refl))).
Defined.

Lemma search_finds_own_fields_witness :
  project 3 "Data lake" "Carmen" PAUSED 300 200 "2026-01-07" ∈ seven
  /\ project 3 "Data lake" "Carmen" PAUSED 300 200 "2026-01-07"
     ∈ Dashboard.filterStage seven "2026-01-07" (Only PAUSED).
Proof.
  assert (project 3 "Data lake" "Carmen" PAUSED 300 200 "2026-01-07" ∈ seven) as Hin
    by (unfold seven; repeat constructor).
  split; [exact Hin|].
  apply (proj1 (search_finds_own_fields seven sevenPages (Only PAUSED))); [exact Hin|reflexivity|].
  simpl. repeat constructor.
Defined.

End FilterMoreExamples.

(** * Further properties: the sort stage *)

Section SortedInput.
Context {A : Type}.
Variable cmp : A -> A -> Z.

(** A sorted array is sorted in place to itself. *)
Lemma sort_sorted_id (l : list A) :
  StronglySorted (Spec.inOrder cmp) l -> Js.sort cmp l = l.
Proof.
  induction 1 as [|x l _ IH Hx]; simpl; [done|].
  rewrite IH. apply insert_front. destruct l as [|y l]; [done|].
  by apply Forall_cons in Hx as [Hy _].
Qed.

Lemma StronglySorted_reverse (R : A -> A -> Prop) (l : list A) :
  StronglySorted R l -> StronglySorted (flip R) (reverse l).
Proof.
  induction 1 as [|x l _ IH Hx]; [apply SSorted_nil|].
  rewrite reverse_cons. apply StronglySorted_app_2; [|exact IH|by repeat constructor].
  intros y z Hy Hz. apply list_elem_of_singleton in Hz as ->.
  rewrite elem_of_reverse in Hy. rewrite Forall_forall in Hx. unfold flip. by apply Hx.
Qed.

Lemma before_or (a b : A) (l : list A) :
  a ∈ l -> b ∈ l -> a = b \/ Spec.before a b l \/ Spec.before b a l.
Proof.
  induction l as [|x l IH]; [by intros ?%elem_of_nil|].
  intros [->|Ha]%elem_of_cons [->|Hb]%elem_of_cons.
  - by left.
  - right; left. by apply before_head.
  - right; right. by apply before_head.
  - destruct (IH Ha Hb) as [?|[?|?]]; [by left|right; left|right; right];
      by apply before_cons.
Qed.

End SortedInput.

Section SortStageOrder.
Context `{Host}.
Import Dashboard.

Lemma Forall_keeps_filter {A} (f : A -> bool) (l : list A) :
  Forall (fun x => f x = true) l -> List.filter f l = l.
Proof. induction 1 as [|x l Hx _ IH]; simpl; [done|]. by rewrite Hx, IH. Qed.

(** X11: on a host whose collation is consistent, the sort stage returns its
    records in the order of the comparator, sorting a second time changes
    nothing, and neither does running filter and sort again on their own
    output. *)
Theorem sort_stage_ordered (projects : list Project) (query : string) (sf : StatusFilter)
    (k : SortKey) (d : SortDir) :
  (forall s t, Z.sgn (localeCompare t s) = - Z.sgn (localeCompare s t)) ->
  (forall s t u, localeCompare s t <= 0 -> localeCompare t u <= 0 -> localeCompare s u <= 0) ->
  StronglySorted (Spec.inOrder (sortCmp k d)) (sortStage k d projects)
  /\ sortStage k d (sortStage k d projects) = sortStage k d projects
  /\ filteredProjects (filteredProjects projects query sf k d) query sf k d
     = filteredProjects projects query sf k d.
Proof.
  intros Hsym Htrans.
  assert (forall l, StronglySorted (Spec.inOrder (sortCmp k d)) (sortStage k d l)) as Hs
    by (intros l; by apply sortStage_sorted).
  split; [apply Hs|]. split; [apply sort_sorted_id, Hs|].
  unfold filteredProjects. unfold filterStage at 1.
  rewrite Forall_keeps_filter.
  - apply sort_sorted_id, Hs.
  - unfold sortStage. rewrite sort_perm. apply Forall_filter.
Qed.

(** X12: when no two records compare equal under the key, the descending table
    is the ascending table read backwards. *)
Theorem descending_is_reversed (k : SortKey) (l : list Project) :
  (forall s t, Z.sgn (localeCompare t s) = - Z.sgn (localeCompare s t)) ->
  (forall s t u, localeCompare s t <= 0 -> localeCompare t u <= 0 -> localeCompare s u <= 0) ->
  Props.noTies (sortCmp k asc) l ->
  sortStage k desc l = reverse (sortStage k asc l).
Proof.
  intros Hsym Htrans Hties.
  apply (StronglySorted_unique_strong (Spec.inOrder (sortCmp k desc))).
  - intros x y Hx Hy Hxy Hyx. unfold sortStage in Hx. rewrite sort_perm in Hx.
    rewrite elem_of_reverse in Hy. unfold sortStage in Hy. rewrite sort_perm in Hy.
    unfold Spec.inOrder in *. rewrite sortCmp_desc in Hxy, Hyx.
    pose proof (sortCmp_sym Hsym k asc x y) as Hs.
    destruct (before_or x y l Hx Hy) as [?|[Hb|Hb]]; [done|exfalso..].
    + apply (Hties _ _ Hb). lia.
    + apply (Hties _ _ Hb). lia.
  - by apply sortStage_sorted.
  - eapply StronglySorted_impl; [|apply StronglySorted_reverse, (sortStage_sorted Hsym Htrans k asc)].
    intros a b. unfold flip, Spec.inOrder. rewrite sortCmp_desc.
    pose proof (sortCmp_sym Hsym k asc a b). lia.
  - unfold sortStage. by rewrite reverse_Permutation, !sort_perm.
Qed.

End SortStageOrder.

Section NumericKeys.

Lemma sortCmp_numeric_host (H1 H2 : Host) (k : Dashboard.SortKey) (d : SortDir)
    (a b : Dashboard.Project) :
  Spec.kindOf k = Spec.Numeric ->
  @Dashboard.sortCmp H1 k d a b = @Dashboard.sortCmp H2 k d a b.
Proof.
  intros Hk. unfold Dashboard.sortCmp.
  destruct k; try discriminate; simpl;
    [destruct (Dashboard.budget a), (Dashboard.budget b)
    |destruct (Dashboard.spent a), (Dashboard.spent b)]; reflexivity.
Qed.

Lemma sort_ext {A} (c1 c2 : A -> A -> Z) (l : list A) :
  (forall a b, c1 a b = c2 a b) -> Js.sort c1 l = Js.sort c2 l.
Proof.
  intros Hc. induction l as [|x l IH]; simpl; [done|]. rewrite IH.
  generalize (Js.sort c2 l). intros t. induction t as [|y t IHt]; simpl; [done|].
  by rewrite Hc, IHt.
Qed.

(** X13: sorted by budget or by spending, on any host: ascending, the amounts
    never decrease down the table and the records without an amount come
    first; descending, the amounts never increase and those records come
    last.  In pages/DashboardPage.tsx, where every record has its amounts,
    likewise. *)
Theorem amounts_in_order `{Host} (l : list Dashboard.Project) (l' : list Pages.Project) :
  StronglySorted (fun a b => Props.amountLe (Dashboard.budget a) (Dashboard.budget b))
    (Dashboard.sortStage Dashboard.KBudget asc l)
  /\ StronglySorted (fun a b => Props.amountLe (Dashboard.budget b) (Dashboard.budget a))
       (Dashboard.sortStage Dashboard.KBudget desc l)
  /\ StronglySorted (fun a b => Props.amountLe (Dashboard.spent a) (Dashboard.spent b))
       (Dashboard.sortStage Dashboard.KSpent asc l)
  /\ StronglySorted (fun a b => Props.amountLe (Dashboard.spent b) (Dashboard.spent a))
       (Dashboard.sortStage Dashboard.KSpent desc l)
  /\ StronglySorted (fun a b => Pages.budget a <= Pages.budget b)
       (Pages.sortStage Pages.KBudget asc l')
  /\ StronglySorted (fun a b => Pages.budget b <= Pages.budget a)
       (Pages.sortStage Pages.KBudget desc l')
  /\ StronglySorted (fun a b => Pages.spent a <= Pages.spent b)
       (Pages.sortStage Pages.KSpent asc l')
  /\ StronglySorted (fun a b => Pages.spent b <= Pages.spent a)
       (Pages.sortStage Pages.KSpent desc l').
Proof.
  assert (forall k d, Spec.kindOf k = Spec.Numeric ->
            StronglySorted (Spec.inOrder (Dashboard.sortCmp k d)) (Dashboard.sortStage k d l))
    as Hd.
  { intros k d Hk. unfold Dashboard.sortStage.
    rewrite (sort_ext _ (@Dashboard.sortCmp Props.numericHost k d))
      by (intros; by apply sortCmp_numeric_host).
    eapply StronglySorted_impl;
      [|apply (@sortStage_sorted Props.numericHost); simpl; intros; lia].
    intros a b. unfold Spec.inOrder. by rewrite (sortCmp_numeric_host Props.numericHost H). }
  assert (forall k d, k <> Pages.KCreatedAt ->
            StronglySorted (Spec.inOrder (Pages.sortCmp k d)) (Pages.sortStage k d l')) as Hp.
  { intros k d Hk. apply sort_sorted; unfold Pages.sortCmp;
      destruct k, d; try done; simpl; intros; lia. }
  repeat split.
  1-4: eapply StronglySorted_impl; [|apply Hd; reflexivity];
    intros a b; unfold Spec.inOrder, Dashboard.sortCmp, Props.amountLe; simpl;
    destruct (Dashboard.budget a), (Dashboard.budget b),
      (Dashboard.spent a), (Dashboard.spent b); simpl; lia.
  all: eapply StronglySorted_impl; [|apply Hp; discriminate];
    intros a b; unfold Spec.inOrder, Pages.sortCmp; simpl; lia.
Qed.

End NumericKeys.

(** * Further properties: the create form *)

Section Forms.

Lemma parseStatus_label (s : ProjectStatus) : parseStatus (statusLabel s) = Some s.
Proof. by destruct s. Qed.

Lemma parseText_inl (f : Field) (m : string) (t : bool) (s r : string) :
  parseText f m t s = inl r ->
  r = (if t then Js.trim s else s) /\ (2 <= String.length r)%nat.
Proof.
  unfold parseText. cbv zeta.
  destruct (Nat.ltb_spec (String.length (if t then Js.trim s else s)) 2); [done|].
  intros [= <-]. done.
Qed.

Lemma parseText_again (f : Field) (m : string) (t : bool) (s r : string) :
  parseText f m t s = inl r -> parseText f m t r = inl r.
Proof.
  intros [-> Hlen]%parseText_inl. unfold parseText. cbv zeta.
  assert ((if t then Js.trim (if t then Js.trim s else s) else if t then Js.trim s else s)
          = (if t then Js.trim s else s)) as -> by (destruct t; [apply trim_idem|done]).
  by destruct (Nat.ltb_spec (String.length (if t then Js.trim s else s)) 2); [lia|].
Qed.

Lemma parseText_short (f : Field) (m : string) (t : bool) (s : string) :
  (String.length (if t then Js.trim s else s) < 2)%nat ->
  parseText f m t s = inr [(f, Some m)].
Proof.
  intros Hlen. unfold parseText. cbv zeta.
  by destruct (Nat.ltb_spec (String.length (if t then Js.trim s else s)) 2); [|lia].
Qed.

Lemma parseText_long (f : Field) (m : string) (t : bool) (s : string) :
  (2 <= String.length (if t then Js.trim s else s))%nat ->
  parseText f m t s = inl (if t then Js.trim s else s).
Proof.
  intros Hlen. unfold parseText. cbv zeta.
  by destruct (Nat.ltb_spec (String.length (if t then Js.trim s else s)) 2); [lia|].
Qed.

Lemma parseCreatedAt_inl (s r : string) :
  DashboardForm.parseCreatedAt s = inl r ->
  r = Js.trim s /\ JsText.isDateShape r = true /\ DashboardForm.parseCreatedAt r = inl r.
Proof.
  unfold DashboardForm.parseCreatedAt. cbv zeta.
  destruct (JsText.isDateShape (Js.trim s)) eqn:Hd; [|done]. intros [= <-].
  by rewrite trim_idem, Hd.
Qed.

Lemma parseAmount_inl (f : Field) (m : option string) (x : option Z) (n : Z) :
  parseAmount f m x = inl n -> x = Some n /\ 0 <= n.
Proof.
  unfold parseAmount. destruct x as [y|]; [|done].
  destruct (Z.ltb_spec y 0); [done|]. intros [= <-]. done.
Qed.

(** What an accepted form looks like, field by field. *)
Lemma projectSchema_inl (v : DashboardForm.ProjectFormValues) (p : DashboardForm.Payload) :
  DashboardForm.projectSchema v = inl p ->
  parseText FName "Name is required (min 2 chars)" true (DashboardForm.name v)
    = inl (DashboardForm.p_name p)
  /\ parseText FOwner "Owner is required (min 2 chars)" true (DashboardForm.owner v)
     = inl (DashboardForm.p_owner p)
  /\ parseStatus (DashboardForm.status v) = Some (DashboardForm.p_status p)
  /\ parseAmount FBudget (Some "Budget must be >= 0"%string) (DashboardForm.budget v)
     = inl (DashboardForm.p_budget p)
  /\ parseAmount FSpent (Some "Spent must be >= 0"%string) (DashboardForm.spent v)
     = inl (DashboardForm.p_spent p)
  /\ DashboardForm.parseCreatedAt (DashboardForm.createdAt v)
     = inl (DashboardForm.p_createdAt p).
Proof.
  unfold DashboardForm.projectSchema. cbv zeta.
  destruct (parseText FName _ true _), (parseText FOwner _ true _),
    (parseStatus _), (parseAmount FBudget _ _), (parseAmount FSpent _ _),
    (DashboardForm.parseCreatedAt _); try done.
  by intros [= <-].
Qed.

Lemma schema_inl (v : PagesForm.FormValues) (p : PagesForm.Parsed) :
  PagesForm.schema v = inl p ->
  parseText FName "Name too short" false (PagesForm.name v) = inl (PagesForm.v_name p)
  /\ parseText FOwner "Owner too short" false (PagesForm.owner v) = inl (PagesForm.v_owner p)
  /\ parseStatus (PagesForm.status v) = Some (PagesForm.v_status p)
  /\ parseAmount FBudget None (PagesForm.budget v) = inl (PagesForm.v_budget p)
  /\ parseAmount FSpent None (PagesForm.spent v) = inl (PagesForm.v_spent p).
Proof.
  unfold PagesForm.schema. cbv zeta.
  destruct (parseText FName _ false _), (parseText FOwner _ false _),
    (parseStatus _), (parseAmount FBudget _ _), (parseAmount FSpent _ _); try done.
  by intros [= <-].
Qed.

(** X14: submitting twice in a row does not create a project twice: after
    a submission that posted, the form as it was reset posts nothing, and its
    one issue is the missing name.  A submission that did not post leaves the
    form as it was and reports at least one issue. *)
Theorem submit_resets_name (v : DashboardForm.ProjectFormValues) (now : string)
    (v' : PagesForm.FormValues) :
  (let o := DashboardForm.handleSubmit v in
   match DashboardForm.posted o with
   | Some _ =>
       DashboardForm.errors o = []
       /\ DashboardForm.posted (DashboardForm.handleSubmit (DashboardForm.form o)) = None
       /\ DashboardForm.errors (DashboardForm.handleSubmit (DashboardForm.form o))
          = [(FName, Some "Name is required (min 2 chars)"%string)]
   | None => DashboardForm.form o = v /\ DashboardForm.errors o <> []
   end)
  /\ (let o := PagesForm.handleSubmit now v' in
      match PagesForm.posted o with
      | Some _ =>
          PagesForm.errors o = []
          /\ PagesForm.posted (PagesForm.handleSubmit now (PagesForm.form o)) = None
          /\ PagesForm.errors (PagesForm.handleSubmit now (PagesForm.form o))
             = [(FName, Some "Name too short"%string)]
      | None => PagesForm.form o = v' /\ PagesForm.errors o <> []
      end).
Proof.
  split; cbv zeta.
  - destruct (DashboardForm.projectSchema v) as [p|issues] eqn:Hv.
    + assert (DashboardForm.handleSubmit v
              = {| DashboardForm.posted := Some p;
                   DashboardForm.form :=
                     {| DashboardForm.name := EmptyString;
                        DashboardForm.owner := DashboardForm.p_owner p;
                        DashboardForm.status := statusLabel (DashboardForm.p_status p);
                        DashboardForm.budget := Some 0; DashboardForm.spent := Some 0;
                        DashboardForm.createdAt := DashboardForm.p_createdAt p |};
                   DashboardForm.errors := [] |}) as ->
        by (unfold DashboardForm.handleSubmit; by rewrite Hv).
      cbn [DashboardForm.posted DashboardForm.errors DashboardForm.form].
      apply projectSchema_inl in Hv as (_ & Ho & _ & _ & _ & Hd).
      apply parseText_again in Ho. apply parseCreatedAt_inl in Hd as (_ & _ & Hd).
      unfold DashboardForm.handleSubmit, DashboardForm.projectSchema. cbv zeta.
      cbn [DashboardForm.name DashboardForm.owner DashboardForm.status DashboardForm.budget
           DashboardForm.spent DashboardForm.createdAt].
      rewrite Ho, parseStatus_label, Hd. done.
    + assert (DashboardForm.handleSubmit v
              = {| DashboardForm.posted := None; DashboardForm.form := v;
                   DashboardForm.errors := issues |}) as ->
        by (unfold DashboardForm.handleSubmit; by rewrite Hv).
      cbn [DashboardForm.posted DashboardForm.errors DashboardForm.form].
      split; [done|]. revert Hv. unfold DashboardForm.projectSchema. cbv zeta.
      destruct (parseText FName _ true _) as [?|[|? ?]] eqn:Hn,
        (parseText FOwner _ true _) as [?|[|? ?]] eqn:Ho,
        (parseStatus _),
        (parseAmount FBudget _ _) as [?|[|? ?]] eqn:Hb,
        (parseAmount FSpent _ _) as [?|[|? ?]] eqn:Hs,
        (DashboardForm.parseCreatedAt _) as [?|[|? ?]] eqn:Hd;
        simpl; intros [= <-]; try done.
      all: first
        [ by (unfold parseText in Hn; cbv zeta in Hn; destruct (_ <? _)%nat)
        | by (unfold parseText in Ho; cbv zeta in Ho; destruct (_ <? _)%nat)
        | by (unfold parseAmount in Hb; destruct (DashboardForm.budget v) as [y|];
              [destruct (y <? 0)|])
        | by (unfold parseAmount in Hs; destruct (DashboardForm.spent v) as [y|];
              [destruct (y <? 0)|])
        | by (unfold DashboardForm.parseCreatedAt in Hd; cbv zeta in Hd;
              destruct (JsText.isDateShape _)) ].
  - destruct (PagesForm.schema v') as [p|issues] eqn:Hv.
    + assert (PagesForm.handleSubmit now v'
              = {| PagesForm.posted := Some (PagesForm.onSubmit now p).1;
                   PagesForm.form :=
                     {| PagesForm.name := EmptyString; PagesForm.owner := PagesForm.v_owner p;
                        PagesForm.status := "ACTIVE"; PagesForm.budget := Some 0;
                        PagesForm.spent := Some 0 |};
                   PagesForm.errors := [] |}) as ->
        by (unfold PagesForm.handleSubmit; by rewrite Hv).
      cbn [PagesForm.posted PagesForm.errors PagesForm.form].
      apply schema_inl in Hv as (_ & Ho & _). apply parseText_again in Ho.
      unfold PagesForm.handleSubmit, PagesForm.schema. cbv zeta.
      cbn [PagesForm.name PagesForm.owner PagesForm.status PagesForm.budget PagesForm.spent].
      rewrite Ho. done.
    + assert (PagesForm.handleSubmit now v'
              = {| PagesForm.posted := None; PagesForm.form := v';
                   PagesForm.errors := issues |}) as ->
        by (unfold PagesForm.handleSubmit; by rewrite Hv).
      cbn [PagesForm.posted PagesForm.errors PagesForm.form].
      split; [done|]. revert Hv. unfold PagesForm.schema. cbv zeta.
      destruct (parseText FName _ false _) as [?|[|? ?]] eqn:Hn,
        (parseText FOwner _ false _) as [?|[|? ?]] eqn:Ho,
        (parseStatus _),
        (parseAmount FBudget _ _) as [?|[|? ?]] eqn:Hb,
        (parseAmount FSpent _ _) as [?|[|? ?]] eqn:Hs;
        simpl; intros [= <-]; try done.
      all: first
        [ by (unfold parseText in Hn; cbv zeta in Hn; destruct (_ <? _)%nat)
        | by (unfold parseText in Ho; cbv zeta in Ho; destruct (_ <? _)%nat)
        | by (unfold parseAmount in Hb; destruct (PagesForm.budget v') as [y|];
              [destruct (y <? 0)|])
        | by (unfold parseAmount in Hs; destruct (PagesForm.spent v') as [y|];
              [destruct (y <? 0)|]) ].
Qed.

End Forms.

Section FormsMore.

Lemma handleSubmit_posted (v : DashboardForm.ProjectFormValues) (p : DashboardForm.Payload) :
  DashboardForm.posted (DashboardForm.handleSubmit v) = Some p
  <-> DashboardForm.projectSchema v = inl p.
Proof.
  unfold DashboardForm.handleSubmit.
  destruct (DashboardForm.projectSchema v); simpl; split; congruence.
Qed.

Lemma pages_handleSubmit_posted (now : string) (v : PagesForm.FormValues)
    (p : PagesForm.Payload) :
  PagesForm.posted (PagesForm.handleSubmit now v) = Some p
  <-> exists values, PagesForm.schema v = inl values
                     /\ p = (PagesForm.onSubmit now values).1.
Proof.
  unfold PagesForm.handleSubmit.
  destruct (PagesForm.schema v) as [values|issues]; simpl; split.
  - intros [= <-]. by exists values.
  - by intros (values' & [= <-] & ->).
  - done.
  - by intros (values' & ? & _).
Qed.

(** X15: what is posted satisfies the constraints of the data model: name and
    owner of two characters at least, amounts that are not negative; in the
    component of api/kpis.ts name, owner and date are trimmed and the date has
    the shape YYYY-MM-DD; in pages/DashboardPage.tsx the spending posted is
    the lesser of the spending and the budget typed, so never above the
    budget. *)
Theorem posted_payload_valid (v : DashboardForm.ProjectFormValues) (p : DashboardForm.Payload)
    (now : string) (v' : PagesForm.FormValues) (p' : PagesForm.Payload) :
  DashboardForm.posted (DashboardForm.handleSubmit v) = Some p ->
  PagesForm.posted (PagesForm.handleSubmit now v') = Some p' ->
  (DashboardForm.p_name p = Js.trim (DashboardForm.name v)
   /\ DashboardForm.p_owner p = Js.trim (DashboardForm.owner v)
   /\ DashboardForm.p_createdAt p = Js.trim (DashboardForm.createdAt v)
   /\ (2 <= String.length (DashboardForm.p_name p))%nat
   /\ (2 <= String.length (DashboardForm.p_owner p))%nat
   /\ DashboardForm.budget v = Some (DashboardForm.p_budget p)
   /\ DashboardForm.spent v = Some (DashboardForm.p_spent p)
   /\ 0 <= DashboardForm.p_budget p
   /\ 0 <= DashboardForm.p_spent p
   /\ JsText.isDateShape (DashboardForm.p_createdAt p) = true)
  /\ (PagesForm.p_name p' = PagesForm.name v'
      /\ PagesForm.p_owner p' = PagesForm.owner v'
      /\ (2 <= String.length (PagesForm.p_name p'))%nat
      /\ (2 <= String.length (PagesForm.p_owner p'))%nat
      /\ PagesForm.budget v' = Some (PagesForm.p_budget p')
      /\ (exists typed, PagesForm.spent v' = Some typed
                        /\ PagesForm.p_spent p' = Z.min typed (PagesForm.p_budget p'))
      /\ 0 <= PagesForm.p_spent p' <= PagesForm.p_budget p'
      /\ PagesForm.p_createdAt p' = JsText.slice now 0 10
      /\ (String.length (PagesForm.p_createdAt p') <= 10)%nat).
Proof.
  intros Hp Hp'. split.
  - apply handleSubmit_posted, projectSchema_inl in Hp as (Hn & Ho & _ & Hb & Hs & Hd).
    apply parseText_inl in Hn as [Hn Hnl]. apply parseText_inl in Ho as [Ho Hol].
    apply parseAmount_inl in Hb as [Hb Hb0]. apply parseAmount_inl in Hs as [Hs Hs0].
    apply parseCreatedAt_inl in Hd as (Hd & Hshape & _).
    repeat split; done.
  - apply pages_handleSubmit_posted in Hp' as (values & Hv & ->).
    apply schema_inl in Hv as (Hn & Ho & _ & Hb & Hs).
    apply parseText_inl in Hn as [Hn Hnl]. apply parseText_inl in Ho as [Ho Hol].
    apply parseAmount_inl in Hb as [Hb Hb0]. apply parseAmount_inl in Hs as [Hs Hs0].
    cbn [PagesForm.onSubmit fst PagesForm.p_name PagesForm.p_owner PagesForm.p_budget
         PagesForm.p_spent PagesForm.p_createdAt].
    split; [done|]. split; [done|]. split; [done|]. split; [done|].
    split; [done|]. split; [by exists (PagesForm.v_spent values)|]. split; [lia|].
    split; [done|].
    unfold JsText.slice. rewrite <- (list_ascii_of_string_of_list_ascii (Js.slice _ 0 10)).
    assert (forall s, String.length s = length (list_ascii_of_string s)) as Hlen
      by (induction s as [|c s IH]; simpl; by rewrite ?IH).
    rewrite string_of_list_ascii_of_string, Hlen, list_ascii_of_string_of_list_ascii.
    pose proof (slice_length (list_ascii_of_string now) 0 10 ltac:(lia)). lia.
Qed.

(** X16: after a submission that posted, typing a name is enough to post
    again: in the component of api/kpis.ts a name of two characters at least
    once the white space around it is removed, with owner, status and date
    kept from the submission before; in pages/DashboardPage.tsx, whose schema
    does not trim, any name of two characters at least, white space
    included, with the owner kept and the status back to ACTIVE.  The
    amounts are 0 in both. *)
Theorem reset_form_needs_only_a_name (v : DashboardForm.ProjectFormValues)
    (p : DashboardForm.Payload) (n n' : string) (now now' : string)
    (v' : PagesForm.FormValues) (p' : PagesForm.Payload) :
  DashboardForm.posted (DashboardForm.handleSubmit v) = Some p ->
  PagesForm.posted (PagesForm.handleSubmit now v') = Some p' ->
  ((2 <= String.length (Js.trim n))%nat ->
   DashboardForm.posted
     (DashboardForm.handleSubmit
        (DashboardForm.typeName n (DashboardForm.form (DashboardForm.handleSubmit v))))
   = Some {| DashboardForm.p_name := Js.trim n;
             DashboardForm.p_owner := DashboardForm.p_owner p;
             DashboardForm.p_status := DashboardForm.p_status p;
             DashboardForm.p_budget := 0; DashboardForm.p_spent := 0;
             DashboardForm.p_createdAt := DashboardForm.p_createdAt p |})
  /\ ((2 <= String.length n')%nat ->
      PagesForm.posted
        (PagesForm.handleSubmit now'
           (PagesForm.typeName n' (PagesForm.form (PagesForm.handleSubmit now v'))))
      = Some {| PagesForm.p_name := n'; PagesForm.p_owner := PagesForm.p_owner p';
                PagesForm.p_status := ACTIVE; PagesForm.p_budget := 0;
                PagesForm.p_spent := 0;
                PagesForm.p_createdAt := JsText.slice now' 0 10 |}).
Proof.
  intros Hp Hp'. split.
  - intros Hn. apply handleSubmit_posted in Hp.
    assert (DashboardForm.form (DashboardForm.handleSubmit v)
            = {| DashboardForm.name := EmptyString;
                 DashboardForm.owner := DashboardForm.p_owner p;
                 DashboardForm.status := statusLabel (DashboardForm.p_status p);
                 DashboardForm.budget := Some 0; DashboardForm.spent := Some 0;
                 DashboardForm.createdAt := DashboardForm.p_createdAt p |}) as ->
      by (unfold DashboardForm.handleSubmit; by rewrite Hp).
    apply projectSchema_inl in Hp as (_ & Ho & _ & _ & _ & Hd).
    apply parseText_again in Ho. apply parseCreatedAt_inl in Hd as (_ & _ & Hd).
    apply handleSubmit_posted.
    unfold DashboardForm.projectSchema, DashboardForm.typeName. cbv zeta.
    cbn [DashboardForm.name DashboardForm.owner DashboardForm.status DashboardForm.budget
         DashboardForm.spent DashboardForm.createdAt].
    rewrite (parseText_long FName _ true n Hn), Ho, parseStatus_label, Hd. done.
  - intros Hn'. apply pages_handleSubmit_posted in Hp' as (values & Hv & ->).
    assert (PagesForm.form (PagesForm.handleSubmit now v')
            = {| PagesForm.name := EmptyString; PagesForm.owner := PagesForm.v_owner values;
                 PagesForm.status := "ACTIVE"; PagesForm.budget := Some 0;
                 PagesForm.spent := Some 0 |}) as ->
      by (unfold PagesForm.handleSubmit; by rewrite Hv).
    apply schema_inl in Hv as (_ & Ho & _). apply parseText_again in Ho.
    apply pages_handleSubmit_posted. eexists. split.
    + unfold PagesForm.schema, PagesForm.typeName. cbv zeta.
      cbn [PagesForm.name PagesForm.owner PagesForm.status PagesForm.budget PagesForm.spent].
      rewrite (parseText_long FName _ false n' Hn'), Ho. reflexivity.
    + reflexivity.
Qed.

Lemma isDateShape_parts (y m d : string) :
  Props.digitsOnly 4 y = true -> Props.digitsOnly 2 m = true -> Props.digitsOnly 2 d = true ->
  JsText.isDateShape (y ++ "-" ++ m ++ "-" ++ d) = true.
Proof.
  unfold Props.digitsOnly.
  destruct y as [|y1 [|y2 [|y3 [|y4 [|? ?]]]]]; try done.
  destruct m as [|m1 [|m2 [|? ?]]]; try done.
  destruct d as [|d1 [|d2 [|? ?]]]; try done.
  unfold JsText.isDateShape, JsText.isDigit. simpl.
  intros Hy Hm Hd. repeat (apply andb_prop in Hy as [? Hy]).
  repeat (apply andb_prop in Hm as [? Hm]). repeat (apply andb_prop in Hd as [? Hd]).
  repeat match goal with H : _ && _ = true |- _ => rewrite H; clear H end.
  reflexivity.
Qed.

Lemma isDigit_not_space (c : ascii) : JsText.isDigit c = true -> Js.isSpace c = false.
Proof. destruct c as [[] [] [] [] [] [] [] []]; done. Qed.

(** A string of the shape YYYY-MM-DD has no white space to trim. *)
Lemma isDateShape_trim (s : string) : JsText.isDateShape s = true -> Js.trim s = s.
Proof.
  unfold JsText.isDateShape.
  destruct s as [|c1 [|c2 [|c3 [|c4 [|c5 [|c6 [|c7 [|c8 [|c9 [|c10 [|? ?]]]]]]]]]]]; try done.
  cbn [list_ascii_of_string forallb]. intros Hs.
  assert (JsText.isDigit c1 = true /\ JsText.isDigit c10 = true) as [H1 H10].
  { repeat match goal with H : (_ && _) = true |- _ => apply andb_prop in H as [? ?] end.
    done. }
  unfold Js.trim. cbn [Js.trimStart]. rewrite (isDigit_not_space c1 H1).
  cbn [Js.trimEnd]. by rewrite (isDigit_not_space c10 H10).
Qed.

Lemma year_digits (y : Z) :
  1000 <= y <= 9999 -> Props.digitsOnly 4 (Js.numToString y) = true.
Proof.
  intros Hy.
  assert (forallb (fun k => Props.digitsOnly 4 (Js.numToString (1000 + Z.of_nat k)))
            (seq 0 (Z.to_nat 9000)) = true) as Hall by (vm_compute; reflexivity).
  rewrite forallb_forall in Hall.
  replace y with (1000 + Z.of_nat (Z.to_nat (y - 1000))) by lia.
  apply Hall, in_seq. lia.
Qed.

Lemma two_digits (n : Z) :
  1 <= n <= 31 -> Props.digitsOnly 2 (JsText.padStart (Js.numToString n) 2 "0") = true.
Proof.
  intros Hn.
  assert (forallb (fun k => Props.digitsOnly 2
                              (JsText.padStart (Js.numToString (1 + Z.of_nat k)) 2 "0"))
            (seq 0 31) = true) as Hall by (vm_compute; reflexivity).
  rewrite forallb_forall in Hall.
  replace n with (1 + Z.of_nat (Z.to_nat (n - 1))) by lia.
  apply Hall, in_seq. lia.
Qed.

(** X17: for a clock in the years 1000 to 9999, the date the form offers passes
    the date test of the schema, so the form as it opens lacks only the name:
    with a name typed it posts a project of the default owner, status ACTIVE,
    no budget, no spending, created that day. *)
Theorem default_form_needs_only_a_name (yyyy month date : Z) (n : string) :
  1000 <= yyyy <= 9999 -> 0 <= month <= 11 -> 1 <= date <= 31 ->
  (2 <= String.length (Js.trim n))%nat ->
  JsText.isDateShape (DashboardForm.defaultDate yyyy month date) = true
  /\ DashboardForm.posted (DashboardForm.handleSubmit (DashboardForm.defaultValues yyyy month date))
     = None
  /\ DashboardForm.posted
       (DashboardForm.handleSubmit
          (DashboardForm.typeName n (DashboardForm.defaultValues yyyy month date)))
     = Some {| DashboardForm.p_name := Js.trim n; DashboardForm.p_owner := "Antoniu";
               DashboardForm.p_status := ACTIVE; DashboardForm.p_budget := 0;
               DashboardForm.p_spent := 0;
               DashboardForm.p_createdAt := DashboardForm.defaultDate yyyy month date |}.
Proof.
  intros Hy Hm Hd Hn.
  assert (JsText.isDateShape (DashboardForm.defaultDate yyyy month date) = true) as Hshape.
  { unfold DashboardForm.defaultDate. cbv zeta.
    apply isDateShape_parts; [by apply year_digits|apply two_digits; lia|by apply two_digits]. }
  assert (DashboardForm.parseCreatedAt (DashboardForm.defaultDate yyyy month date)
          = inl (DashboardForm.defaultDate yyyy month date)) as Hdate.
  { unfold DashboardForm.parseCreatedAt. cbv zeta.
    by rewrite (isDateShape_trim _ Hshape), Hshape. }
  split; [done|]. split.
  - unfold DashboardForm.handleSubmit, DashboardForm.projectSchema, DashboardForm.defaultValues.
    cbv zeta.
    cbn [DashboardForm.name DashboardForm.owner DashboardForm.status DashboardForm.budget
         DashboardForm.spent DashboardForm.createdAt].
    by rewrite Hdate.
  - apply handleSubmit_posted.
    unfold DashboardForm.projectSchema, DashboardForm.typeName, DashboardForm.defaultValues.
    cbv zeta.
    cbn [DashboardForm.name DashboardForm.owner DashboardForm.status DashboardForm.budget
         DashboardForm.spent DashboardForm.createdAt].
    by rewrite (parseText_long FName _ true n Hn), Hdate.
Qed.

End FormsMore.

Section FormExamples.

Example default_date_ex :
  DashboardForm.defaultDate 2026 0 5 = "2026-01-05"%string
  /\ DashboardForm.defaultDate 2026 10 30 = "2026-11-30"%string
  /\ JsText.isDateShape (DashboardForm.defaultDate 987 0 5) = false.
Proof. repeat split; reflexivity. Qed.
End FormExamples.

(** * Further properties: the status filter and the table *)

Section StatusFilter.
Context `{Host}.

Lemma keeps_status (q : string) (s : ProjectStatus) (p : Dashboard.Project) :
  Dashboard.keeps q (Only s) p = true -> Dashboard.status p = Some s.
Proof.
  unfold Dashboard.keeps. destruct (Js.isEmpty q); simpl.
  - by intros ?%bool_decide_eq_true.
  - by intros [?%bool_decide_eq_true _]%andb_prop.
Qed.

Lemma pages_keeps_status (qq : string) (s : ProjectStatus) (p : Pages.Project) :
  Pages.keeps qq (Only s) p = true -> Pages.status p = s.
Proof.
  unfold Pages.keeps. cbv zeta. by intros [_ ?%bool_decide_eq_true]%andb_prop.
Qed.

Lemma count_status (s s' : ProjectStatus) (l : list Dashboard.Project) :
  Forall (fun p => Dashboard.status p = Some s) l ->
  Spec.count (Props.hasStatus s') l = if decide (s' = s) then Z.of_nat (length l) else 0.
Proof.
  intros Hall. destruct (decide (s' = s)) as [->|Hne].
  - apply count_filter_all. eapply Forall_impl; [exact Hall|].
    intros p Hp. by apply bool_decide_eq_true.
  - apply count_filter_none. eapply Forall_impl; [exact Hall|].
    intros p Hp. apply bool_decide_eq_false. congruence.
Qed.

Lemma count_status_page (s s' : ProjectStatus) (l : list Pages.Project) :
  Forall (fun p => Pages.status p = s) l ->
  Spec.count (Props.hasStatusPage s') l = if decide (s' = s) then Z.of_nat (length l) else 0.
Proof.
  intros Hall. destruct (decide (s' = s)) as [->|Hne].
  - apply count_filter_all. eapply Forall_impl; [exact Hall|].
    intros p Hp. by apply bool_decide_eq_true.
  - apply count_filter_none. eapply Forall_impl; [exact Hall|].
    intros p Hp. apply bool_decide_eq_false. congruence.
Qed.

(** X18: with the status filter set to one status, every record of the table has
    that status, and the status breakdown shows the size of the table for
    that status and 0 for the two others. *)
Theorem status_filter_selects (projects : list Dashboard.Project) (data : list Pages.Project)
    (query : string) (s : ProjectStatus) (k : Dashboard.SortKey) (k' : Pages.SortKey)
    (d : SortDir) :
  (let table := Dashboard.filteredProjects projects query (Only s) k d in
   let n := Z.of_nat (length table) in
   Forall (fun p => Dashboard.status p = Some s) table
   /\ Dashboard.countByStatus table
      = [ ("ACTIVE"%string, if decide (ACTIVE = s) then n else 0);
          ("PAUSED"%string, if decide (PAUSED = s) then n else 0);
          ("DONE"%string, if decide (DONE = s) then n else 0) ])
  /\ (let table := Pages.filteredSorted data query (Only s) k' d in
      let n := Z.of_nat (length table) in
      Forall (fun p => Pages.status p = s) table
      /\ Pages.statusPie table
         = [ ("ACTIVE"%string, if decide (ACTIVE = s) then n else 0);
             ("PAUSED"%string, if decide (PAUSED = s) then n else 0);
             ("DONE"%string, if decide (DONE = s) then n else 0) ]).
Proof.
  split; cbv zeta.
  - assert (Forall (fun p => Dashboard.status p = Some s)
              (Dashboard.filteredProjects projects query (Only s) k d)) as Hall.
    { unfold Dashboard.filteredProjects, Dashboard.sortStage, Dashboard.filterStage.
      rewrite sort_perm. eapply Forall_impl; [apply Forall_filter|].
      intros p. apply keeps_status. }
    split; [done|]. rewrite countByStatus_rows. by rewrite !(count_status s).
  - assert (Forall (fun p => Pages.status p = s)
              (Pages.filteredSorted data query (Only s) k' d)) as Hall.
    { unfold Pages.filteredSorted, Pages.sortStage, Pages.filterStage. cbv zeta.
      rewrite sort_perm. eapply Forall_impl; [apply Forall_filter|].
      intros p. apply pages_keeps_status. }
    split; [done|]. rewrite statusPie_rows. by rewrite !(count_status_page s).
Qed.

(** X19: while records pass the filter the table is never blank: in every
    reachable state of the component of api/kpis.ts, and for every stored
    index in pages/DashboardPage.tsx, the page displayed holds a record
    whenever the filtered collection does, however the collection has
    changed since the index was stored. *)
Theorem displayed_page_not_blank (projects : list Dashboard.Project) (st : Dashboard.State)
    (data : list Pages.Project) (st' : Pages.State) :
  Dashboard.reachable st ->
  (Dashboard.shown projects st <> [] ->
   Dashboard.v_pagedProjects (Dashboard.render projects st) <> [])
  /\ (Pages.shown data st' <> [] ->
      Pages.pageItems (Pages.shown data st')
        (Pages.safePage (Pages.page st')
           (Pages.totalPages (length (Pages.shown data st')) Pages.pageSize))
        Pages.pageSize <> []).
Proof.
  intros Hr. pose proof (reachable_page_pos st Hr) as Hp.
  assert (forall A (l : list A), l <> [] -> 0 < Z.of_nat (length l)) as Hlen
    by (intros A [|x l]; [done|simpl; lia]).
  assert (forall A (l : list A), 0 < Z.of_nat (length l) -> l <> []) as Hlen'
    by (intros A [|x l]; [simpl; lia|done]).
  split; intros Hne.
  - pose proof (totalPages_pos (length (Dashboard.shown projects st)) Dashboard.pageSize).
    cbn [Dashboard.render Dashboard.v_pagedProjects].
    rewrite pagedProjects_window by (try done; unfold Dashboard.safePage; lia).
    apply Hlen', window_size; [done| |by apply Hlen].
    unfold Dashboard.safePage. lia.
  - pose proof (totalPages_pos (length (Pages.shown data st')) Pages.pageSize).
    rewrite pageItems_window
      by (try done; unfold Pages.safePage, Pages.clamp, Pages.totalPages in *; lia).
    apply Hlen', window_size; [done| |by apply Hlen].
    unfold Pages.safePage, Pages.clamp, Pages.totalPages, Dashboard.totalPages in *. lia.
Qed.

End StatusFilter.

(** * The reference host is consistent *)

Section ReferenceHost.

Lemma compareStrings_sym (s t : string) :
  Z.sgn (RefHost.compareStrings t s) = - Z.sgn (RefHost.compareStrings s t).
Proof.
  unfold RefHost.compareStrings. rewrite (String.compare_antisym t s).
  by destruct (String.compare s t).
Qed.

Lemma string_compare_trans (s t u : string) :
  String.compare s t <> Gt -> String.compare t u <> Gt -> String.compare s u <> Gt.
Proof.
  revert t u. induction s as [|a s IH]; intros [|b t] [|c u]; simpl; try done.
  unfold Ascii.compare.
  destruct (N.compare_spec (N_of_ascii a) (N_of_ascii b)) as [Hab|Hab|Hab];
    destruct (N.compare_spec (N_of_ascii b) (N_of_ascii c)) as [Hbc|Hbc|Hbc];
    destruct (N.compare_spec (N_of_ascii a) (N_of_ascii c)) as [Hac|Hac|Hac];
    try done; try lia.
  apply IH.
Qed.

Lemma compareStrings_trans (s t u : string) :
  RefHost.compareStrings s t <= 0 -> RefHost.compareStrings t u <= 0 ->
  RefHost.compareStrings s u <= 0.
Proof.
  unfold RefHost.compareStrings. intros Hst Htu.
  pose proof (string_compare_trans s t u) as Htr.
  destruct (String.compare s t), (String.compare t u), (String.compare s u);
    try lia; exfalso; by apply Htr.
Qed.

Lemma noTiesb_spec {A} (cmp : A -> A -> Z) (l : list A) :
  Props.noTiesb cmp l = true -> Props.noTies cmp l.
Proof.
  induction l as [|x l IH]; intros Hb a b Hab.
  - by apply before_nil in Hab.
  - simpl in Hb. apply andb_prop in Hb as [Hx Hl].
    destruct (before_cons_inv cmp _ _ _ _ Hab) as [[Hxa Hin]|Hab'].
    + subst x. rewrite forallb_forall in Hx.
      apply list_elem_of_In, Hx in Hin.
      by apply negb_true_iff, Z.eqb_neq in Hin.
    + by apply (IH Hl).
Qed.

End ReferenceHost.

Section MoreWitnesses.
Import Samples RefHost.

Example by_name :
  map Dashboard.id (Dashboard.sortStage Dashboard.KName asc withTies) = [1; 5; 7; 3]
  /\ map Dashboard.id (Dashboard.sortStage Dashboard.KName desc withTies) = [3; 7; 5; 1].
Proof. split; reflexivity. Qed.

Lemma sort_stage_ordered_witness :
  Dashboard.sortStage Dashboard.KName asc
    (Dashboard.sortStage Dashboard.KName asc withTies)
  = Dashboard.sortStage Dashboard.KName asc withTies.
Proof.
  exact (proj1 (proj2 (sort_stage_ordered withTies EmptyString ALL Dashboard.KName asc
                         (fun s t => compareStrings_sym s t) compareStrings_trans))).
Defined.

Lemma descending_is_reversed_witness :
  Props.noTies (Dashboard.sortCmp Dashboard.KName asc) withTies
  /\ Dashboard.sortStage Dashboard.KName desc withTies
     = reverse (Dashboard.sortStage Dashboard.KName asc withTies).
Proof.
  assert (Props.noTies (Dashboard.sortCmp Dashboard.KName asc) withTies) as Hn
    by (apply noTiesb_spec; reflexivity).
  split; [exact Hn|].
  exact (descending_is_reversed Dashboard.KName withTies
           (fun s t => compareStrings_sym s t) compareStrings_trans Hn).
Defined.

Lemma displayed_page_not_blank_witness :
  Dashboard.reachable onPage2
  /\ Dashboard.shown seven onPage2 <> []
  /\ Dashboard.v_pagedProjects (Dashboard.render seven onPage2) <> []
  /\ Pages.pageItems (Pages.shown sevenPages pagesOnPage2)
        (Pages.safePage (Pages.page pagesOnPage2)
           (Pages.totalPages (length (Pages.shown sevenPages pagesOnPage2)) Pages.pageSize))
        Pages.pageSize <> [].
Proof.
  assert (Dashboard.reachable onPage2) as Hr.
  { change onPage2 with (Dashboard.step twelve Dashboard.Next Dashboard.initial).
    apply Dashboard.reach_step, Dashboard.reach_initial. }
  assert (Dashboard.shown seven onPage2 <> []) as Hne by discriminate.
  assert (Pages.shown sevenPages pagesOnPage2 <> []) as Hne' by discriminate.
  split; [exact Hr|]. split; [exact Hne|].
  split.
  - exact (proj1 (displayed_page_not_blank seven onPage2 sevenPages pagesOnPage2 Hr) Hne).
  - exact (proj2 (displayed_page_not_blank seven onPage2 sevenPages pagesOnPage2 Hr) Hne').
Defined.

Example overspending_is_capped :
  DashboardForm.posted (DashboardForm.handleSubmit FormSamples.typed)
  = Some FormSamples.sent
  /\ PagesForm.posted (PagesForm.handleSubmit FormSamples.clock FormSamples.typedPage)
     = Some FormSamples.sentPage.
Proof. split; reflexivity. Qed.

Lemma posted_payload_valid_witness :
  DashboardForm.posted (DashboardForm.handleSubmit FormSamples.typed)
  = Some FormSamples.sent
  /\ PagesForm.posted (PagesForm.handleSubmit FormSamples.clock FormSamples.typedPage)
     = Some FormSamples.sentPage
  /\ JsText.isDateShape (DashboardForm.p_createdAt FormSamples.sent) = true
  /\ 0 <= PagesForm.p_spent FormSamples.sentPage
       <= PagesForm.p_budget FormSamples.sentPage.
Proof.
  pose proof (posted_payload_valid FormSamples.typed FormSamples.sent FormSamples.clock
                FormSamples.typedPage FormSamples.sentPage eq_refl eq_refl)
    as [(_ & _ & _ & _ & _ & _ & _ & _ & _ & Hd) (_ & _ & _ & _ & _ & _ & Hs & _)].
  split; [reflexivity|]. split; [reflexivity|]. split; [exact Hd|exact Hs].
Defined.

Lemma reset_form_needs_only_a_name_witness :
  (2 <= String.length (Js.trim " Intranet"))%nat
  /\ (2 <= String.length "a ")%nat
  /\ DashboardForm.posted
       (DashboardForm.handleSubmit
          (DashboardForm.typeName " Intranet"
             (DashboardForm.form (DashboardForm.handleSubmit FormSamples.typed))))
     = Some {| DashboardForm.p_name := "Intranet"; DashboardForm.p_owner := "Ana";
               DashboardForm.p_status := PAUSED; DashboardForm.p_budget := 0;
               DashboardForm.p_spent := 0; DashboardForm.p_createdAt := "2026-01-05" |}
  /\ PagesForm.posted
       (PagesForm.handleSubmit FormSamples.clockLater
          (PagesForm.typeName "a "
             (PagesForm.form
                (PagesForm.handleSubmit FormSamples.clock FormSamples.typedPage))))
     = Some {| PagesForm.p_name := "a "; PagesForm.p_owner := "Ana";
               PagesForm.p_status := ACTIVE; PagesForm.p_budget := 0;
               PagesForm.p_spent := 0; PagesForm.p_createdAt := "2026-01-06" |}.
Proof.
  assert (2 <= String.length (Js.trim " Intranet"))%nat as Hn by (vm_compute; lia).
  assert (2 <= String.length "a ")%nat as Hn' by (vm_compute; lia).
  pose proof (reset_form_needs_only_a_name FormSamples.typed FormSamples.sent " Intranet"
                "a " FormSamples.clock FormSamples.clockLater FormSamples.typedPage
                FormSamples.sentPage eq_refl eq_refl) as [Hd Hp].
  split; [exact Hn|]. split; [exact Hn'|]. split; [exact (Hd Hn)|exact (Hp Hn')].
Defined.

Lemma default_form_needs_only_a_name_witness :
  1000 <= 2026 <= 9999 /\ 0 <= 0 <= 11 /\ 1 <= 5 <= 31
  /\ (2 <= String.length (Js.trim "Portal"))%nat
  /\ DashboardForm.defaultDate 2026 0 5 = "2026-01-05"%string
  /\ JsText.isDateShape (DashboardForm.defaultDate 2026 0 5) = true
  /\ DashboardForm.posted
       (DashboardForm.handleSubmit (DashboardForm.defaultValues 2026 0 5)) = None
  /\ DashboardForm.posted
       (DashboardForm.handleSubmit
          (DashboardForm.typeName "Portal" (DashboardForm.defaultValues 2026 0 5)))
     = Some {| DashboardForm.p_name := "Portal"; DashboardForm.p_owner := "Antoniu";
               DashboardForm.p_status := ACTIVE; DashboardForm.p_budget := 0;
               DashboardForm.p_spent := 0; DashboardForm.p_createdAt := "2026-01-05" |}.
Proof.
  assert (2 <= String.length (Js.trim "Portal"))%nat as Hn by (vm_compute; lia).
  split; [lia|]. split; [lia|]. split; [lia|]. split; [exact Hn|].
  split; [reflexivity|].
  exact (default_form_needs_only_a_name 2026 0 5 "Portal"
           ltac:(lia) ltac:(lia) ltac:(lia) Hn).
Defined.

End MoreWitnesses.
